(** * FleetFlow: a shallow embedding of [app.py]

    The Flask application of [src/app.py] is embedded as pure functions over
    an explicit database value.  A handler takes the session, the parsed
    request and the database, and returns an [outcome]: the database after
    the request, the session, the messages flashed and the response.

    What the application takes from its libraries and from [schema.sql]
    (string primitives, [strptime], password hashing, the integrity
    constraints of the tables) is gathered in the class [Platform]; every
    definition and theorem is generic in it. *)

From Stdlib Require Import ZArith List String Ascii Bool Lia.
From Stdlib Require Import Floats.PrimFloat.
From Stdlib Require Floats.FloatAxioms Floats.SpecFloat.
Import ListNotations.

Open Scope string_scope.
Open Scope Z_scope.

(** ** Python values *)

(** [datetime.date], ordered as Python orders dates. *)
Record date := mkdate { year : Z; month : Z; day : Z }.

Definition date_ltb (a b : date) : bool :=
  (year a <? year b)
  || ((year a =? year b)
      && ((month a <? month b) || ((month a =? month b) && (day a <? day b)))).

(** Exceptions that the handlers can meet. *)
Inductive exn := ValueError | TypeError | IntegrityError | OverflowError.

Inductive result (A : Type) :=
| Ok (a : A)
| Raise (e : exn).
Arguments Ok {A} a.
Arguments Raise {A} e.

Definition bind {A B} (c : result A) (k : A -> result B) : result B :=
  match c with
  | Ok a => k a
  | Raise e => Raise e
  end.

Notation "x <- c ;; k" := (bind c (fun x => k))
  (at level 61, c at next level, right associativity).
Notation "' pat <- c ;; k" := (bind c (fun x => match x with pat => k end))
  (at level 61, pat pattern, c at next level, right associativity).

(** [s in l] for a list (or set literal) of strings. *)
Definition str_in (s : string) (l : list string) : bool :=
  existsb (String.eqb s) l.

(** Truth value of a string, and of what [request.form.get(..., type=int)]
    returns: [None] and [0] are false. *)
Definition truthy_str (s : string) : bool := negb (s =? "")%string.

Definition truthy_int (n : option Z) : bool :=
  match n with
  | Some k => negb (k =? 0)
  | None => false
  end.

(** [request.form.get(key, default)]: a form field is [None] when the form
    does not carry the key. *)
Definition get_default (field : option string) (default : string) : string :=
  match field with
  | Some s => s
  | None => default
  end.

(** [a != b] where [a] may be [None]. *)
Definition opt_str_eqb (a : option string) (b : string) : bool :=
  match a with
  | Some s => (s =? b)%string
  | None => false
  end.

(** ** Rows and tables *)

Record User := mkUser {
  u_id : Z;
  u_username : string;
  u_name : option string;
  u_email : option string;
  u_password_hash : string;
  u_role : string;
  u_status : string }.

Record Vehicle := mkVehicle {
  v_id : Z;
  v_model_name : string;
  v_license_plate : string;
  v_max_capacity_kg : option float;
  v_odometer : Z;
  v_status : string }.

Record Driver := mkDriver {
  d_id : Z;
  d_name : string;
  d_license_number : string;
  d_license_expiry_date : option string;
  d_status : string;
  d_safety_score : Z }.

Record Trip := mkTrip {
  t_id : Z;
  t_vehicle_id : Z;
  t_driver_id : Z;
  t_cargo_weight : option float;
  t_origin : string;
  t_destination : string;
  t_status : string }.

Record MaintenanceLog := mkMaintenanceLog {
  m_id : Z;
  m_vehicle_id : Z;
  m_description : string;
  m_cost : option float;
  m_date : string }.

Record FuelLog := mkFuelLog {
  f_id : Z;
  f_vehicle_id : Z;
  f_liters : option float;
  f_cost : option float;
  f_date : string }.

(** The [id INTEGER PRIMARY KEY] of a row. *)
Class HasId (R : Type) := rowid : R -> Z.

#[export] Instance User_id : HasId User := u_id.
#[export] Instance Vehicle_id : HasId Vehicle := v_id.
#[export] Instance Driver_id : HasId Driver := d_id.
#[export] Instance Trip_id : HasId Trip := t_id.
#[export] Instance MaintenanceLog_id : HasId MaintenanceLog := m_id.
#[export] Instance FuelLog_id : HasId FuelLog := f_id.

(** A table: its rows in rowid order, and the largest rowid it ever gave
    out ([AUTOINCREMENT], as the [users] and [fuel_logs] tables of
    [ensure_schema_updates] declare). *)
Record Table (R : Type) := mkTable { rows : list R; seq : Z }.
Arguments mkTable {R} rows seq.
Arguments rows {R} t.
Arguments seq {R} t.

Definition empty_table {R} : Table R := mkTable [] 0.

Fixpoint max_rowid {R} `{HasId R} (l : list R) : Z :=
  match l with
  | [] => 0
  | r :: l' => Z.max (rowid r) (max_rowid l')
  end.

Definition next_rowid {R} `{HasId R} (t : Table R) : Z :=
  Z.max (seq t) (max_rowid (rows t)) + 1.

(** [INSERT INTO t (...) VALUES (...)]: the row gets the next rowid. *)
Definition insert {R} `{HasId R} (mk : Z -> R) (t : Table R) : Table R :=
  let i := next_rowid t in
  mkTable (rows t ++ [mk i]) i.

(** [UPDATE t SET ... WHERE id = ?]. *)
Definition update_by_id {R} `{HasId R} (i : Z) (f : R -> R) (t : Table R) : Table R :=
  mkTable (map (fun r => if rowid r =? i then f r else r) (rows t)) (seq t).

(** [DELETE FROM t WHERE id = ?]. *)
Definition delete_by_id {R} `{HasId R} (i : Z) (t : Table R) : Table R :=
  mkTable (filter (fun r => negb (rowid r =? i)) (rows t)) (seq t).

(** The sqlite3 module refuses an integer parameter outside 64 bits. *)
Definition sqlite_int (i : Z) : result Z :=
  if (- 2 ^ 63 <=? i) && (i <? 2 ^ 63) then Ok i else Raise OverflowError.

(** [conn.execute("SELECT * FROM t WHERE id = ?", (i,)).fetchone()]. *)
Definition fetch_by_id {R} `{HasId R} (t : Table R) (i : Z) : result (option R) :=
  i' <- sqlite_int i ;;
  Ok (find (fun r => rowid r =? i') (rows t)).

(** SQLite stores a NaN bound to a parameter as NULL. *)
Definition sqlite_real (x : float) : option float :=
  if PrimFloat.is_nan x then None else Some x.

Record DB := mkDB {
  users : Table User;
  vehicles : Table Vehicle;
  drivers : Table Driver;
  trips : Table Trip;
  maintenance_logs : Table MaintenanceLog;
  fuel_logs : Table FuelLog }.

Definition set_users (db : DB) (t : Table User) : DB :=
  mkDB t (vehicles db) (drivers db) (trips db) (maintenance_logs db) (fuel_logs db).
Definition set_vehicles (db : DB) (t : Table Vehicle) : DB :=
  mkDB (users db) t (drivers db) (trips db) (maintenance_logs db) (fuel_logs db).
Definition set_drivers (db : DB) (t : Table Driver) : DB :=
  mkDB (users db) (vehicles db) t (trips db) (maintenance_logs db) (fuel_logs db).
Definition set_trips (db : DB) (t : Table Trip) : DB :=
  mkDB (users db) (vehicles db) (drivers db) t (maintenance_logs db) (fuel_logs db).
Definition set_maintenance_logs (db : DB) (t : Table MaintenanceLog) : DB :=
  mkDB (users db) (vehicles db) (drivers db) (trips db) t (fuel_logs db).
Definition set_fuel_logs (db : DB) (t : Table FuelLog) : DB :=
  mkDB (users db) (vehicles db) (drivers db) (trips db) (maintenance_logs db) t.

(** The database [initialize_database] creates: every table empty. *)
Definition empty_db : DB :=
  mkDB empty_table empty_table empty_table empty_table empty_table empty_table.

(** ** What the application takes from outside [app.py] *)

Class Platform := {
  (** [str.strip], [str.lower] and [str.upper] of Python. *)
  py_strip : string -> string;
  py_lower : string -> string;
  py_upper : string -> string;
  (** [lower()] of SQLite. *)
  sql_lower : string -> string;
  (** [datetime.strptime(text, "%Y-%m-%d").date()]; [None] is a [ValueError]. *)
  strptime_ymd : string -> option date;
  (** werkzeug's hashing: [generate_password_hash] on the salt it draws and
      the password, and [check_password_hash] on a stored hash and a
      password. *)
  generate_password_hash : string -> string -> string;
  check_password_hash : string -> string -> bool;
  (** The constraints of [schema.sql] (UNIQUE, NOT NULL, CHECK, FOREIGN KEY),
      which is not among the sources: a statement that would leave the
      database outside them raises [sqlite3.IntegrityError]. *)
  integrity : DB -> bool }.

Section Application.

Context {P : Platform}.

(** [conn.execute] of a writing statement whose result would be [db']. *)
Definition execute (db' : DB) : result DB :=
  if integrity db' then Ok db' else Raise IntegrityError.

(** ** Sessions, requests and responses *)

(** The Flask session, as far as the application reads it: the three keys
    [login] sets; a key the session does not hold is [None].  The messages
    that [flash] keeps in the session until a page shows them are not part
    of it: they are the [out_flashes] of an outcome. *)
Record Session := mkSession {
  s_user_id : option Z;
  s_username : option string;
  s_role : option string }.

(** [session.clear()]. *)
Definition session_clear : Session := mkSession None None None.

Inductive http_method := GET | POST.

Inductive response :=
| Redirect (endpoint : string) (arg : option Z)  (* redirect(url_for(endpoint, ...)) *)
| Render (template : string)                     (* render_template(template, ...) *)
| ServerError (e : exn).                         (* an exception no handler catches *)

(** What a request leaves behind: the committed database, the session, the
    messages flashed (message, category) and the response. *)
Record outcome := mkOutcome {
  out_db : DB;
  out_session : Session;
  out_flashes : list (string * string);
  out_response : response }.

Definition view := Session -> DB -> outcome.

(** [flash(message, category); return redirect(url_for(endpoint))]. *)
Definition flash_redirect (db : DB) (session : Session)
  (message category endpoint : string) (arg : option Z) : outcome :=
  mkOutcome db session [(message, category)] (Redirect endpoint arg).

Definition flash_render (db : DB) (session : Session)
  (message category template : string) : outcome :=
  mkOutcome db session [(message, category)] (Render template).

(** [with get_db_connection() as conn: ...]: an exception that leaves the
    block rolls the transaction back and goes uncaught. *)
Definition with_connection (db : DB) (session : Session) (body : result outcome) : outcome :=
  match body with
  | Ok o => o
  | Raise e => mkOutcome db session [] (ServerError e)
  end.

(** ** Constants and helpers of [app.py] *)

Definition ASSIGNABLE_ROLES : list string :=
  ["Dispatcher"; "Safety Officer"; "Financial Analyst"].
Definition STATUS_PENDING : string := "pending".
Definition STATUS_APPROVED : string := "approved".
Definition STATUS_REJECTED : string := "rejected".

(** [seed_default_users]: [INSERT OR IGNORE] skips the row when a constraint
    refuses it. *)
Definition seed_default_users (salt : string) (db : DB) : DB :=
  let db' :=
    set_users db
      (insert (fun i => mkUser i "manager" None None
                          (generate_password_hash salt "manager123")
                          "Manager" STATUS_APPROVED)
              (users db)) in
  if integrity db' then db' else db.

Definition is_license_expired (today : date) (expiry_date_text : option string) : result bool :=
  match expiry_date_text with
  | None => Ok true
  | Some text =>
    if negb (truthy_str text) then Ok true
    else
      match strptime_ymd text with
      | Some d => Ok (date_ltb d today)
      | None => Raise ValueError
      end
  end.

Definition get_role_home_endpoint (role : option string) : string :=
  match role with
  | Some r =>
    if (r =? "Manager")%string then "dashboard"
    else if (r =? "Dispatcher")%string then "trips"
    else if (r =? "Safety Officer")%string then "safety_dashboard"
    else if (r =? "Financial Analyst")%string then "financial_dashboard"
    else "login"
  | None => "login"
  end.

(** The roles the conflict query of [get_available_roles_for_registration]
    selects. *)
Definition occupies_role (u : User) : bool :=
  str_in (u_role u) ["Dispatcher"; "Safety Officer"; "Financial Analyst"]
  && str_in (u_status u) ["pending"; "approved"].

Definition get_available_roles_for_registration (conn : DB) : list string :=
  let taken := map u_role (filter occupies_role (rows (users conn))) in
  filter (fun role => negb (str_in role taken)) ASSIGNABLE_ROLES.

(** ** Auth / access *)

Definition login_required (view_func : view) : view :=
  fun session db =>
    match s_user_id session with
    | None => mkOutcome db session [] (Redirect "login" None)
    | Some _ => view_func session db
    end.

(** [session.get("role") not in allowed_roles]: a session without a role
    holds [None], which is in no list of roles. *)
Definition role_allowed (role : option string) (allowed_roles : list string) : bool :=
  match role with
  | Some r => str_in r allowed_roles
  | None => false
  end.

Definition roles_required (allowed_roles : list string) (view_func : view) : view :=
  fun session db =>
    match s_user_id session with
    | None => mkOutcome db session [] (Redirect "login" None)
    | Some _ =>
      if negb (role_allowed (s_role session) allowed_roles) then
        flash_redirect db session
          "You do not have permission to access this action." "error"
          (get_role_home_endpoint (s_role session)) None
      else view_func session db
    end.

(** ** Routes: index, login, register, logout *)

Definition index : view :=
  fun session db =>
    match s_user_id session with
    | Some _ => mkOutcome db session [] (Redirect (get_role_home_endpoint (s_role session)) None)
    | None => mkOutcome db session [] (Redirect "login" None)
    end.

Record LoginForm := mkLoginForm {
  lf_username : option string;
  lf_password : option string }.

(** The row the query of [login] matches for the submitted name. *)
Definition login_matches (username : string) (u : User) : bool :=
  (sql_lower (u_username u) =? sql_lower username)%string
  || match u_email u with
     | Some email => (sql_lower email =? sql_lower username)%string
     | None => false
     end.

Definition login (method : http_method) (form : LoginForm) : view :=
  fun session db =>
    match method with
    | POST =>
      let username := py_strip (get_default (lf_username form) "") in
      let password := get_default (lf_password form) "" in
      let user := find (login_matches username) (rows (users db)) in
      match user with
      | None => flash_render db session "Invalid username or password." "error" "login.html"
      | Some user =>
        if negb (check_password_hash (u_password_hash user) password) then
          flash_render db session "Invalid username or password." "error" "login.html"
        else
          let status := u_status user in
          if (status =? STATUS_PENDING)%string then
            flash_render db session "Awaiting manager approval" "error" "login.html"
          else if (status =? STATUS_REJECTED)%string then
            flash_render db session "Access denied by manager" "error" "login.html"
          else
            mkOutcome db
              (mkSession (Some (u_id user)) (Some (u_username user)) (Some (u_role user)))
              [("Logged in successfully.", "success")]
              (Redirect (get_role_home_endpoint (Some (u_role user))) None)
      end
    | GET => mkOutcome db session [] (Render "login.html")
    end.

Record RegisterForm := mkRegisterForm {
  rf_name : option string;
  rf_email : option string;
  rf_password : option string;
  rf_role : option string }.

Definition register (salt : string) (method : http_method) (form : RegisterForm) : view :=
  fun session conn =>
    let available_roles := get_available_roles_for_registration conn in
    let all_roles_assigned := (Z.of_nat (List.length available_roles) =? 0) in
    match method with
    | POST =>
      if all_roles_assigned then
        flash_render conn session "All roles assigned" "error" "register.html"
      else
        let name := py_strip (get_default (rf_name form) "") in
        let email := py_lower (py_strip (get_default (rf_email form) "")) in
        let password := get_default (rf_password form) "" in
        let role := py_strip (get_default (rf_role form) "") in
        if negb (truthy_str name && truthy_str email && truthy_str password && truthy_str role) then
          flash_render conn session "All fields are required" "error" "register.html"
        else if negb (str_in role available_roles) then
          flash_render conn session "Selected role is not available" "error" "register.html"
        else
          match
            execute
              (set_users conn
                 (insert (fun i => mkUser i email (Some name) (Some email)
                                     (generate_password_hash salt password)
                                     role STATUS_PENDING)
                         (users conn)))
          with
          | Ok conn' => flash_redirect conn' session "Request submitted" "success" "login" None
          | Raise _ => flash_render conn session "Email already registered" "error" "register.html"
          end
    | GET => mkOutcome conn session [] (Render "register.html")
    end.

Definition logout : view :=
  login_required (fun session db =>
    flash_redirect db session_clear "Logged out." "success" "login" None).

(** ** Routes of the manager: dashboard and role requests *)

(** The dashboards only read the database. *)
Definition dashboard : view :=
  fun session db => mkOutcome db session [] (Render "manager_dashboard.html").

Definition set_u_status (status : string) (u : User) : User :=
  mkUser (u_id u) (u_username u) (u_name u) (u_email u) (u_password_hash u)
         (u_role u) status.

(** The conflict query of [approve_user]: another user who is pending or
    approved in the same role. *)
Definition role_conflict (role : string) (user_id : Z) (u : User) : bool :=
  (u_role u =? role)%string
  && str_in (u_status u) ["pending"; "approved"]
  && negb (u_id u =? user_id).

Definition approve_user (user_id : Z) : view :=
  fun session conn =>
    with_connection conn session (
      user <- fetch_by_id (users conn) user_id ;;
      match user with
      | None => Ok (flash_redirect conn session "Request not found" "error" "dashboard" None)
      | Some user =>
        if (u_role user =? "Manager")%string then
          Ok (flash_redirect conn session "Cannot approve manager role" "error" "dashboard" None)
        else if negb (u_status user =? STATUS_PENDING)%string then
          Ok (flash_redirect conn session "Request is not pending" "error" "dashboard" None)
        else
          match find (role_conflict (u_role user) user_id) (rows (users conn)) with
          | Some _ =>
            Ok (flash_redirect conn session "Role already assigned" "error" "dashboard" None)
          | None =>
            conn' <- execute (set_users conn
                       (update_by_id user_id (set_u_status STATUS_APPROVED) (users conn))) ;;
            Ok (flash_redirect conn' session "User approved" "success" "dashboard" None)
          end
      end).

Definition reject_user (user_id : Z) : view :=
  fun session conn =>
    with_connection conn session (
      user <- fetch_by_id (users conn) user_id ;;
      match user with
      | None => Ok (flash_redirect conn session "Request not found" "error" "dashboard" None)
      | Some user =>
        if (u_role user =? "Manager")%string then
          Ok (flash_redirect conn session "Cannot reject manager role" "error" "dashboard" None)
        else if negb (u_status user =? STATUS_PENDING)%string then
          Ok (flash_redirect conn session "Request is not pending" "error" "dashboard" None)
        else
          conn' <- execute (set_users conn
                     (update_by_id user_id (set_u_status STATUS_REJECTED) (users conn))) ;;
          Ok (flash_redirect conn' session "User rejected" "success" "dashboard" None)
      end).

Definition opt_Z_eqb (a : option Z) (b : Z) : bool :=
  match a with
  | Some k => k =? b
  | None => false
  end.

Definition delete_user (user_id : Z) : view :=
  fun session conn =>
    if opt_Z_eqb (s_user_id session) user_id then
      flash_redirect conn session "Manager cannot delete self" "error" "dashboard" None
    else
      with_connection conn session (
        user <- fetch_by_id (users conn) user_id ;;
        match user with
        | None => Ok (flash_redirect conn session "User not found" "error" "dashboard" None)
        | Some user =>
          if (u_role user =? "Manager")%string then
            Ok (flash_redirect conn session "Manager cannot be removed" "error" "dashboard" None)
          else
            conn' <- execute (set_users conn (delete_by_id user_id (users conn))) ;;
            Ok (flash_redirect conn' session "User removed" "success" "dashboard" None)
        end).

(** ** Vehicles *)

Record VehicleForm := mkVehicleForm {
  vf_model_name : option string;
  vf_license_plate : option string;
  vf_max_capacity_kg : option float;   (* request.form.get(..., type=float) *)
  vf_odometer : option Z;              (* request.form.get(..., type=int) *)
  vf_status : option string }.

(** [x is None or x <= 0] on a float. *)
Definition none_or_leb0 (x : option float) : bool :=
  match x with
  | None => true
  | Some w => PrimFloat.leb w 0%float
  end.

(** [x is None or x < 0] on a float and on an int. *)
Definition none_or_ltb0 (x : option float) : bool :=
  match x with
  | None => true
  | Some w => PrimFloat.ltb w 0%float
  end.

Definition none_or_neg (x : option Z) : bool :=
  match x with
  | None => true
  | Some k => k <? 0
  end.

Definition opt_real (x : option float) : option float :=
  match x with
  | Some w => sqlite_real w
  | None => None
  end.

(** The route [vehicles] ([vehicles] names the table here). *)
Definition vehicles_view (method : http_method) (form : VehicleForm) : view :=
  fun session db =>
    match method with
    | POST =>
      if negb (opt_str_eqb (s_role session) "Manager") then
        flash_redirect db session "Only managers can create vehicles." "error" "vehicles" None
      else
        let model_name := py_strip (get_default (vf_model_name form) "") in
        let license_plate := py_upper (py_strip (get_default (vf_license_plate form) "")) in
        let max_capacity_kg := vf_max_capacity_kg form in
        let odometer := vf_odometer form in
        let status := py_strip (get_default (vf_status form) "Available") in
        if negb (truthy_str model_name) || negb (truthy_str license_plate) then
          flash_redirect db session "Model name and license plate are required." "error" "vehicles" None
        else if none_or_leb0 max_capacity_kg then
          flash_redirect db session "Max capacity must be a positive number." "error" "vehicles" None
        else if none_or_neg odometer then
          flash_redirect db session "Odometer must be zero or greater." "error" "vehicles" None
        else if negb (str_in status ["Available"; "On Trip"; "In Shop"]) then
          flash_redirect db session "Invalid vehicle status." "error" "vehicles" None
        else
          match
            odo <- sqlite_int (match odometer with Some k => k | None => 0 end) ;;
            execute (set_vehicles db
              (insert (fun i => mkVehicle i model_name license_plate
                                  (opt_real max_capacity_kg) odo status)
                      (vehicles db)))
          with
          | Ok db' => flash_redirect db' session "Vehicle created." "success" "vehicles" None
          | Raise IntegrityError =>
            flash_redirect db session "License plate must be unique." "error" "vehicles" None
          | Raise e => mkOutcome db session [] (ServerError e)
          end
    | GET => mkOutcome db session [] (Render "vehicles.html")
    end.

Definition edit_vehicle (vehicle_id : Z) (method : http_method) (form : VehicleForm) : view :=
  fun session conn =>
    with_connection conn session (
      vehicle <- fetch_by_id (vehicles conn) vehicle_id ;;
      match vehicle with
      | None => Ok (flash_redirect conn session "Vehicle not found." "error" "vehicles" None)
      | Some vehicle =>
        match method with
        | POST =>
          let model_name := py_strip (get_default (vf_model_name form) "") in
          let license_plate := py_upper (py_strip (get_default (vf_license_plate form) "")) in
          let max_capacity_kg := vf_max_capacity_kg form in
          let odometer := vf_odometer form in
          let status := py_strip (get_default (vf_status form) "Available") in
          let back := Some vehicle_id in
          if negb (truthy_str model_name) || negb (truthy_str license_plate) then
            Ok (flash_redirect conn session "Model name and license plate are required." "error" "edit_vehicle" back)
          else if none_or_leb0 max_capacity_kg then
            Ok (flash_redirect conn session "Max capacity must be a positive number." "error" "edit_vehicle" back)
          else if none_or_neg odometer then
            Ok (flash_redirect conn session "Odometer must be zero or greater." "error" "edit_vehicle" back)
          else if negb (str_in status ["Available"; "On Trip"; "In Shop"]) then
            Ok (flash_redirect conn session "Invalid vehicle status." "error" "edit_vehicle" back)
          else
            match
              odo <- sqlite_int (match odometer with Some k => k | None => 0 end) ;;
              execute (set_vehicles conn
                (update_by_id vehicle_id
                   (fun v => mkVehicle (v_id v) model_name license_plate
                               (opt_real max_capacity_kg) odo status)
                   (vehicles conn)))
            with
            | Ok conn' => Ok (flash_redirect conn' session "Vehicle updated." "success" "vehicles" None)
            | Raise IntegrityError =>
              Ok (flash_redirect conn session "License plate must be unique." "error" "edit_vehicle" back)
            | Raise e => Raise e
            end
        | GET => Ok (mkOutcome conn session [] (Render "vehicle_edit.html"))
        end
      end).

Definition delete_vehicle (vehicle_id : Z) : view :=
  fun session conn =>
    with_connection conn session (
      i <- sqlite_int vehicle_id ;;
      match find (fun t => t_vehicle_id t =? i) (rows (trips conn)) with
      | Some _ =>
        Ok (flash_redirect conn session
              "Vehicle cannot be deleted because it has trip records." "error" "vehicles" None)
      | None =>
        conn' <- execute (set_vehicles conn (delete_by_id vehicle_id (vehicles conn))) ;;
        Ok (flash_redirect conn' session "Vehicle deleted." "success" "vehicles" None)
      end).

(** ** Drivers *)

Record DriverForm := mkDriverForm {
  df_name : option string;
  df_license_number : option string;
  df_license_expiry_date : option string;
  df_status : option string }.

(** The route [drivers] ([drivers] names the table here). *)
Definition drivers_view (method : http_method) (form : DriverForm) : view :=
  fun session db =>
    match method with
    | POST =>
      if negb (opt_str_eqb (s_role session) "Manager") then
        flash_redirect db session "Only managers can create drivers." "error" "drivers" None
      else
        let name := py_strip (get_default (df_name form) "") in
        let license_number := py_upper (py_strip (get_default (df_license_number form) "")) in
        let license_expiry_date := py_strip (get_default (df_license_expiry_date form) "") in
        let status := py_strip (get_default (df_status form) "Available") in
        if negb (truthy_str name && truthy_str license_number && truthy_str license_expiry_date) then
          flash_redirect db session "All driver fields are required." "error" "drivers" None
        else if negb (str_in status ["Available"; "On Trip"; "Suspended"]) then
          flash_redirect db session "Invalid driver status." "error" "drivers" None
        else
          match strptime_ymd license_expiry_date with
          | None => flash_redirect db session "Invalid license expiry date." "error" "drivers" None
          | Some _ =>
            match
              execute (set_drivers db
                (insert (fun i => mkDriver i name license_number
                                    (Some license_expiry_date) status 75)
                        (drivers db)))
            with
            | Ok db' => flash_redirect db' session "Driver created." "success" "drivers" None
            | Raise _ =>
              flash_redirect db session "License number must be unique." "error" "drivers" None
            end
          end
    | GET => mkOutcome db session [] (Render "drivers.html")
    end.

Definition edit_driver (driver_id : Z) (method : http_method) (form : DriverForm) : view :=
  fun session conn =>
    with_connection conn session (
      driver <- fetch_by_id (drivers conn) driver_id ;;
      match driver with
      | None => Ok (flash_redirect conn session "Driver not found." "error" "drivers" None)
      | Some driver =>
        match method with
        | POST =>
          let name := py_strip (get_default (df_name form) "") in
          let license_number := py_upper (py_strip (get_default (df_license_number form) "")) in
          let license_expiry_date := py_strip (get_default (df_license_expiry_date form) "") in
          let status := py_strip (get_default (df_status form) "Available") in
          let back := Some driver_id in
          if negb (truthy_str name && truthy_str license_number && truthy_str license_expiry_date) then
            Ok (flash_redirect conn session "All driver fields are required." "error" "edit_driver" back)
          else if negb (str_in status ["Available"; "On Trip"; "Suspended"]) then
            Ok (flash_redirect conn session "Invalid driver status." "error" "edit_driver" back)
          else
            match strptime_ymd license_expiry_date with
            | None => Ok (flash_redirect conn session "Invalid license expiry date." "error" "edit_driver" back)
            | Some _ =>
              match
                execute (set_drivers conn
                  (update_by_id driver_id
                     (fun d => mkDriver (d_id d) name license_number
                                 (Some license_expiry_date) status (d_safety_score d))
                     (drivers conn)))
              with
              | Ok conn' => Ok (flash_redirect conn' session "Driver updated." "success" "drivers" None)
              | Raise _ =>
                Ok (flash_redirect conn session "License number must be unique." "error" "edit_driver" back)
              end
            end
        | GET => Ok (mkOutcome conn session [] (Render "driver_edit.html"))
        end
      end).

Definition delete_driver (driver_id : Z) : view :=
  fun session conn =>
    with_connection conn session (
      i <- sqlite_int driver_id ;;
      match find (fun t => t_driver_id t =? i) (rows (trips conn)) with
      | Some _ =>
        Ok (flash_redirect conn session
              "Driver cannot be deleted because they have trip records." "error" "drivers" None)
      | None =>
        conn' <- execute (set_drivers conn (delete_by_id driver_id (drivers conn))) ;;
        Ok (flash_redirect conn' session "Driver deleted." "success" "drivers" None)
      end).

(** ** Trips *)

Definition validate_trip_assignment (today : date) (conn : DB)
  (vehicle_id driver_id : Z) (cargo_weight : option float)
  (status : string) (old_status : option string)
  : result (option string * option Vehicle * option Driver) :=
  vehicle <- fetch_by_id (vehicles conn) vehicle_id ;;
  driver <- fetch_by_id (drivers conn) driver_id ;;
  match vehicle, driver with
  | Some vehicle, Some driver =>
    match cargo_weight with
    | None => Ok (Some "Cargo weight must be a positive number.", None, None)
    | Some w =>
      if PrimFloat.leb w 0%float then
        Ok (Some "Cargo weight must be a positive number.", None, None)
      else
        match v_max_capacity_kg vehicle with
        | None => Raise TypeError   (* a float against None *)
        | Some max_capacity_kg =>
          if PrimFloat.ltb max_capacity_kg w then
            Ok (Some "Cargo weight exceeds vehicle maximum capacity.", None, None)
          else if (v_status vehicle =? "In Shop")%string then
            Ok (Some "Vehicle in shop cannot be assigned to trip.", None, None)
          else
            expired <- is_license_expired today (d_license_expiry_date driver) ;;
            if expired then
              Ok (Some "Driver license is expired and cannot be assigned.", None, None)
            else if negb (d_status driver =? "Available")%string
                    && negb (opt_str_eqb old_status "Dispatched") then
              Ok (Some "Driver is not available for assignment.", None, None)
            else if (status =? "Dispatched")%string then
              if negb (v_status vehicle =? "Available")%string
                 && negb (opt_str_eqb old_status "Dispatched") then
                Ok (Some "Vehicle must be available to dispatch.", None, None)
              else if negb (d_status driver =? "Available")%string
                      && negb (opt_str_eqb old_status "Dispatched") then
                Ok (Some "Driver must be available to dispatch.", None, None)
              else Ok (None, Some vehicle, Some driver)
            else Ok (None, Some vehicle, Some driver)
        end
    end
  | _, _ => Ok (Some "Vehicle or driver not found.", None, None)
  end.

Definition set_v_status (status : string) (v : Vehicle) : Vehicle :=
  mkVehicle (v_id v) (v_model_name v) (v_license_plate v) (v_max_capacity_kg v)
            (v_odometer v) status.

Definition set_d_status (status : string) (d : Driver) : Driver :=
  mkDriver (d_id d) (d_name d) (d_license_number d) (d_license_expiry_date d)
           status (d_safety_score d).

Definition set_t_status (status : string) (t : Trip) : Trip :=
  mkTrip (t_id t) (t_vehicle_id t) (t_driver_id t) (t_cargo_weight t)
         (t_origin t) (t_destination t) status.

(** [UPDATE vehicles SET status = ? WHERE id = ?] and the same on drivers,
    one statement after the other. *)
Definition set_availability (status : string) (vehicle_id driver_id : Z) (conn : DB) : result DB :=
  conn1 <- execute (set_vehicles conn
             (update_by_id vehicle_id (set_v_status status) (vehicles conn))) ;;
  execute (set_drivers conn1
             (update_by_id driver_id (set_d_status status) (drivers conn1))).

Record TripForm := mkTripForm {
  tf_vehicle_id : option Z;            (* request.form.get(..., type=int) *)
  tf_driver_id : option Z;
  tf_cargo_weight : option float;      (* request.form.get(..., type=float) *)
  tf_origin : option string;
  tf_destination : option string;
  tf_status : option string }.

(** The route [trips] ([trips] names the table here). *)
Definition trips_view (today : date) (method : http_method) (form : TripForm) : view :=
  fun session db =>
    match method with
    | POST =>
      let cargo_weight := tf_cargo_weight form in
      let origin := py_strip (get_default (tf_origin form) "") in
      let destination := py_strip (get_default (tf_destination form) "") in
      let status := py_strip (get_default (tf_status form) "Draft") in
      if negb (str_in status ["Draft"; "Dispatched"; "Completed"; "Cancelled"]) then
        flash_redirect db session "Invalid trip status." "error" "trips" None
      else if negb (truthy_int (tf_vehicle_id form) && truthy_int (tf_driver_id form)
                    && truthy_str origin && truthy_str destination) then
        flash_redirect db session "All trip fields are required." "error" "trips" None
      else
        let vehicle_id := match tf_vehicle_id form with Some k => k | None => 0 end in
        let driver_id := match tf_driver_id form with Some k => k | None => 0 end in
        with_connection db session (
          '(error, _, _) <- validate_trip_assignment today db vehicle_id driver_id
                              cargo_weight status None ;;
          match error with
          | Some error => Ok (flash_redirect db session error "error" "trips" None)
          | None =>
            conn1 <- execute (set_trips db
                       (insert (fun i => mkTrip i vehicle_id driver_id (opt_real cargo_weight)
                                           origin destination status)
                               (trips db))) ;;
            conn2 <- (if (status =? "Dispatched")%string then
                        set_availability "On Trip" vehicle_id driver_id conn1
                      else if str_in status ["Completed"; "Cancelled"] then
                        set_availability "Available" vehicle_id driver_id conn1
                      else Ok conn1) ;;
            Ok (flash_redirect conn2 session "Trip created." "success" "trips" None)
          end)
    | GET => mkOutcome db session [] (Render "trips.html")
    end.

Definition update_trip_status (today : date) (trip_id : Z) (form_status : option string) : view :=
  fun session conn =>
    let new_status := py_strip (get_default form_status "") in
    if negb (str_in new_status ["Draft"; "Dispatched"; "Completed"; "Cancelled"]) then
      flash_redirect conn session "Invalid trip status." "error" "trips" None
    else
      with_connection conn session (
        trip <- fetch_by_id (trips conn) trip_id ;;
        match trip with
        | None => Ok (flash_redirect conn session "Trip not found." "error" "trips" None)
        | Some trip =>
          let old_status := t_status trip in
          if (old_status =? new_status)%string then
            Ok (flash_redirect conn session "Trip status unchanged." "success" "trips" None)
          else
            '(error, _, _) <- validate_trip_assignment today conn (t_vehicle_id trip)
                                (t_driver_id trip) (t_cargo_weight trip) new_status
                                (Some old_status) ;;
            match error with
            | Some error => Ok (flash_redirect conn session error "error" "trips" None)
            | None =>
              conn1 <- execute (set_trips conn
                         (update_by_id trip_id (set_t_status new_status) (trips conn))) ;;
              conn2 <- (if (new_status =? "Dispatched")%string then
                          set_availability "On Trip" (t_vehicle_id trip) (t_driver_id trip) conn1
                        else if str_in new_status ["Completed"; "Cancelled"; "Draft"] then
                          set_availability "Available" (t_vehicle_id trip) (t_driver_id trip) conn1
                        else Ok conn1) ;;
              Ok (flash_redirect conn2 session "Trip status updated." "success" "trips" None)
            end
        end).

Definition delete_trip (trip_id : Z) : view :=
  fun session db =>
    flash_redirect db session "Trip deletion is disabled by current role policy." "error" "trips" None.

(** ** Maintenance, safety and finance *)

Record MaintenanceForm := mkMaintenanceForm {
  mf_vehicle_id : option Z;
  mf_description : option string;
  mf_cost : option float;
  mf_date : option string }.

Definition maintenance (method : http_method) (form : MaintenanceForm) : view :=
  fun session db =>
    match method with
    | POST =>
      let description := py_strip (get_default (mf_description form) "") in
      let cost := mf_cost form in
      let log_date := py_strip (get_default (mf_date form) "") in
      if negb (truthy_int (mf_vehicle_id form) && truthy_str description && truthy_str log_date) then
        flash_redirect db session "All maintenance fields are required." "error" "maintenance" None
      else if none_or_ltb0 cost then
        flash_redirect db session "Cost must be zero or greater." "error" "maintenance" None
      else
        match strptime_ymd log_date with
        | None => flash_redirect db session "Invalid maintenance date." "error" "maintenance" None
        | Some _ =>
          let vehicle_id := match mf_vehicle_id form with Some k => k | None => 0 end in
          with_connection db session (
            vehicle <- fetch_by_id (vehicles db) vehicle_id ;;
            match vehicle with
            | None => Ok (flash_redirect db session "Vehicle not found." "error" "maintenance" None)
            | Some _ =>
              conn1 <- execute (set_maintenance_logs db
                         (insert (fun i => mkMaintenanceLog i vehicle_id description
                                             (opt_real cost) log_date)
                                 (maintenance_logs db))) ;;
              conn2 <- execute (set_vehicles conn1
                         (update_by_id vehicle_id (set_v_status "In Shop") (vehicles conn1))) ;;
              Ok (flash_redirect conn2 session
                    "Maintenance log created. Vehicle moved to In Shop." "success"
                    "maintenance" None)
            end)
        end
    | GET => mkOutcome db session [] (Render "maintenance.html")
    end.

Definition safety_dashboard : view :=
  fun session db => mkOutcome db session [] (Render "safety_dashboard.html").

Definition safety_drivers : view :=
  fun session db => mkOutcome db session [] (Render "driver_compliance.html").

Definition safety_update_driver (driver_id : Z)
  (form_safety_score : option Z) (form_status : option string) : view :=
  fun session db =>
    let status := py_strip (get_default form_status "") in
    match form_safety_score with
    | None =>
      flash_redirect db session "Safety score must be between 0 and 100." "error" "safety_drivers" None
    | Some safety_score =>
      if (safety_score <? 0) || (100 <? safety_score) then
        flash_redirect db session "Safety score must be between 0 and 100." "error" "safety_drivers" None
      else if negb (str_in status ["Available"; "Suspended"]) then
        flash_redirect db session "Status must be Available or Suspended." "error" "safety_drivers" None
      else
        with_connection db session (
          driver <- fetch_by_id (drivers db) driver_id ;;
          match driver with
          | None => Ok (flash_redirect db session "Driver not found." "error" "safety_drivers" None)
          | Some driver =>
            if (d_status driver =? "On Trip")%string && (status =? "Suspended")%string then
              Ok (flash_redirect db session "Cannot suspend a driver currently on trip." "error"
                    "safety_drivers" None)
            else
              conn' <- execute (set_drivers db
                         (update_by_id driver_id
                            (fun d => mkDriver (d_id d) (d_name d) (d_license_number d)
                                        (d_license_expiry_date d) status safety_score)
                            (drivers db))) ;;
              Ok (flash_redirect conn' session "Driver compliance profile updated." "success"
                    "safety_drivers" None)
          end)
    end.

Record FuelForm := mkFuelForm {
  ff_vehicle_id : option Z;
  ff_liters : option float;
  ff_cost : option float;
  ff_date : option string }.

Definition financial_dashboard (method : http_method) (form : FuelForm) : view :=
  fun session db =>
    match method with
    | POST =>
      let log_date := py_strip (get_default (ff_date form) "") in
      match ff_liters form, ff_cost form with
      | Some liters, Some cost =>
        if negb (truthy_int (ff_vehicle_id form)) || negb (truthy_str log_date) then
          flash_redirect db session "All fuel log fields are required." "error" "financial_dashboard" None
        else if PrimFloat.leb liters 0%float then
          flash_redirect db session "Fuel liters must be greater than zero." "error" "financial_dashboard" None
        else if PrimFloat.ltb cost 0%float then
          flash_redirect db session "Fuel cost must be zero or greater." "error" "financial_dashboard" None
        else
          match strptime_ymd log_date with
          | None => flash_redirect db session "Invalid fuel log date." "error" "financial_dashboard" None
          | Some _ =>
            let vehicle_id := match ff_vehicle_id form with Some k => k | None => 0 end in
            with_connection db session (
              vehicle <- fetch_by_id (vehicles db) vehicle_id ;;
              match vehicle with
              | None => Ok (flash_redirect db session "Vehicle not found." "error" "financial_dashboard" None)
              | Some _ =>
                conn' <- execute (set_fuel_logs db
                           (insert (fun i => mkFuelLog i vehicle_id (sqlite_real liters)
                                               (sqlite_real cost) log_date)
                                   (fuel_logs db))) ;;
                Ok (flash_redirect conn' session "Fuel log added." "success" "financial_dashboard" None)
              end)
          end
      | _, _ =>
        flash_redirect db session "All fuel log fields are required." "error" "financial_dashboard" None
      end
    | GET => mkOutcome db session [] (Render "financial_dashboard.html")
    end.

(** ** The URL map *)

Inductive request :=
| Index
| Login (method : http_method) (form : LoginForm)
| Register (method : http_method) (form : RegisterForm)
| Logout
| Dashboard
| ApproveUser (user_id : Z)
| RejectUser (user_id : Z)
| DeleteUser (user_id : Z)
| Vehicles (method : http_method) (form : VehicleForm)
| EditVehicle (vehicle_id : Z) (method : http_method) (form : VehicleForm)
| DeleteVehicle (vehicle_id : Z)
| Drivers (method : http_method) (form : DriverForm)
| EditDriver (driver_id : Z) (method : http_method) (form : DriverForm)
| DeleteDriver (driver_id : Z)
| Trips (method : http_method) (form : TripForm)
| UpdateTripStatus (trip_id : Z) (form_status : option string)
| DeleteTrip (trip_id : Z)
| Maintenance (method : http_method) (form : MaintenanceForm)
| SafetyDashboard
| SafetyDrivers
| SafetyUpdateDriver (driver_id : Z) (form_safety_score : option Z) (form_status : option string)
| FinancialDashboard (method : http_method) (form : FuelForm).

(** What a request finds outside the database: [date.today()] and the salt
    [generate_password_hash] draws. *)
Record Env := mkEnv { env_today : date; env_salt : string }.

(** Each route with the decorator it carries in [app.py]. *)
Definition handle (env : Env) (req : request) : view :=
  match req with
  | Index => index
  | Login method form => login method form
  | Register method form => register (env_salt env) method form
  | Logout => logout
  | Dashboard => roles_required ["Manager"] dashboard
  | ApproveUser user_id => roles_required ["Manager"] (approve_user user_id)
  | RejectUser user_id => roles_required ["Manager"] (reject_user user_id)
  | DeleteUser user_id => roles_required ["Manager"] (delete_user user_id)
  | Vehicles method form => roles_required ["Manager"] (vehicles_view method form)
  | EditVehicle vehicle_id method form =>
    roles_required ["Manager"] (edit_vehicle vehicle_id method form)
  | DeleteVehicle vehicle_id => roles_required ["Manager"] (delete_vehicle vehicle_id)
  | Drivers method form =>
    roles_required ["Manager"; "Dispatcher"; "Safety Officer"; "Financial Analyst"]
      (drivers_view method form)
  | EditDriver driver_id method form =>
    roles_required ["Manager"] (edit_driver driver_id method form)
  | DeleteDriver driver_id => roles_required ["Manager"] (delete_driver driver_id)
  | Trips method form => roles_required ["Dispatcher"] (trips_view (env_today env) method form)
  | UpdateTripStatus trip_id form_status =>
    roles_required ["Dispatcher"] (update_trip_status (env_today env) trip_id form_status)
  | DeleteTrip trip_id => roles_required ["Dispatcher"] (delete_trip trip_id)
  | Maintenance method form => roles_required ["Manager"] (maintenance method form)
  | SafetyDashboard => roles_required ["Safety Officer"] safety_dashboard
  | SafetyDrivers => roles_required ["Safety Officer"] safety_drivers
  | SafetyUpdateDriver driver_id form_safety_score form_status =>
    roles_required ["Safety Officer"]
      (safety_update_driver driver_id form_safety_score form_status)
  | FinancialDashboard method form =>
    roles_required ["Financial Analyst"] (financial_dashboard method form)
  end.

(** The roles [roles_required] is given on each route; [None] for the
    routes that do not carry it. *)
Definition route_roles (req : request) : option (list string) :=
  match req with
  | Index | Login _ _ | Register _ _ | Logout => None
  | Dashboard | ApproveUser _ | RejectUser _ | DeleteUser _ => Some ["Manager"]
  | Vehicles _ _ | EditVehicle _ _ _ | DeleteVehicle _ => Some ["Manager"]
  | Drivers _ _ => Some ["Manager"; "Dispatcher"; "Safety Officer"; "Financial Analyst"]
  | EditDriver _ _ _ | DeleteDriver _ => Some ["Manager"]
  | Trips _ _ | UpdateTripStatus _ _ | DeleteTrip _ => Some ["Dispatcher"]
  | Maintenance _ _ => Some ["Manager"]
  | SafetyDashboard | SafetyDrivers | SafetyUpdateDriver _ _ _ => Some ["Safety Officer"]
  | FinancialDashboard _ _ => Some ["Financial Analyst"]
  end.

(** The databases that requests can lead to from [db0]. *)
Inductive reachable (db0 : DB) : DB -> Prop :=
| reachable_start : reachable db0 db0
| reachable_request (env : Env) (req : request) (session : Session) (db : DB) :
    reachable db0 db -> reachable db0 (out_db (handle env req session db)).

(** ** Properties the claims speak of *)

(** An outcome reports an error: a message flashed in the category
    ["error"], or an exception that reaches the client as a server error. *)
Definition reports_error (o : outcome) : bool :=
  existsb (fun fl => (snd fl =? "error")%string) (out_flashes o)
  || match out_response o with
     | ServerError _ => true
     | _ => false
     end.

(** [SELECT status FROM vehicles WHERE id = ?], and the same on drivers. *)
Definition vehicle_status (db : DB) (vehicle_id : Z) : option string :=
  option_map v_status (find (fun v => v_id v =? vehicle_id) (rows (vehicles db))).

Definition driver_status (db : DB) (driver_id : Z) : option string :=
  option_map d_status (find (fun d => d_id d =? driver_id) (rows (drivers db))).

(** A user holds [role]: the role is theirs and their status is pending or
    approved. *)
Definition holds_role (role : string) (u : User) : bool :=
  (u_role u =? role)%string && str_in (u_status u) ["pending"; "approved"].

Definition role_held (db : DB) (role : string) : bool :=
  existsb (holds_role role) (rows (users db)).

(** At most one holder for each assignable role. *)
Definition one_holder_per_role (db : DB) : Prop :=
  forall role, In role ASSIGNABLE_ROLES ->
    (List.length (filter (holds_role role) (rows (users db))) <= 1)%nat.

(** [id] is the primary key of [users]. *)
Definition users_primary_key (db : DB) : Prop :=
  NoDup (map u_id (rows (users db))).

(** The CHECK on [users.status] (the table of [ensure_schema_updates]). *)
Definition users_status_checked (db : DB) : Prop :=
  forall u, In u (rows (users db)) ->
    str_in (u_status u) ["pending"; "approved"; "rejected"] = true.

(** Every trip row carries one of the four statuses. *)
Definition trip_statuses_valid (db : DB) : Prop :=
  forall t, In t (rows (trips db)) ->
    str_in (t_status t) ["Draft"; "Dispatched"; "Completed"; "Cancelled"] = true.

(** The weight [w] is above the [max_capacity_kg] of the vehicle with id
    [vehicle_id]. *)
Definition exceeds_capacity (db : DB) (vehicle_id : Z) (w : float) : bool :=
  match find (fun v => v_id v =? vehicle_id) (rows (vehicles db)) with
  | Some v =>
    match v_max_capacity_kg v with
    | Some max_capacity_kg => PrimFloat.ltb max_capacity_kg w
    | None => false
    end
  | None => false
  end.

(** The cargo weight is missing, not positive ([w <= 0]), or above the
    capacity of the assigned vehicle. *)
Definition cargo_refused (db : DB) (vehicle_id : option Z) (cargo_weight : option float) : bool :=
  match cargo_weight with
  | None => true
  | Some w =>
    PrimFloat.leb w 0%float
    || match vehicle_id with
       | Some i => exceeds_capacity db i w
       | None => false
       end
  end.

(** The stored expiry date is missing, empty, or parses to a date strictly
    before [today]. *)
Definition license_lapsed (today : date) (expiry_date_text : option string) : Prop :=
  expiry_date_text = None
  \/ expiry_date_text = Some ""
  \/ exists text d, expiry_date_text = Some text /\ strptime_ymd text = Some d
                    /\ date_ltb d today = true.

(** The checks [validate_trip_assignment] makes before it looks at the
    license all pass: the vehicle exists, the cargo weight is positive and
    within its capacity, and the vehicle is not in the shop. *)
Definition earlier_checks_pass (db : DB) (vehicle_id : Z) (cargo_weight : option float) : Prop :=
  exists vehicle w max_capacity_kg,
    fetch_by_id (vehicles db) vehicle_id = Ok (Some vehicle)
    /\ cargo_weight = Some w
    /\ PrimFloat.leb w 0%float = false
    /\ v_max_capacity_kg vehicle = Some max_capacity_kg
    /\ PrimFloat.ltb max_capacity_kg w = false
    /\ (v_status vehicle =? "In Shop")%string = false.

(** The outcome of a login that establishes the session of [user]. *)
Definition logged_in (db : DB) (user : User) : outcome :=
  mkOutcome db
    (mkSession (Some (u_id user)) (Some (u_username user)) (Some (u_role user)))
    [("Logged in successfully.", "success")]
    (Redirect (get_role_home_endpoint (Some (u_role user))) None).

(** A trip row with its status left out. *)
Definition without_status (t : Trip) : Trip := set_t_status "" t.

(** What a request may do to the [trips] table. *)
Inductive trips_change (db db' : DB) : Prop :=
| trips_same : trips db' = trips db -> trips_change db db'
| trips_inserted (row : Z -> Trip) :
    trips db' = insert row (trips db) ->
    (forall i, str_in (t_status (row i)) ["Draft"; "Dispatched"; "Completed"; "Cancelled"] = true) ->
    trips_change db db'
| trips_updated (trip_id : Z) (status : string) :
    trips db' = update_by_id trip_id (set_t_status status) (trips db) ->
    str_in status ["Draft"; "Dispatched"; "Completed"; "Cancelled"] = true ->
    trips_change db db'.

(** What a request may do to the [users] table. *)
Inductive users_change (db db' : DB) : Prop :=
| users_same : users db' = users db -> users_change db db'
| users_registered (row : Z -> User) (role : string) :
    users db' = insert row (users db) ->
    (forall i, u_id (row i) = i) ->
    (forall i, u_role (row i) = role) ->
    role_held db role = false ->
    users_change db db'
| users_decided (user_id : Z) (status : string) (user : User) :
    users db' = update_by_id user_id (set_u_status status) (users db) ->
    find (fun u => u_id u =? user_id) (rows (users db)) = Some user ->
    u_status user = "pending" ->
    users_change db db'
| users_deleted (user_id : Z) :
    users db' = delete_by_id user_id (users db) ->
    users_change db db'.

End Application.

(** ** A reference platform

    ASCII versions of the string primitives, a parser of [YYYY-MM-DD] dates,
    a transparent stand-in for the password hash, and a schema with the
    usual keys.  It instantiates the generic development on concrete
    requests. *)

Definition is_space (c : ascii) : bool :=
  let n := nat_of_ascii c in
  ((9 <=? n) && (n <=? 13) || (28 <=? n) && (n <=? 32))%nat.

Fixpoint lstrip (s : string) : string :=
  match s with
  | String c s' => if is_space c then lstrip s' else s
  | EmptyString => EmptyString
  end.

Definition rev_string (s : string) : string :=
  string_of_list_ascii (rev (list_ascii_of_string s)).

Definition ascii_strip (s : string) : string :=
  rev_string (lstrip (rev_string (lstrip s))).

Fixpoint map_string (f : ascii -> ascii) (s : string) : string :=
  match s with
  | String c s' => String (f c) (map_string f s')
  | EmptyString => EmptyString
  end.

Definition lower_char (c : ascii) : ascii :=
  let n := nat_of_ascii c in
  if ((65 <=? n) && (n <=? 90))%nat then ascii_of_nat (n + 32) else c.

Definition upper_char (c : ascii) : ascii :=
  let n := nat_of_ascii c in
  if ((97 <=? n) && (n <=? 122))%nat then ascii_of_nat (n - 32) else c.

Definition digit (c : ascii) : option Z :=
  let n := Z.of_nat (nat_of_ascii c) in
  if (48 <=? n) && (n <=? 57) then Some (n - 48) else None.

Fixpoint number (acc : Z) (cs : list ascii) : option Z :=
  match cs with
  | [] => Some acc
  | c :: cs' =>
    match digit c with
    | Some d => number (10 * acc + d) cs'
    | None => None
    end
  end.

(** The fields of a text between dashes. *)
Fixpoint fields (cur : list ascii) (cs : list ascii) : list (list ascii) :=
  match cs with
  | [] => [rev cur]
  | c :: cs' =>
    if Ascii.eqb c "-"%char then rev cur :: fields [] cs' else fields (c :: cur) cs'
  end.

Definition leap_year (y : Z) : bool :=
  ((y mod 4 =? 0) && negb (y mod 100 =? 0)) || (y mod 400 =? 0).

Definition days_in_month (y m : Z) : Z :=
  if m =? 2 then (if leap_year y then 29 else 28)
  else if (m =? 4) || (m =? 6) || (m =? 9) || (m =? 11) then 30
  else 31.

Definition parse_ymd (text : string) : option date :=
  match fields [] (list_ascii_of_string text) with
  | [ys; ms; ds] =>
    match number 0 ys, number 0 ms, number 0 ds with
    | Some y, Some m, Some d =>
      if (List.length ys =? 4)%nat
         && (1 <=? List.length ms)%nat && (List.length ms <=? 2)%nat
         && (1 <=? List.length ds)%nat && (List.length ds <=? 2)%nat
         && (1 <=? y) && (1 <=? m) && (m <=? 12)
         && (1 <=? d) && (d <=? days_in_month y m)
      then Some (mkdate y m d) else None
    | _, _, _ => None
    end
  | _ => None
  end.

(** The hash of the stand-in: the salt, a dollar sign, the password. *)
Fixpoint after_dollar (h : string) : string :=
  match h with
  | String c h' => if Ascii.eqb c "$"%char then h' else after_dollar h'
  | EmptyString => EmptyString
  end.

Fixpoint distinct (l : list string) : bool :=
  match l with
  | [] => true
  | x :: l' => negb (str_in x l') && distinct l'
  end.

(** UNIQUE on the user name, the license plate and the license number, and
    the two CHECKs of the [users] table. *)
Definition reference_integrity (db : DB) : bool :=
  distinct (map u_username (rows (users db)))
  && forallb (fun u =>
       str_in (u_role u) ["Manager"; "Dispatcher"; "Safety Officer"; "Financial Analyst"]
       && str_in (u_status u) ["pending"; "approved"; "rejected"])
     (rows (users db))
  && distinct (map v_license_plate (rows (vehicles db)))
  && distinct (map d_license_number (rows (drivers db))).

Definition reference_platform : Platform := {|
  py_strip := ascii_strip;
  py_lower := map_string lower_char;
  py_upper := map_string upper_char;
  sql_lower := map_string lower_char;
  strptime_ymd := parse_ymd;
  generate_password_hash := fun salt password => (salt ++ "$" ++ password)%string;
  check_password_hash := fun pwhash password => (after_dollar pwhash =? password)%string;
  integrity := reference_integrity |}.

(** ** A fleet to run the handlers on *)

Definition today0 : date := mkdate 2026 11 4.
Definition env0 : Env := mkEnv today0 "salt".

Definition manager_session : Session :=
  mkSession (Some 1) (Some "manager") (Some "Manager").
Definition dispatcher_session : Session :=
  mkSession (Some 2) (Some "dee@fleet.example") (Some "Dispatcher").

(** The requests of a script, one after the other. *)
Definition run_requests {P : Platform} (env : Env) (script : list (Session * request))
  (db : DB) : DB :=
  fold_left (fun db sr => out_db (handle env (snd sr) (fst sr) db)) script db.

(** The database after [init_db.py]. *)
Definition seeded_db : DB :=
  seed_default_users (P := reference_platform) "salt" empty_db.

(** A dispatcher registers and is approved; the manager enters a van and
    two drivers, the second with a license that ran out in 2020; the
    dispatcher drafts a trip of 500 kg. *)
Definition fleet_script : list (Session * request) :=
  [ (session_clear,
     Register POST (mkRegisterForm (Some "Dee") (Some "Dee@Fleet.example")
                      (Some "pw") (Some "Dispatcher")));
    (manager_session, ApproveUser 2);
    (manager_session,
     Vehicles POST (mkVehicleForm (Some "Van") (Some "ab-101") (Some 1000%float)
                      (Some 12000) None));
    (manager_session,
     Drivers POST (mkDriverForm (Some "Al") (Some "l-1") (Some "2027-01-31") None));
    (manager_session,
     Drivers POST (mkDriverForm (Some "Bo") (Some "l-2") (Some "2020-02-28") None));
    (dispatcher_session,
     Trips POST (mkTripForm (Some 1) (Some 1) (Some 500%float) (Some "Pune")
                   (Some "Goa") None)) ].

Definition fleet_db : DB :=
  run_requests (P := reference_platform) env0 fleet_script seeded_db.

(** The manager then lowers the capacity of the van to 100 kg. *)
Definition overloaded_db : DB :=
  run_requests (P := reference_platform) env0
    [ (manager_session,
       EditVehicle 1 POST (mkVehicleForm (Some "Van") (Some "ab-101") (Some 100%float)
                             (Some 12000) None)) ]
    fleet_db.

(** The drafted trip is dispatched. *)
Definition dispatched_db : DB :=
  run_requests (P := reference_platform) env0
    [ (dispatcher_session, UpdateTripStatus 1 (Some "Dispatched")) ] fleet_db.

(** A safety officer registers and waits for the manager. *)
Definition pending_db : DB :=
  run_requests (P := reference_platform) env0
    [ (session_clear,
       Register POST (mkRegisterForm (Some "Sam") (Some "sam@fleet.example")
                        (Some "s3cret") (Some "Safety Officer"))) ]
    fleet_db.

(** A driver row whose expiry date was never stored. *)
Definition undated_db : DB :=
  set_drivers fleet_db
    (insert (fun i => mkDriver i "Cy" "L-3" None "Available" 75) (drivers fleet_db)).

(** While the van is out on the dispatched trip, the manager enters a third
    driver. *)
Definition relief_db : DB :=
  run_requests (P := reference_platform) env0
    [ (manager_session,
       Drivers POST (mkDriverForm (Some "Cy") (Some "l-3") (Some "2028-06-30") None)) ]
    dispatched_db.

(** ** Further properties of the fleet *)

Section FleetProperties.

Context {P : Platform}.

(** The HTTP method a request arrives with: the routes that list no methods
    take GET, the routes with [methods=["POST"]] take POST, and the others
    carry the method they were sent with. *)
Definition request_method (req : request) : http_method :=
  match req with
  | Index | Logout | Dashboard | SafetyDashboard | SafetyDrivers => GET
  | Login method _ | Register method _ | Vehicles method _ | EditVehicle _ method _
  | Drivers method _ | EditDriver _ method _ | Trips method _ | Maintenance method _
  | FinancialDashboard method _ => method
  | ApproveUser _ | RejectUser _ | DeleteUser _ | DeleteVehicle _ | DeleteDriver _
  | UpdateTripStatus _ _ | DeleteTrip _ | SafetyUpdateDriver _ _ _ => POST
  end.

(** The users whose role is Manager. *)
Definition is_manager (u : User) : bool := (u_role u =? "Manager")%string.

Definition managers (db : DB) : list User := filter is_manager (rows (users db)).

(** What [vehicles] and [edit_vehicle] ask of a vehicle before they write
    it: a model name and a plate, an odometer that is not negative, one of
    the three statuses. *)
Definition vehicle_row_valid (v : Vehicle) : bool :=
  truthy_str (v_model_name v) && truthy_str (v_license_plate v)
  && (0 <=? v_odometer v)
  && str_in (v_status v) ["Available"; "On Trip"; "In Shop"].

Definition vehicles_valid (db : DB) : Prop :=
  forall v, In v (rows (vehicles db)) -> vehicle_row_valid v = true.

(** What [drivers] and [edit_driver] ask of a driver before they write it,
    and [safety_update_driver] of the score: a name and a license number,
    an expiry date that [strptime] reads, one of the three statuses, a
    score between 0 and 100. *)
Definition expiry_date_parses (expiry_date_text : option string) : bool :=
  match expiry_date_text with
  | Some text =>
    truthy_str text
    && match strptime_ymd text with
       | Some _ => true
       | None => false
       end
  | None => false
  end.

Definition driver_row_valid (d : Driver) : bool :=
  truthy_str (d_name d) && truthy_str (d_license_number d)
  && expiry_date_parses (d_license_expiry_date d)
  && str_in (d_status d) ["Available"; "On Trip"; "Suspended"]
  && (0 <=? d_safety_score d) && (d_safety_score d <=? 100).

Definition drivers_valid (db : DB) : Prop :=
  forall d, In d (rows (drivers db)) -> driver_row_valid d = true.

(** Every trip names a vehicle and a driver that exist. *)
Definition trip_refers (db : DB) (t : Trip) : Prop :=
  (exists v, In v (rows (vehicles db)) /\ v_id v = t_vehicle_id t)
  /\ (exists d, In d (rows (drivers db)) /\ d_id d = t_driver_id t).

Definition trips_refer (db : DB) : Prop :=
  forall t, In t (rows (trips db)) -> trip_refers db t.

(** A GET request to the endpoint [get_role_home_endpoint] names, as
    [redirect(url_for(endpoint))] makes the browser send it. *)
Definition home_request (endpoint : string) : option request :=
  if (endpoint =? "dashboard")%string then Some Dashboard
  else if (endpoint =? "trips")%string then
    Some (Trips GET (mkTripForm None None None None None None))
  else if (endpoint =? "safety_dashboard")%string then Some SafetyDashboard
  else if (endpoint =? "financial_dashboard")%string then
    Some (FinancialDashboard GET (mkFuelForm None None None None))
  else if (endpoint =? "login")%string then Some (Login GET (mkLoginForm None None))
  else None.

(** The routes that assign to the keys [user_id], [username] and [role] of
    the session: [login] sets them and [logout] clears the session. *)
Definition sets_login_keys (req : request) : bool :=
  match req with
  | Login _ _ | Logout => true
  | _ => false
  end.

(** The tables a route has statements that write to. *)
Definition writes_users (req : request) : bool :=
  match req with
  | Register _ _ | ApproveUser _ | RejectUser _ | DeleteUser _ => true
  | _ => false
  end.

Definition writes_vehicles (req : request) : bool :=
  match req with
  | Vehicles _ _ | EditVehicle _ _ _ | DeleteVehicle _
  | Trips _ _ | UpdateTripStatus _ _ | Maintenance _ _ => true
  | _ => false
  end.

Definition writes_drivers (req : request) : bool :=
  match req with
  | Drivers _ _ | EditDriver _ _ _ | DeleteDriver _
  | Trips _ _ | UpdateTripStatus _ _ | SafetyUpdateDriver _ _ _ => true
  | _ => false
  end.

Definition writes_trips (req : request) : bool :=
  match req with
  | Trips _ _ | UpdateTripStatus _ _ => true
  | _ => false
  end.

Definition writes_maintenance_logs (req : request) : bool :=
  match req with
  | Maintenance _ _ => true
  | _ => false
  end.

Definition writes_fuel_logs (req : request) : bool :=
  match req with
  | FinancialDashboard _ _ => true
  | _ => false
  end.

(** What a request may do to the [vehicles] table: nothing, insert a
    row that passed the checks of [vehicles], rewrite the row of one id
    (keeping the id, and valid if it was), or delete a row no trip names. *)
Inductive vehicles_change (db db' : DB) : Prop :=
| vehicles_same : vehicles db' = vehicles db -> vehicles_change db db'
| vehicles_inserted (mk : Z -> Vehicle) :
    vehicles db' = insert mk (vehicles db) ->
    (forall i, v_id (mk i) = i) ->
    (forall i, vehicle_row_valid (mk i) = true) ->
    vehicles_change db db'
| vehicles_updated (vehicle_id : Z) (f : Vehicle -> Vehicle) :
    vehicles db' = update_by_id vehicle_id f (vehicles db) ->
    (forall v, v_id (f v) = v_id v) ->
    (forall v, vehicle_row_valid v = true -> vehicle_row_valid (f v) = true) ->
    vehicles_change db db'
| vehicles_deleted (vehicle_id : Z) :
    vehicles db' = delete_by_id vehicle_id (vehicles db) ->
    (forall t, In t (rows (trips db)) -> t_vehicle_id t <> vehicle_id) ->
    vehicles_change db db'.

(** The same for the [drivers] table. *)
Inductive drivers_change (db db' : DB) : Prop :=
| drivers_same : drivers db' = drivers db -> drivers_change db db'
| drivers_inserted (mk : Z -> Driver) :
    drivers db' = insert mk (drivers db) ->
    (forall i, d_id (mk i) = i) ->
    (forall i, driver_row_valid (mk i) = true) ->
    drivers_change db db'
| drivers_updated (driver_id : Z) (f : Driver -> Driver) :
    drivers db' = update_by_id driver_id f (drivers db) ->
    (forall d, d_id (f d) = d_id d) ->
    (forall d, driver_row_valid d = true -> driver_row_valid (f d) = true) ->
    drivers_change db db'
| drivers_deleted (driver_id : Z) :
    drivers db' = delete_by_id driver_id (drivers db) ->
    (forall t, In t (rows (trips db)) -> t_driver_id t <> driver_id) ->
    drivers_change db db'.

(** What a request may do to the trips, as far as the rows they name go:
    nothing, insert a trip whose vehicle and driver exist, or rewrite the
    status of the trips of one id. *)
Inductive trips_change_refer (db db' : DB) : Prop :=
| trips_refer_same : trips db' = trips db -> trips_change_refer db db'
| trips_refer_inserted (mk : Z -> Trip) :
    trips db' = insert mk (trips db) ->
    (forall i, trip_refers db (mk i)) ->
    trips_change_refer db db'
| trips_refer_updated (trip_id : Z) (status : string) :
    trips db' = update_by_id trip_id (set_t_status status) (trips db) ->
    trips_change_refer db db'.

End FleetProperties.

(** ** A further database *)

(** The manager books the van in for new brake pads. *)
Definition serviced_db : DB :=
  run_requests (P := reference_platform) env0
    [ (manager_session,
       Maintenance POST (mkMaintenanceForm (Some 1) (Some "Brake pads") (Some 150%float)
                           (Some "2026-11-03"))) ]
    fleet_db.

(** * Verification *)

(** Case analysis on the innermost scrutinee of the goal. *)
Ltac break_inner x :=
  lazymatch x with
  | context [match ?y with _ => _ end] => break_inner y
  | _ => destruct x eqn:?
  end.

Ltac break_match :=
  match goal with
  | |- context [match ?x with _ => _ end] => break_inner x
  end.

Ltac break_match_in H :=
  match type of H with
  | context [match ?x with _ => _ end] => break_inner x
  end.

Section Verification.

Context {P : Platform}.

(** *** Tables *)

Lemma execute_ok (db' db'' : DB) : execute db' = Ok db'' -> db'' = db'.
Proof.
  unfold execute. destruct (integrity db'); congruence.
Qed.

(** Runs a handler through all its branches; what remains are the branches
    that wrote to the database. *)
Ltac run_handler :=
  repeat (break_match; try reflexivity);
  repeat match goal with
         | H : @execute _ _ = Ok _ |- _ => apply execute_ok in H; subst
         end;
  try reflexivity.

Lemma fetch_by_id_found {R} `{HasId R} (t : Table R) (i : Z) (r : R) :
  fetch_by_id t i = Ok (Some r) ->
  find (fun r' => rowid r' =? i) (rows t) = Some r /\ rowid r = i.
Proof.
  unfold fetch_by_id, sqlite_int, bind.
  destruct ((- 2 ^ 63 <=? i) && (i <? 2 ^ 63)); [|discriminate].
  intros E. injection E as E. split; [exact E|].
  apply find_some in E. destruct E as [_ E]. apply Z.eqb_eq in E. exact E.
Qed.

Lemma find_update_by_id {R} `{HasId R} (i : Z) (f : R -> R) (t : Table R) :
  (forall r, rowid (f r) = rowid r) ->
  find (fun r => rowid r =? i) (rows (update_by_id i f t))
  = option_map f (find (fun r => rowid r =? i) (rows t)).
Proof.
  intros Hf. unfold update_by_id. cbn [rows].
  induction (rows t) as [|r l IH]; [reflexivity|].
  cbn [map find]. destruct (rowid r =? i) eqn:E.
  - rewrite Hf, E. reflexivity.
  - rewrite E. exact IH.
Qed.

(** *** The role guard *)

Lemma roles_required_refuses (allowed_roles : list string) (view_func : view)
  (session : Session) (db : DB) :
  s_user_id session = None \/ role_allowed (s_role session) allowed_roles = false ->
  out_db (roles_required allowed_roles view_func session db) = db
  /\ out_session (roles_required allowed_roles view_func session db) = session
  /\ (exists endpoint,
        out_response (roles_required allowed_roles view_func session db)
        = Redirect endpoint None)
  /\ (s_user_id session = None ->
        roles_required allowed_roles view_func session db
        = mkOutcome db session [] (Redirect "login" None))
  /\ (forall other_view : view,
        roles_required allowed_roles view_func session db
        = roles_required allowed_roles other_view session db).
Proof.
  intros H. unfold roles_required.
  destruct (s_user_id session) as [uid|] eqn:Eu.
  - destruct H as [H|H]; [discriminate|]. rewrite H. cbn.
    repeat split; try reflexivity.
    + eexists. reflexivity.
    + discriminate.
  - repeat split; try reflexivity. eexists. reflexivity.
Qed.

(** C6.  A route wrapped by [roles_required] answers a request whose session
    has no [user_id], or whose role is not among the allowed ones, with a
    redirect that does not depend on the handler body [view_func] (the body
    does not run); the database and the session are left as they were.
    This holds of the decorator over any body, and so of every route of the
    URL map that carries it. *)
Theorem roles_required_guard :
  (forall (allowed_roles : list string) (view_func : view) (session : Session) (db : DB),
     s_user_id session = None \/ role_allowed (s_role session) allowed_roles = false ->
     out_db (roles_required allowed_roles view_func session db) = db
     /\ out_session (roles_required allowed_roles view_func session db) = session
     /\ (exists endpoint,
           out_response (roles_required allowed_roles view_func session db)
           = Redirect endpoint None)
     /\ (s_user_id session = None ->
           roles_required allowed_roles view_func session db
           = mkOutcome db session [] (Redirect "login" None))
     /\ (forall other_view : view,
           roles_required allowed_roles view_func session db
           = roles_required allowed_roles other_view session db))
  /\ (forall (env : Env) (req : request) (allowed_roles : list string)
        (session : Session) (db : DB),
        route_roles req = Some allowed_roles ->
        s_user_id session = None \/ role_allowed (s_role session) allowed_roles = false ->
        out_db (handle env req session db) = db
        /\ out_session (handle env req session db) = session
        /\ exists endpoint, out_response (handle env req session db) = Redirect endpoint None).
Proof.
  split; [exact roles_required_refuses|].
  intros env req allowed_roles session db Hroute Hguard.
  destruct req; cbn [route_roles] in Hroute; try discriminate;
    injection Hroute as <-; cbn [handle];
    match goal with
    | |- context [roles_required ?roles ?body session db] =>
      destruct (roles_required_refuses roles body session db Hguard) as (Hdb & Hs & Hr & _)
    end;
    (split; [exact Hdb|split; [exact Hs|exact Hr]]).
Qed.

Lemma validate_accepts (today : date) (conn : DB) (vehicle_id driver_id : Z)
  (cargo_weight : option float) (status : string) (old_status : option string)
  (v : option Vehicle) (d : option Driver) :
  validate_trip_assignment today conn vehicle_id driver_id cargo_weight status old_status
  = Ok (None, v, d) ->
  exists vehicle driver,
    find (fun r => v_id r =? vehicle_id) (rows (vehicles conn)) = Some vehicle
    /\ find (fun r => d_id r =? driver_id) (rows (drivers conn)) = Some driver.
Proof.
  unfold validate_trip_assignment, bind.
  destruct (fetch_by_id (vehicles conn) vehicle_id) as [[vehicle|]|] eqn:Ev;
    destruct (fetch_by_id (drivers conn) driver_id) as [[driver|]|] eqn:Ed;
    try discriminate.
  intros _. apply fetch_by_id_found in Ev, Ed.
  exists vehicle, driver. split; [apply Ev|apply Ed].
Qed.

Lemma find_vehicle_update (i : Z) (status : string) (t : Table Vehicle) :
  find (fun v => v_id v =? i) (rows (update_by_id i (set_v_status status) t))
  = option_map (set_v_status status) (find (fun v => v_id v =? i) (rows t)).
Proof.
  exact (find_update_by_id i (set_v_status status) t (fun _ => eq_refl)).
Qed.

Lemma find_driver_update (i : Z) (status : string) (t : Table Driver) :
  find (fun d => d_id d =? i) (rows (update_by_id i (set_d_status status) t))
  = option_map (set_d_status status) (find (fun d => d_id d =? i) (rows t)).
Proof.
  exact (find_update_by_id i (set_d_status status) t (fun _ => eq_refl)).
Qed.

Lemma set_availability_sets (status : string) (vehicle_id driver_id : Z) (conn conn' : DB)
  (vehicle : Vehicle) (driver : Driver) :
  find (fun r => v_id r =? vehicle_id) (rows (vehicles conn)) = Some vehicle ->
  find (fun r => d_id r =? driver_id) (rows (drivers conn)) = Some driver ->
  set_availability status vehicle_id driver_id conn = Ok conn' ->
  vehicle_status conn' vehicle_id = Some status
  /\ driver_status conn' driver_id = Some status.
Proof.
  intros Hv Hd. unfold set_availability, bind.
  destruct (execute _) as [conn1|] eqn:E1; [|discriminate].
  apply execute_ok in E1. subst conn1. intros E2. apply execute_ok in E2. subst conn'.
  unfold vehicle_status, driver_status. cbn [vehicles drivers set_vehicles set_drivers].
  split.
  - rewrite find_vehicle_update, Hv. reflexivity.
  - rewrite find_driver_update, Hd. reflexivity.
Qed.

Lemma trips_view_created (today : date) (form : TripForm) (session : Session) (db : DB) :
  out_flashes (trips_view today POST form session db) = [("Trip created.", "success")] ->
  exists vehicle_id driver_id vehicle driver conn1,
    tf_vehicle_id form = Some vehicle_id /\ tf_driver_id form = Some driver_id
    /\ find (fun r => v_id r =? vehicle_id) (rows (vehicles db)) = Some vehicle
    /\ find (fun r => d_id r =? driver_id) (rows (drivers db)) = Some driver
    /\ vehicles conn1 = vehicles db /\ drivers conn1 = drivers db
    /\ (let status := py_strip (get_default (tf_status form) "Draft") in
        (if (status =? "Dispatched")%string then
           set_availability "On Trip" vehicle_id driver_id conn1
         else if str_in status ["Completed"; "Cancelled"] then
           set_availability "Available" vehicle_id driver_id conn1
         else Ok conn1) = Ok (out_db (trips_view today POST form session db))).
Proof.
  unfold trips_view.
  destruct (negb (str_in _ _)); [discriminate|].
  destruct (tf_vehicle_id form) as [vehicle_id|]; [|discriminate].
  destruct (tf_driver_id form) as [driver_id|]; [|rewrite andb_false_r; discriminate].
  destruct (negb _); [discriminate|].
  unfold with_connection, bind.
  destruct (validate_trip_assignment _ _ _ _ _ _ _) as [[[[error|] v] d]|] eqn:Ev;
    [discriminate| |discriminate].
  apply validate_accepts in Ev. destruct Ev as (vehicle & driver & Hv & Hd).
  destruct (execute _) as [conn1|] eqn:E1; [|discriminate].
  apply execute_ok in E1.
  intros H. exists vehicle_id, driver_id, vehicle, driver, conn1.
  repeat split; try assumption; try (subst conn1; reflexivity).
  cbv zeta.
  destruct (if (_ =? "Dispatched")%string then _ else _) as [conn2|]; [reflexivity|discriminate].
Qed.
Lemma update_trip_status_updated (today : date) (trip_id : Z) (form_status : option string)
  (session : Session) (conn : DB) :
  out_flashes (update_trip_status today trip_id form_status session conn)
  = [("Trip status updated.", "success")] ->
  exists trip vehicle driver conn1,
    fetch_by_id (trips conn) trip_id = Ok (Some trip)
    /\ (t_status trip =? py_strip (get_default form_status ""))%string = false
    /\ find (fun r => v_id r =? t_vehicle_id trip) (rows (vehicles conn)) = Some vehicle
    /\ find (fun r => d_id r =? t_driver_id trip) (rows (drivers conn)) = Some driver
    /\ vehicles conn1 = vehicles conn /\ drivers conn1 = drivers conn
    /\ (let new_status := py_strip (get_default form_status "") in
        (if (new_status =? "Dispatched")%string then
           set_availability "On Trip" (t_vehicle_id trip) (t_driver_id trip) conn1
         else if str_in new_status ["Completed"; "Cancelled"; "Draft"] then
           set_availability "Available" (t_vehicle_id trip) (t_driver_id trip) conn1
         else Ok conn1)
        = Ok (out_db (update_trip_status today trip_id form_status session conn))).
Proof.
  unfold update_trip_status.
  destruct (negb (str_in _ _)); [discriminate|].
  unfold with_connection, bind.
  destruct (fetch_by_id (trips conn) trip_id) as [[trip|]|] eqn:Et; try discriminate.
  destruct (t_status trip =? _)%string eqn:Es; [discriminate|].
  destruct (validate_trip_assignment _ _ _ _ _ _ _) as [[[[error|] v] d]|] eqn:Ev;
    [discriminate| |discriminate].
  apply validate_accepts in Ev. destruct Ev as (vehicle & driver & Hv & Hd).
  destruct (execute _) as [conn1|] eqn:E1; [|discriminate].
  apply execute_ok in E1.
  intros H. exists trip, vehicle, driver, conn1.
  repeat split; try assumption; try (subst conn1; reflexivity).
  cbv zeta.
  destruct (if (_ =? "Dispatched")%string then _ else _) as [conn2|]; [reflexivity|discriminate].
Qed.

(** C2.  Trip status drives the availability flags.  When [trips] creates a
    trip (the answer is "Trip created."), or [update_trip_status] sets the
    status of an existing trip (the answer is "Trip status updated."), and
    the status set is 'Dispatched', the assigned vehicle and the assigned
    driver both read 'On Trip' afterwards; when it is 'Completed' or
    'Cancelled', both read 'Available'. *)
Theorem trip_status_drives_availability (today : date) (session : Session) (db : DB) :
  (forall (form : TripForm) (vehicle_id driver_id : Z),
     tf_vehicle_id form = Some vehicle_id -> tf_driver_id form = Some driver_id ->
     let status := py_strip (get_default (tf_status form) "Draft") in
     let o := trips_view today POST form session db in
     out_flashes o = [("Trip created.", "success")] ->
     (status = "Dispatched" ->
        vehicle_status (out_db o) vehicle_id = Some "On Trip"
        /\ driver_status (out_db o) driver_id = Some "On Trip")
     /\ (status = "Completed" \/ status = "Cancelled" ->
        vehicle_status (out_db o) vehicle_id = Some "Available"
        /\ driver_status (out_db o) driver_id = Some "Available"))
  /\ (forall (trip_id : Z) (form_status : option string) (trip : Trip),
       fetch_by_id (trips db) trip_id = Ok (Some trip) ->
       let new_status := py_strip (get_default form_status "") in
       let o := update_trip_status today trip_id form_status session db in
       out_flashes o = [("Trip status updated.", "success")] ->
       (new_status = "Dispatched" ->
          vehicle_status (out_db o) (t_vehicle_id trip) = Some "On Trip"
          /\ driver_status (out_db o) (t_driver_id trip) = Some "On Trip")
       /\ (new_status = "Completed" \/ new_status = "Cancelled" ->
          vehicle_status (out_db o) (t_vehicle_id trip) = Some "Available"
          /\ driver_status (out_db o) (t_driver_id trip) = Some "Available")).
Proof.
  split.
  - intros form vehicle_id driver_id Hvid Hdid status o Hok.
    destruct (trips_view_created _ _ _ _ Hok)
      as (vid & did & vehicle & driver & conn1 & Hv' & Hd' & Hv & Hd & Fv & Fd & Hrun).
    rewrite Hvid in Hv'. rewrite Hdid in Hd'.
    injection Hv' as <-. injection Hd' as <-.
    rewrite <- Fv in Hv. rewrite <- Fd in Hd.
    cbv zeta in Hrun. subst status o.
    split.
    + intros Hs. rewrite Hs in Hrun. cbn in Hrun.
      exact (set_availability_sets _ _ _ _ _ _ _ Hv Hd Hrun).
    + intros [Hs|Hs]; rewrite Hs in Hrun; cbn in Hrun;
        exact (set_availability_sets _ _ _ _ _ _ _ Hv Hd Hrun).
  - intros trip_id form_status trip Htrip new_status o Hok.
    destruct (update_trip_status_updated _ _ _ _ _ Hok)
      as (trip' & vehicle & driver & conn1 & Ht & _ & Hv & Hd & Fv & Fd & Hrun).
    rewrite Htrip in Ht. injection Ht as <-.
    rewrite <- Fv in Hv. rewrite <- Fd in Hd.
    cbv zeta in Hrun. subst new_status o.
    split.
    + intros Hs. rewrite Hs in Hrun. cbn in Hrun.
      exact (set_availability_sets _ _ _ _ _ _ _ Hv Hd Hrun).
    + intros [Hs|Hs]; rewrite Hs in Hrun; cbn in Hrun;
        exact (set_availability_sets _ _ _ _ _ _ _ Hv Hd Hrun).
Qed.

(** C10.  Reverting a trip to 'Draft' frees its resources.  For an existing
    trip whose status is not 'Draft', a successful [update_trip_status] to
    'Draft' leaves the assigned vehicle and the assigned driver 'Available';
    creating a trip as 'Draft' leaves the vehicles and drivers tables as
    they were. *)
Theorem draft_revert_frees_resources (today : date) (session : Session) (db : DB) :
  (forall (trip_id : Z) (form_status : option string) (trip : Trip),
     fetch_by_id (trips db) trip_id = Ok (Some trip) ->
     t_status trip <> "Draft" ->
     py_strip (get_default form_status "") = "Draft" ->
     let o := update_trip_status today trip_id form_status session db in
     out_flashes o = [("Trip status updated.", "success")] ->
     vehicle_status (out_db o) (t_vehicle_id trip) = Some "Available"
     /\ driver_status (out_db o) (t_driver_id trip) = Some "Available")
  /\ (forall (form : TripForm),
       py_strip (get_default (tf_status form) "Draft") = "Draft" ->
       let o := trips_view today POST form session db in
       out_flashes o = [("Trip created.", "success")] ->
       vehicles (out_db o) = vehicles db /\ drivers (out_db o) = drivers db).
Proof.
  split.
  - intros trip_id form_status trip Htrip _ Hs o Hok.
    destruct (update_trip_status_updated _ _ _ _ _ Hok)
      as (trip' & vehicle & driver & conn1 & Ht & _ & Hv & Hd & Fv & Fd & Hrun).
    rewrite Htrip in Ht. injection Ht as <-.
    rewrite <- Fv in Hv. rewrite <- Fd in Hd.
    cbv zeta in Hrun. subst o. rewrite Hs in Hrun. cbn in Hrun.
    exact (set_availability_sets _ _ _ _ _ _ _ Hv Hd Hrun).
  - intros form Hs o Hok.
    destruct (trips_view_created _ _ _ _ Hok)
      as (vid & did & vehicle & driver & conn1 & _ & _ & _ & _ & Fv & Fd & Hrun).
    cbv zeta in Hrun. subst o. rewrite Hs in Hrun.
    assert (E : conn1 = out_db (trips_view today POST form session db))
      by (injection Hrun; intros E; exact E).
    rewrite <- E. split; assumption.
Qed.

(** *** What the validator accepts *)

Lemma fetch_by_id_find {R} `{HasId R} (t : Table R) (i : Z) (r : option R) :
  fetch_by_id t i = Ok r -> find (fun r' => rowid r' =? i) (rows t) = r.
Proof.
  unfold fetch_by_id, sqlite_int, bind.
  destruct ((- 2 ^ 63 <=? i) && (i <? 2 ^ 63)); [|discriminate].
  intros E. injection E as E. exact E.
Qed.

Lemma validate_accepts_checked (today : date) (conn : DB) (vehicle_id driver_id : Z)
  (cargo_weight : option float) (status : string) (old_status : option string)
  (v : option Vehicle) (d : option Driver) :
  validate_trip_assignment today conn vehicle_id driver_id cargo_weight status old_status
  = Ok (None, v, d) ->
  exists driver,
    find (fun r => d_id r =? driver_id) (rows (drivers conn)) = Some driver
    /\ cargo_refused conn (Some vehicle_id) cargo_weight = false
    /\ is_license_expired today (d_license_expiry_date driver) = Ok false.
Proof.
  unfold validate_trip_assignment, bind.
  destruct (fetch_by_id (vehicles conn) vehicle_id) as [[vehicle|]|] eqn:Ev;
    destruct (fetch_by_id (drivers conn) driver_id) as [[driver|]|] eqn:Ed;
    try discriminate.
  apply fetch_by_id_find in Ev, Ed. unfold rowid, Vehicle_id, Driver_id in Ev, Ed.
  destruct cargo_weight as [w|]; [|discriminate].
  destruct (PrimFloat.leb w 0) eqn:Ew; [discriminate|].
  destruct (v_max_capacity_kg vehicle) as [m|] eqn:Em; [|discriminate].
  destruct (PrimFloat.ltb m w) eqn:Emw; [discriminate|].
  destruct (v_status vehicle =? "In Shop")%string; [discriminate|].
  destruct (is_license_expired today (d_license_expiry_date driver)) as [[|]|] eqn:El;
    try discriminate.
  intros _. exists driver. repeat split; try assumption.
  unfold cargo_refused, exceeds_capacity. rewrite Ew, Ev, Em, Emw. reflexivity.
Qed.

Lemma validate_shape (today : date) (conn : DB) (vehicle_id driver_id : Z)
  (cargo_weight : option float) (status : string) (old_status : option string) :
  match validate_trip_assignment today conn vehicle_id driver_id cargo_weight status old_status with
  | Ok (Some _, _, _) => True
  | Ok (None, Some _, Some _) => True
  | Ok (None, _, _) => False
  | Raise _ => True
  end.
Proof.
  unfold validate_trip_assignment, bind.
  repeat break_match; try exact I; try discriminate; try congruence.
Qed.

Lemma license_lapsed_expired (today : date) (text : option string) :
  license_lapsed today text -> is_license_expired today text = Ok true.
Proof.
  unfold license_lapsed, is_license_expired.
  intros [->|[->|(s & d & -> & Hp & Hd)]]; try reflexivity.
  destruct (negb (truthy_str s)); [reflexivity|]. rewrite Hp, Hd. reflexivity.
Qed.

(** *** The outcomes of the two trip handlers *)

Lemma trips_view_cases (today : date) (form : TripForm) (session : Session) (db : DB) :
  let o := trips_view today POST form session db in
  (out_db o = db /\ reports_error o = true)
  \/ exists vehicle_id driver_id v d,
       tf_vehicle_id form = Some vehicle_id /\ tf_driver_id form = Some driver_id
       /\ validate_trip_assignment today db vehicle_id driver_id (tf_cargo_weight form)
            (py_strip (get_default (tf_status form) "Draft")) None = Ok (None, v, d).
Proof.
  cbv zeta. unfold trips_view.
  destruct (negb (str_in _ _)); [left; split; reflexivity|].
  destruct (tf_vehicle_id form) as [vehicle_id|]; [|left; split; reflexivity].
  destruct (tf_driver_id form) as [driver_id|];
    [|rewrite andb_false_r; left; split; reflexivity].
  destruct (negb _); [left; split; reflexivity|].
  unfold with_connection, bind.
  destruct (validate_trip_assignment _ _ _ _ _ _ _) as [[[[error|] v] d]|] eqn:Ev;
    [left; split; reflexivity| |left; split; reflexivity].
  right. exists vehicle_id, driver_id, v, d. repeat split. exact Ev.
Qed.

Lemma update_trip_status_cases (today : date) (trip_id : Z) (form_status : option string)
  (session : Session) (conn : DB) :
  let new_status := py_strip (get_default form_status "") in
  let o := update_trip_status today trip_id form_status session conn in
  (out_db o = conn /\ reports_error o = true)
  \/ (exists trip, fetch_by_id (trips conn) trip_id = Ok (Some trip)
        /\ t_status trip = new_status
        /\ o = flash_redirect conn session "Trip status unchanged." "success" "trips" None)
  \/ (exists trip v d, fetch_by_id (trips conn) trip_id = Ok (Some trip)
        /\ t_status trip <> new_status
        /\ validate_trip_assignment today conn (t_vehicle_id trip) (t_driver_id trip)
             (t_cargo_weight trip) new_status (Some (t_status trip)) = Ok (None, v, d)).
Proof.
  cbv zeta. unfold update_trip_status.
  destruct (negb (str_in _ _)); [left; split; reflexivity|].
  unfold with_connection, bind.
  destruct (fetch_by_id (trips conn) trip_id) as [[trip|]|] eqn:Et;
    try (left; split; reflexivity).
  destruct (t_status trip =? _)%string eqn:Es.
  - apply String.eqb_eq in Es. right. left. exists trip. repeat split. exact Es.
  - apply String.eqb_neq in Es.
    destruct (validate_trip_assignment _ _ _ _ _ _ _) as [[[[error|] v] d]|] eqn:Ev;
      [left; split; reflexivity| |left; split; reflexivity].
    right. right. exists trip, v, d. repeat split; assumption.
Qed.

Lemma trips_view_refused (today : date) (form : TripForm) (session : Session) (db : DB) :
  (forall vehicle_id driver_id v d,
     tf_vehicle_id form = Some vehicle_id -> tf_driver_id form = Some driver_id ->
     validate_trip_assignment today db vehicle_id driver_id (tf_cargo_weight form)
       (py_strip (get_default (tf_status form) "Draft")) None <> Ok (None, v, d)) ->
  out_db (trips_view today POST form session db) = db
  /\ reports_error (trips_view today POST form session db) = true.
Proof.
  intros H.
  destruct (trips_view_cases today form session db)
    as [Hr|(vehicle_id & driver_id & v & d & Hv & Hd & Hok)]; [exact Hr|].
  exfalso. exact (H _ _ _ _ Hv Hd Hok).
Qed.

Lemma update_trip_status_refused (today : date) (trip_id : Z) (form_status : option string)
  (session : Session) (conn : DB) (trip : Trip) :
  fetch_by_id (trips conn) trip_id = Ok (Some trip) ->
  (forall v d,
     validate_trip_assignment today conn (t_vehicle_id trip) (t_driver_id trip)
       (t_cargo_weight trip) (py_strip (get_default form_status ""))
       (Some (t_status trip)) <> Ok (None, v, d)) ->
  out_db (update_trip_status today trip_id form_status session conn) = conn
  /\ (t_status trip <> py_strip (get_default form_status "") ->
      reports_error (update_trip_status today trip_id form_status session conn) = true).
Proof.
  intros Ht H.
  destruct (update_trip_status_cases today trip_id form_status session conn)
    as [[Hdb Herr]|[(trip' & Ht' & Hs & Ho)|(trip' & v & d & Ht' & Hs & Hok)]].
  - split; [exact Hdb|intros _; exact Herr].
  - rewrite Ht in Ht'. injection Ht' as <-. rewrite Ho. split; [reflexivity|].
    intros Hne. contradiction.
  - rewrite Ht in Ht'. injection Ht' as <-. exfalso. exact (H _ _ Hok).
Qed.

Lemma update_trip_status_same (today : date) (trip_id : Z) (form_status : option string)
  (session : Session) (conn : DB) (trip : Trip) :
  fetch_by_id (trips conn) trip_id = Ok (Some trip) ->
  t_status trip = py_strip (get_default form_status "") ->
  str_in (t_status trip) ["Draft"; "Dispatched"; "Completed"; "Cancelled"] = true ->
  update_trip_status today trip_id form_status session conn
  = flash_redirect conn session "Trip status unchanged." "success" "trips" None.
Proof.
  intros Ht Hs Hv. unfold update_trip_status. rewrite <- Hs, Hv. cbn [negb].
  rewrite Ht. unfold with_connection, bind. rewrite String.eqb_refl. reflexivity.
Qed.

Lemma lapsed_not_accepted (today : date) (conn : DB) (vehicle_id driver_id : Z)
  (cargo_weight : option float) (status : string) (old_status : option string)
  (driver : Driver) (v : option Vehicle) (d : option Driver) :
  find (fun r => d_id r =? driver_id) (rows (drivers conn)) = Some driver ->
  license_lapsed today (d_license_expiry_date driver) ->
  validate_trip_assignment today conn vehicle_id driver_id cargo_weight status old_status
  <> Ok (None, v, d).
Proof.
  intros Hd Hl Hok.
  destruct (validate_accepts_checked _ _ _ _ _ _ _ _ _ Hok) as (driver' & Hd' & _ & He).
  rewrite Hd in Hd'. injection Hd' as <-.
  rewrite (license_lapsed_expired _ _ Hl) in He. discriminate.
Qed.

Lemma validate_reports_lapsed (today : date) (conn : DB) (vehicle_id driver_id : Z)
  (cargo_weight : option float) (status : string) (old_status : option string)
  (driver : Driver) :
  earlier_checks_pass conn vehicle_id cargo_weight ->
  fetch_by_id (drivers conn) driver_id = Ok (Some driver) ->
  license_lapsed today (d_license_expiry_date driver) ->
  validate_trip_assignment today conn vehicle_id driver_id cargo_weight status old_status
  = Ok (Some "Driver license is expired and cannot be assigned.", None, None).
Proof.
  intros (vehicle & w & m & Hv & -> & Hw & Hm & Hmw & Hshop) Hd Hl.
  unfold validate_trip_assignment, bind.
  rewrite Hv, Hd, Hw, Hm, Hmw, Hshop, (license_lapsed_expired _ _ Hl). reflexivity.
Qed.

(** C3, as amended.  When the cargo weight is missing, [<= 0], or above the
    [max_capacity_kg] of the assigned vehicle, trip creation leaves the
    database unchanged and reports an error.  A status update of a trip
    with such a weight leaves the database unchanged too; it reports an
    error when the requested status differs from the current one, and
    answers "Trip status unchanged." as a success when a valid status is
    requested that the trip already has. *)
Theorem cargo_refusal_leaves_state (today : date) (session : Session) (db : DB) :
  (forall form : TripForm,
     cargo_refused db (tf_vehicle_id form) (tf_cargo_weight form) = true ->
     let o := trips_view today POST form session db in
     out_db o = db /\ reports_error o = true)
  /\ (forall (trip_id : Z) (form_status : option string) (trip : Trip),
       fetch_by_id (trips db) trip_id = Ok (Some trip) ->
       cargo_refused db (Some (t_vehicle_id trip)) (t_cargo_weight trip) = true ->
       let new_status := py_strip (get_default form_status "") in
       let o := update_trip_status today trip_id form_status session db in
       out_db o = db
       /\ (t_status trip <> new_status -> reports_error o = true)
       /\ (t_status trip = new_status ->
           str_in new_status ["Draft"; "Dispatched"; "Completed"; "Cancelled"] = true ->
           o = flash_redirect db session "Trip status unchanged." "success" "trips" None)).
Proof.
  split.
  - intros form Hc o. apply trips_view_refused.
    intros vehicle_id driver_id v d Hv _ Hok.
    destruct (validate_accepts_checked _ _ _ _ _ _ _ _ _ Hok) as (_ & _ & Hc' & _).
    rewrite Hv in Hc. congruence.
  - intros trip_id form_status trip Ht Hc new_status o.
    assert (Hno : forall v d,
      validate_trip_assignment today db (t_vehicle_id trip) (t_driver_id trip)
        (t_cargo_weight trip) new_status (Some (t_status trip)) <> Ok (None, v, d)).
    { intros v d Hok.
      destruct (validate_accepts_checked _ _ _ _ _ _ _ _ _ Hok) as (_ & _ & Hc' & _).
      congruence. }
    destruct (update_trip_status_refused today trip_id form_status session db trip Ht Hno)
      as [Hdb Herr].
    split; [exact Hdb|]. split; [exact Herr|].
    intros Hs Hvalid. apply (update_trip_status_same _ _ _ _ _ trip Ht Hs).
    rewrite Hs. exact Hvalid.
Qed.

(** C4, as amended.  When the license expiry date of the assigned driver is
    missing, empty, or parses to a date strictly before today, trip
    creation leaves the database unchanged and reports an error, and a
    status update leaves the database unchanged and reports an error
    whenever the requested status differs from the current one.  The error
    is "Driver license is expired and cannot be assigned." when no earlier
    check answers first: the requested status is valid (and, for an update,
    not the current one), the required fields are present, the vehicle
    exists, the cargo weight is positive and within capacity, and the
    vehicle is not 'In Shop'. *)
Theorem lapsed_license_leaves_state (today : date) (session : Session) (db : DB) :
  (forall (form : TripForm) (driver_id : Z) (driver : Driver),
     tf_driver_id form = Some driver_id ->
     fetch_by_id (drivers db) driver_id = Ok (Some driver) ->
     license_lapsed today (d_license_expiry_date driver) ->
     let o := trips_view today POST form session db in
     out_db o = db
     /\ reports_error o = true
     /\ (forall vehicle_id,
           str_in (py_strip (get_default (tf_status form) "Draft"))
             ["Draft"; "Dispatched"; "Completed"; "Cancelled"] = true ->
           tf_vehicle_id form = Some vehicle_id ->
           vehicle_id <> 0 -> driver_id <> 0 ->
           py_strip (get_default (tf_origin form) "") <> "" ->
           py_strip (get_default (tf_destination form) "") <> "" ->
           earlier_checks_pass db vehicle_id (tf_cargo_weight form) ->
           o = flash_redirect db session
                 "Driver license is expired and cannot be assigned." "error" "trips" None))
  /\ (forall (trip_id : Z) (form_status : option string) (trip : Trip) (driver : Driver),
       fetch_by_id (trips db) trip_id = Ok (Some trip) ->
       fetch_by_id (drivers db) (t_driver_id trip) = Ok (Some driver) ->
       license_lapsed today (d_license_expiry_date driver) ->
       let new_status := py_strip (get_default form_status "") in
       let o := update_trip_status today trip_id form_status session db in
       out_db o = db
       /\ (t_status trip <> new_status -> reports_error o = true)
       /\ (str_in new_status ["Draft"; "Dispatched"; "Completed"; "Cancelled"] = true ->
           t_status trip <> new_status ->
           earlier_checks_pass db (t_vehicle_id trip) (t_cargo_weight trip) ->
           o = flash_redirect db session
                 "Driver license is expired and cannot be assigned." "error" "trips" None)).
Proof.
  split.
  - intros form driver_id driver Hdid Hd Hl o.
    pose proof (fetch_by_id_find _ _ _ Hd) as Hfind.
    unfold rowid, Driver_id in Hfind.
    destruct (trips_view_refused today form session db) as [Hdb Herr].
    { intros vehicle_id driver_id' v d _ Hdid'. rewrite Hdid in Hdid'. injection Hdid' as <-.
      exact (lapsed_not_accepted _ _ _ _ _ _ _ _ _ _ Hfind Hl). }
    split; [exact Hdb|]. split; [exact Herr|].
    intros vehicle_id Hvalid Hvid Hv0 Hd0 Ho Hdest Hearly.
    subst o. unfold trips_view. rewrite Hvalid, Hvid, Hdid. cbn [negb truthy_int].
    apply Z.eqb_neq in Hv0, Hd0. rewrite Hv0, Hd0.
    apply String.eqb_neq in Ho, Hdest. unfold truthy_str. rewrite Ho, Hdest. cbn [negb andb].
    rewrite (validate_reports_lapsed _ _ _ _ _ _ _ _ Hearly Hd Hl). reflexivity.
  - intros trip_id form_status trip driver Ht Hd Hl new_status o.
    pose proof (fetch_by_id_find _ _ _ Hd) as Hfind.
    unfold rowid, Driver_id in Hfind.
    destruct (update_trip_status_refused today trip_id form_status session db trip Ht)
      as [Hdb Herr].
    { intros v d. exact (lapsed_not_accepted _ _ _ _ _ _ _ _ _ _ Hfind Hl). }
    split; [exact Hdb|]. split; [exact Herr|].
    intros Hvalid Hs Hearly. subst o new_status. unfold update_trip_status.
    rewrite Hvalid. cbn [negb]. rewrite Ht. unfold with_connection, bind.
    apply String.eqb_neq in Hs. rewrite Hs.
    rewrite (validate_reports_lapsed _ _ _ _ _ _ _ _ Hearly Hd Hl). reflexivity.
Qed.

(** C9.  A missing license expiry date counts as expired.
    [is_license_expired] answers [True] for [None] and for the empty text;
    so [validate_trip_assignment] never accepts a driver whose stored
    expiry date is [None] or empty, trip creation for such a driver reports
    an error and writes nothing, and no status update of a trip of such a
    driver writes anything. *)
Theorem missing_expiry_counts_as_expired (today : date) :
  is_license_expired today None = Ok true
  /\ is_license_expired today (Some "") = Ok true
  /\ (forall (conn : DB) (vehicle_id driver_id : Z) (cargo_weight : option float)
        (status : string) (old_status : option string) (driver : Driver) v d,
        find (fun r => d_id r =? driver_id) (rows (drivers conn)) = Some driver ->
        d_license_expiry_date driver = None \/ d_license_expiry_date driver = Some "" ->
        validate_trip_assignment today conn vehicle_id driver_id cargo_weight status old_status
        <> Ok (None, v, d))
  /\ (forall (form : TripForm) (session : Session) (db : DB) (driver_id : Z) (driver : Driver),
        tf_driver_id form = Some driver_id ->
        find (fun r => d_id r =? driver_id) (rows (drivers db)) = Some driver ->
        d_license_expiry_date driver = None \/ d_license_expiry_date driver = Some "" ->
        out_db (trips_view today POST form session db) = db
        /\ reports_error (trips_view today POST form session db) = true)
  /\ (forall (trip_id : Z) (form_status : option string) (session : Session) (db : DB)
        (trip : Trip) (driver : Driver),
        fetch_by_id (trips db) trip_id = Ok (Some trip) ->
        find (fun r => d_id r =? t_driver_id trip) (rows (drivers db)) = Some driver ->
        d_license_expiry_date driver = None \/ d_license_expiry_date driver = Some "" ->
        out_db (update_trip_status today trip_id form_status session db) = db).
Proof.
  assert (Hlapsed : forall driver,
    d_license_expiry_date driver = None \/ d_license_expiry_date driver = Some "" ->
    license_lapsed today (d_license_expiry_date driver)).
  { intros driver [H|H]; unfold license_lapsed; [left|right; left]; exact H. }
  split; [reflexivity|]. split; [reflexivity|]. split; [|split].
  - intros conn vehicle_id driver_id cargo_weight status old_status driver v d Hd He.
    exact (lapsed_not_accepted _ _ _ _ _ _ _ _ _ _ Hd (Hlapsed _ He)).
  - intros form session db driver_id driver Hdid Hd He.
    apply trips_view_refused.
    intros vehicle_id driver_id' v d _ Hdid'. rewrite Hdid in Hdid'. injection Hdid' as <-.
    exact (lapsed_not_accepted _ _ _ _ _ _ _ _ _ _ Hd (Hlapsed _ He)).
  - intros trip_id form_status session db trip driver Ht Hd He.
    apply (update_trip_status_refused today trip_id form_status session db trip Ht).
    intros v d. exact (lapsed_not_accepted _ _ _ _ _ _ _ _ _ _ Hd (Hlapsed _ He)).
Qed.

(** *** Login *)

Lemma str_in_three (s a b c : string) :
  str_in s [a; b; c] = true -> s = a \/ s = b \/ s = c.
Proof.
  unfold str_in. cbn [existsb]. rewrite !orb_true_iff, !String.eqb_eq.
  intros [H|[H|[H|H]]]; auto. discriminate.
Qed.

Lemma login_status_gate (form : LoginForm) (session : Session) (db : DB) :
  users_status_checked db ->
  let username := py_strip (get_default (lf_username form) "") in
  let password := get_default (lf_password form) "" in
  let matched := find (login_matches username) (rows (users db)) in
  let o := login POST form session db in
  ((exists user, o = logged_in db user)
   <-> (exists user, matched = Some user
          /\ check_password_hash (u_password_hash user) password = true
          /\ u_status user = "approved"))
  /\ (forall user, matched = Some user ->
        check_password_hash (u_password_hash user) password = true ->
        u_status user = "pending" ->
        o = flash_render db session "Awaiting manager approval" "error" "login.html")
  /\ (forall user, matched = Some user ->
        check_password_hash (u_password_hash user) password = true ->
        u_status user = "rejected" ->
        o = flash_render db session "Access denied by manager" "error" "login.html")
  /\ ((forall user, o <> logged_in db user) ->
        out_session o = session /\ out_db o = db /\ out_response o = Render "login.html").
Proof.
  intros Hchk username password matched o.
  subst o. unfold login. fold username password matched.
  assert (Hfail : forall msg,
    ~ (exists user, matched = Some user
         /\ check_password_hash (u_password_hash user) password = true
         /\ u_status user = "approved") ->
    (forall user, matched = Some user ->
       check_password_hash (u_password_hash user) password = true ->
       u_status user = "pending" -> msg = "Awaiting manager approval") ->
    (forall user, matched = Some user ->
       check_password_hash (u_password_hash user) password = true ->
       u_status user = "rejected" -> msg = "Access denied by manager") ->
    let o := flash_render db session msg "error" "login.html" in
    ((exists user, o = logged_in db user)
     <-> (exists user, matched = Some user
            /\ check_password_hash (u_password_hash user) password = true
            /\ u_status user = "approved"))
    /\ (forall user, matched = Some user ->
          check_password_hash (u_password_hash user) password = true ->
          u_status user = "pending" ->
          o = flash_render db session "Awaiting manager approval" "error" "login.html")
    /\ (forall user, matched = Some user ->
          check_password_hash (u_password_hash user) password = true ->
          u_status user = "rejected" ->
          o = flash_render db session "Access denied by manager" "error" "login.html")
    /\ ((forall user, o <> logged_in db user) ->
          out_session o = session /\ out_db o = db /\ out_response o = Render "login.html")).
  { intros msg Hno Hp Hr o. subst o. split; [split|split; [|split]].
    - intros [u Hu]. discriminate.
    - intros H. contradiction.
    - intros u Hu Hc Hs. rewrite (Hp u Hu Hc Hs). reflexivity.
    - intros u Hu Hc Hs. rewrite (Hr u Hu Hc Hs). reflexivity.
    - intros _. repeat split. }
  destruct matched as [user|] eqn:Em.
  - assert (Hin : In user (rows (users db))) by (apply find_some in Em; apply Em).
    destruct (check_password_hash (u_password_hash user) password) eqn:Ec; cbn [negb].
    + destruct (str_in_three _ _ _ _ (Hchk user Hin)) as [Hs|[Hs|Hs]]; rewrite Hs.
      * apply Hfail.
        -- intros (u & Hu & _ & Hap). injection Hu as <-. rewrite Hs in Hap. discriminate.
        -- reflexivity.
        -- intros u Hu _ Hr. injection Hu as <-. rewrite Hs in Hr. discriminate.
      * change (("approved" =? STATUS_PENDING)%string) with false.
        change (("approved" =? STATUS_REJECTED)%string) with false.
        cbv iota. fold (logged_in db user).
        split; [split|split; [|split]].
        -- intros _. exists user. repeat split; assumption.
        -- intros _. exists user. reflexivity.
        -- intros u Hu _ Hp. injection Hu as <-. rewrite Hs in Hp. discriminate.
        -- intros u Hu _ Hr. injection Hu as <-. rewrite Hs in Hr. discriminate.
        -- intros H. exfalso. exact (H user eq_refl).
      * apply Hfail.
        -- intros (u & Hu & _ & Hap). injection Hu as <-. rewrite Hs in Hap. discriminate.
        -- intros u Hu _ Hp. injection Hu as <-. rewrite Hs in Hp. discriminate.
        -- reflexivity.
    + apply Hfail.
      * intros (u & Hu & Hc & _). injection Hu as <-. congruence.
      * intros u Hu Hc. injection Hu as <-. congruence.
      * intros u Hu Hc. injection Hu as <-. congruence.
  - apply Hfail.
    + intros (u & Hu & _). discriminate.
    + intros u Hu. discriminate.
    + intros u Hu. discriminate.
Qed.

(** C7, as amended.  The approval workflow gates login.  With the status
    column holding one of 'pending', 'approved', 'rejected' (its CHECK
    constraint), a POST to [login] establishes the session of a user
    exactly when the query matches a user, the submitted password checks
    against the stored hash, and the status of that user is 'approved'.  A
    matched user whose password checks and whose status is 'pending' is
    answered "Awaiting manager approval", one whose status is 'rejected'
    "Access denied by manager"; an attempt that matches no user, or whose
    password does not check, is answered "Invalid username or password."
    whatever the status.  Whenever no session is established, the session
    and the database are as before and the login page is rendered again. *)
Theorem login_gated_by_approval (form : LoginForm) (session : Session) (db : DB) :
  users_status_checked db ->
  let username := py_strip (get_default (lf_username form) "") in
  let password := get_default (lf_password form) "" in
  let matched := find (login_matches username) (rows (users db)) in
  let o := login POST form session db in
  ((exists user, o = logged_in db user)
   <-> (exists user, matched = Some user
          /\ check_password_hash (u_password_hash user) password = true
          /\ u_status user = "approved"))
  /\ (forall user, matched = Some user ->
        check_password_hash (u_password_hash user) password = true ->
        u_status user = "pending" ->
        o = flash_render db session "Awaiting manager approval" "error" "login.html")
  /\ (forall user, matched = Some user ->
        check_password_hash (u_password_hash user) password = true ->
        u_status user = "rejected" ->
        o = flash_render db session "Access denied by manager" "error" "login.html")
  /\ ((forall user, o <> logged_in db user) ->
        out_session o = session /\ out_db o = db /\ out_response o = Render "login.html")
  /\ ((matched = None
       \/ exists user, matched = Some user
            /\ check_password_hash (u_password_hash user) password = false) ->
      o = flash_render db session "Invalid username or password." "error" "login.html").
Proof.
  intros Hchk username password matched o.
  destruct (login_status_gate form session db Hchk) as (H1 & H2 & H3 & H4).
  split; [exact H1|]. split; [exact H2|]. split; [exact H3|]. split; [exact H4|].
  subst o. unfold login. fold username password matched.
  intros [Hnone|(user & Hm & Hc)].
  - rewrite Hnone. reflexivity.
  - rewrite Hm, Hc. reflexivity.
Qed.

(** *** What a request does to each table *)

Lemma roles_required_out (Q : DB -> Prop) (allowed_roles : list string) (view_func : view)
  (session : Session) (db : DB) :
  Q db -> Q (out_db (view_func session db)) ->
  Q (out_db (roles_required allowed_roles view_func session db)).
Proof.
  intros H0 H1. unfold roles_required.
  destruct (s_user_id session); [|exact H0].
  destruct (negb _); [exact H0|exact H1].
Qed.

Lemma set_availability_trips (status : string) (vehicle_id driver_id : Z) (conn conn' : DB) :
  set_availability status vehicle_id driver_id conn = Ok conn' -> trips conn' = trips conn.
Proof.
  unfold set_availability, bind.
  destruct (execute _) as [conn1|] eqn:E1; [|discriminate].
  apply execute_ok in E1. subst conn1. intros E2. apply execute_ok in E2. subst conn'.
  reflexivity.
Qed.

Lemma trips_view_trips (today : date) (method : http_method) (form : TripForm)
  (session : Session) (db : DB) :
  trips_change db (out_db (trips_view today method form session db)).
Proof.
  destruct method; [apply trips_same; reflexivity|].
  unfold trips_view.
  destruct (negb (str_in _ _)) eqn:Evalid; [apply trips_same; reflexivity|].
  destruct (negb (_ && _)); [apply trips_same; reflexivity|].
  unfold with_connection, bind.
  destruct (validate_trip_assignment _ _ _ _ _ _ _) as [[[[error|] v] d]|];
    try (apply trips_same; reflexivity).
  destruct (execute _) as [conn1|] eqn:E1; [|apply trips_same; reflexivity].
  apply execute_ok in E1.
  apply negb_false_iff in Evalid.
  assert (Hins : trips conn1 = insert
     (fun i => mkTrip i match tf_vehicle_id form with Some k => k | None => 0 end
                 match tf_driver_id form with Some k => k | None => 0 end
                 (opt_real (tf_cargo_weight form))
                 (py_strip (get_default (tf_origin form) ""))
                 (py_strip (get_default (tf_destination form) ""))
                 (py_strip (get_default (tf_status form) "Draft")))
     (trips db)) by (subst conn1; reflexivity).
  destruct (if (_ =? "Dispatched")%string then _ else _) as [conn2|] eqn:E2;
    [|apply trips_same; reflexivity].
  eapply trips_inserted.
  - cbn [out_db flash_redirect]. transitivity (trips conn1); [|exact Hins].
    destruct (_ =? "Dispatched")%string.
    + exact (set_availability_trips _ _ _ _ _ E2).
    + destruct (str_in _ ["Completed"; "Cancelled"]).
      * exact (set_availability_trips _ _ _ _ _ E2).
      * congruence.
  - intros i. exact Evalid.
Qed.

Lemma update_trip_status_trips (today : date) (trip_id : Z) (form_status : option string)
  (session : Session) (db : DB) :
  trips_change db (out_db (update_trip_status today trip_id form_status session db)).
Proof.
  unfold update_trip_status.
  destruct (negb (str_in _ _)) eqn:Evalid; [apply trips_same; reflexivity|].
  unfold with_connection, bind.
  destruct (fetch_by_id (trips db) trip_id) as [[trip|]|];
    try (apply trips_same; reflexivity).
  destruct (t_status trip =? _)%string; [apply trips_same; reflexivity|].
  destruct (validate_trip_assignment _ _ _ _ _ _ _) as [[[[error|] v] d]|];
    try (apply trips_same; reflexivity).
  destruct (execute _) as [conn1|] eqn:E1; [|apply trips_same; reflexivity].
  apply execute_ok in E1.
  apply negb_false_iff in Evalid.
  assert (Hupd : trips conn1
     = update_by_id trip_id (set_t_status (py_strip (get_default form_status ""))) (trips db))
    by (subst conn1; reflexivity).
  destruct (if (_ =? "Dispatched")%string then _ else _) as [conn2|] eqn:E2;
    [|apply trips_same; reflexivity].
  apply trips_updated with (trip_id := trip_id) (status := py_strip (get_default form_status ""));
    [|exact Evalid].
  cbn [out_db flash_redirect]. rewrite <- Hupd.
  destruct (_ =? "Dispatched")%string.
  - exact (set_availability_trips _ _ _ _ _ E2).
  - destruct (str_in _ ["Completed"; "Cancelled"; "Draft"]).
    + exact (set_availability_trips _ _ _ _ _ E2).
    + congruence.
Qed.

Lemma handle_trips (env : Env) (req : request) (session : Session) (db : DB) :
  trips_change db (out_db (handle env req session db)).
Proof.
  destruct req; cbn [handle];
    try (apply roles_required_out; [apply trips_same; reflexivity|]);
    try apply trips_view_trips; try apply update_trip_status_trips;
    apply trips_same.
  - unfold index. run_handler.
  - unfold login. run_handler.
  - unfold register. run_handler.
  - unfold logout, login_required. run_handler.
  - reflexivity.
  - unfold approve_user, with_connection, bind. run_handler.
  - unfold reject_user, with_connection, bind. run_handler.
  - unfold delete_user, with_connection, bind. run_handler.
  - unfold vehicles_view, bind. run_handler.
  - unfold edit_vehicle, with_connection, bind. run_handler.
  - unfold delete_vehicle, with_connection, bind. run_handler.
  - unfold drivers_view. run_handler.
  - unfold edit_driver, with_connection, bind. run_handler.
  - unfold delete_driver, with_connection, bind. run_handler.
  - reflexivity.
  - unfold maintenance, with_connection, bind. run_handler.
  - reflexivity.
  - reflexivity.
  - unfold safety_update_driver, with_connection, bind. run_handler.
  - unfold financial_dashboard, with_connection, bind. run_handler.
Qed.

Lemma trips_change_valid (db db' : DB) :
  trips_change db db' -> trip_statuses_valid db -> trip_statuses_valid db'.
Proof.
  intros [Hs|row Hi Hrow|trip_id status Hu Hst] Hv t Ht.
  - rewrite Hs in Ht. exact (Hv t Ht).
  - rewrite Hi in Ht. unfold insert in Ht. cbn [rows] in Ht.
    apply in_app_or in Ht. destruct Ht as [Ht|[<-|[]]]; [exact (Hv t Ht)|apply Hrow].
  - rewrite Hu in Ht. unfold update_by_id in Ht. cbn [rows] in Ht.
    apply in_map_iff in Ht. destruct Ht as (t0 & <- & Ht0).
    destruct (rowid t0 =? trip_id); [exact Hst|exact (Hv t0 Ht0)].
Qed.

Lemma trips_change_kept (db db' : DB) :
  trips_change db db' ->
  exists added,
    map without_status (rows (trips db'))
    = (map without_status (rows (trips db)) ++ added)%list.
Proof.
  intros [Hs|row Hi _|trip_id status Hu _].
  - exists []. rewrite Hs, app_nil_r. reflexivity.
  - exists [without_status (row (next_rowid (trips db)))].
    rewrite Hi. unfold insert. cbn [rows]. rewrite map_app. reflexivity.
  - exists []. rewrite Hu, app_nil_r. unfold update_by_id. cbn [rows].
    rewrite map_map. apply map_ext. intros t.
    destruct (rowid t =? trip_id); reflexivity.
Qed.

(** C5.  Trip status is a four-valued enum.  From a database whose trips
    all carry one of 'Draft', 'Dispatched', 'Completed', 'Cancelled', every
    database that requests can lead to has that property too; and both
    trip creation and [update_trip_status] answer any other requested
    status with the error "Invalid trip status." and leave the database
    (and the session) unchanged. *)
Theorem trip_status_is_four_valued :
  (forall db0 db : DB,
     trip_statuses_valid db0 -> reachable db0 db -> trip_statuses_valid db)
  /\ (forall (today : date) (form : TripForm) (session : Session) (db : DB),
        str_in (py_strip (get_default (tf_status form) "Draft"))
          ["Draft"; "Dispatched"; "Completed"; "Cancelled"] = false ->
        trips_view today POST form session db
        = flash_redirect db session "Invalid trip status." "error" "trips" None)
  /\ (forall (today : date) (trip_id : Z) (form_status : option string)
        (session : Session) (db : DB),
        str_in (py_strip (get_default form_status ""))
          ["Draft"; "Dispatched"; "Completed"; "Cancelled"] = false ->
        update_trip_status today trip_id form_status session db
        = flash_redirect db session "Invalid trip status." "error" "trips" None).
Proof.
  split; [|split].
  - intros db0 db H0 Hr. induction Hr as [|env req session db Hr IH].
    + exact H0.
    + exact (trips_change_valid _ _ (handle_trips env req session db) IH).
  - intros today form session db H. unfold trips_view. rewrite H. reflexivity.
  - intros today trip_id form_status session db H. unfold update_trip_status.
    rewrite H. reflexivity.
Qed.

(** C8.  Trip deletion is a no-op.  For every [trip_id], [delete_trip]
    flashes "Trip deletion is disabled by current role policy." as an error
    and leaves the database unchanged; so does the route, which gives that
    answer to every dispatcher and changes nothing for anyone; and no
    request ever removes a trip: in every database that requests lead to,
    the trips of the starting database are still there, in order, the same
    up to their status. *)
Theorem trip_deletion_is_disabled :
  (forall (trip_id : Z) (session : Session) (db : DB),
     delete_trip trip_id session db
     = flash_redirect db session "Trip deletion is disabled by current role policy."
         "error" "trips" None)
  /\ (forall (env : Env) (trip_id : Z) (session : Session) (db : DB),
        out_db (handle env (DeleteTrip trip_id) session db) = db)
  /\ (forall (env : Env) (trip_id user_id : Z) (username : option string) (db : DB),
        handle env (DeleteTrip trip_id) (mkSession (Some user_id) username (Some "Dispatcher")) db
        = flash_redirect db (mkSession (Some user_id) username (Some "Dispatcher"))
            "Trip deletion is disabled by current role policy." "error" "trips" None)
  /\ (forall db0 db : DB,
        reachable db0 db ->
        exists added,
          map without_status (rows (trips db))
          = (map without_status (rows (trips db0)) ++ added)%list).
Proof.
  split; [|split; [|split]].
  - reflexivity.
  - intros env trip_id session db. cbn [handle].
    apply roles_required_out with (Q := fun d => d = db); reflexivity.
  - reflexivity.
  - intros db0 db Hr. induction Hr as [|env req session db Hr [added IH]].
    + exists []. rewrite app_nil_r. reflexivity.
    + destruct (trips_change_kept _ _ (handle_trips env req session db)) as [added' H].
      exists (added ++ added')%list. rewrite H, IH, app_assoc. reflexivity.
Qed.

(** *** The users table *)

Lemma str_in_In (s : string) (l : list string) : str_in s l = true <-> In s l.
Proof.
  unfold str_in. rewrite existsb_exists. split.
  - intros (x & Hx & He). apply String.eqb_eq in He. subst x. exact Hx.
  - intros H. exists s. split; [exact H|apply String.eqb_refl].
Qed.

Lemma rowid_le_max {R} `{HasId R} (l : list R) (r : R) :
  In r l -> rowid r <= max_rowid l.
Proof.
  induction l as [|x l IH]; [intros []|].
  cbn [max_rowid]. intros [<-|Hr]; [lia|]. specialize (IH Hr). lia.
Qed.

Lemma rowid_lt_next {R} `{HasId R} (t : Table R) (r : R) :
  In r (rows t) -> rowid r < next_rowid t.
Proof.
  intros Hr. apply rowid_le_max in Hr. unfold next_rowid. lia.
Qed.

Lemma find_unique {R} `{HasId R} (l : list R) (i : Z) (r u : R) :
  NoDup (map rowid l) ->
  find (fun r' => rowid r' =? i) l = Some r ->
  In u l -> rowid u = i -> u = r.
Proof.
  induction l as [|x l IH]; [intros _ _ []|].
  cbn [map find]. intros Hnd Hf Hu Hi. inversion Hnd as [|? ? Hx Hnd']; subst.
  destruct (rowid x =? rowid u) eqn:E.
  - injection Hf as <-. destruct Hu as [Hu|Hu]; [symmetry; exact Hu|].
    exfalso. apply Hx. apply Z.eqb_eq in E. rewrite E. apply in_map. exact Hu.
  - destruct Hu as [Hu|Hu].
    + subst x. rewrite Z.eqb_refl in E. discriminate.
    + exact (IH Hnd' Hf Hu eq_refl).
Qed.

Lemma filter_map_le {A} (p : A -> bool) (g : A -> A) (l : list A) :
  (forall a, In a l -> p (g a) = true -> p a = true) ->
  (List.length (filter p (map g l)) <= List.length (filter p l))%nat.
Proof.
  induction l as [|a l IH]; [intros _; apply Nat.le_refl|].
  intros H. cbn [map filter].
  assert (IH' := IH (fun b Hb => H b (or_intror Hb))).
  destruct (p (g a)) eqn:E.
  - rewrite (H a (or_introl eq_refl) E). cbn [List.length]. lia.
  - destruct (p a); cbn [List.length]; lia.
Qed.

Lemma filter_filter_le {A} (p q : A -> bool) (l : list A) :
  (List.length (filter p (filter q l)) <= List.length (filter p l))%nat.
Proof.
  induction l as [|a l IH]; [apply Nat.le_refl|].
  cbn [filter]. destruct (q a); cbn [filter]; destruct (p a); cbn [List.length]; lia.
Qed.

Lemma NoDup_map_filter {A B} (f : A -> B) (q : A -> bool) (l : list A) :
  NoDup (map f l) -> NoDup (map f (filter q l)).
Proof.
  induction l as [|a l IH]; [intros H; exact H|].
  cbn [map filter]. intros H. inversion H as [|? ? Ha Hl]; subst.
  destruct (q a); [|exact (IH Hl)].
  cbn [map]. constructor; [|exact (IH Hl)].
  intros Hin. apply Ha. apply in_map_iff in Hin. destruct Hin as (x & Hx & Hxin).
  apply filter_In in Hxin. rewrite <- Hx. apply in_map. apply Hxin.
Qed.

Lemma available_role_not_held (db : DB) (role : string) :
  str_in role (get_available_roles_for_registration db) = true ->
  role_held db role = false.
Proof.
  unfold get_available_roles_for_registration. intros H.
  apply str_in_In in H. apply filter_In in H. destruct H as [Hassign Htaken].
  apply negb_true_iff in Htaken.
  unfold role_held. apply not_true_is_false. intros Hheld.
  apply existsb_exists in Hheld. destruct Hheld as (u & Hu & Hh).
  unfold holds_role in Hh. apply andb_true_iff in Hh. destruct Hh as [Hr Hs].
  apply String.eqb_eq in Hr.
  assert (Ht : str_in role (map u_role (filter occupies_role (rows (users db)))) = true).
  { apply str_in_In. rewrite <- Hr. apply in_map. apply filter_In. split; [exact Hu|].
    unfold occupies_role. rewrite Hs, andb_true_r. rewrite Hr.
    apply str_in_In. exact Hassign. }
  congruence.
Qed.

Lemma register_users (salt : string) (method : http_method) (form : RegisterForm)
  (session : Session) (db : DB) :
  users_change db (out_db (register salt method form session db)).
Proof.
  unfold register. destruct method; [apply users_same; reflexivity|].
  destruct (_ =? 0); [apply users_same; reflexivity|].
  destruct (negb (_ && _)); [apply users_same; reflexivity|].
  destruct (negb (str_in _ _)) eqn:Eavail; [apply users_same; reflexivity|].
  apply negb_false_iff in Eavail.
  destruct (execute _) as [conn'|] eqn:E; [|apply users_same; reflexivity].
  apply execute_ok in E. subst conn'.
  eapply users_registered with (role := py_strip (get_default (rf_role form) "")).
  - reflexivity.
  - reflexivity.
  - reflexivity.
  - exact (available_role_not_held _ _ Eavail).
Qed.

Lemma approve_user_users (user_id : Z) (session : Session) (db : DB) :
  users_change db (out_db (approve_user user_id session db)).
Proof.
  unfold approve_user, with_connection, bind.
  destruct (fetch_by_id (users db) user_id) as [[user|]|] eqn:Ef;
    try (apply users_same; reflexivity).
  destruct (u_role user =? "Manager")%string; [apply users_same; reflexivity|].
  destruct (negb _) eqn:Ep; [apply users_same; reflexivity|].
  destruct (find (role_conflict _ _) _); [apply users_same; reflexivity|].
  destruct (execute _) as [conn'|] eqn:E; [|apply users_same; reflexivity].
  apply execute_ok in E. subst conn'.
  apply negb_false_iff, String.eqb_eq in Ep.
  apply users_decided with (user_id := user_id) (status := STATUS_APPROVED) (user := user).
  - reflexivity.
  - exact (fetch_by_id_find _ _ _ Ef).
  - exact Ep.
Qed.

Lemma reject_user_users (user_id : Z) (session : Session) (db : DB) :
  users_change db (out_db (reject_user user_id session db)).
Proof.
  unfold reject_user, with_connection, bind.
  destruct (fetch_by_id (users db) user_id) as [[user|]|] eqn:Ef;
    try (apply users_same; reflexivity).
  destruct (u_role user =? "Manager")%string; [apply users_same; reflexivity|].
  destruct (negb _) eqn:Ep; [apply users_same; reflexivity|].
  destruct (execute _) as [conn'|] eqn:E; [|apply users_same; reflexivity].
  apply execute_ok in E. subst conn'.
  apply negb_false_iff, String.eqb_eq in Ep.
  apply users_decided with (user_id := user_id) (status := STATUS_REJECTED) (user := user).
  - reflexivity.
  - exact (fetch_by_id_find _ _ _ Ef).
  - exact Ep.
Qed.

Lemma delete_user_users (user_id : Z) (session : Session) (db : DB) :
  users_change db (out_db (delete_user user_id session db)).
Proof.
  unfold delete_user, with_connection, bind.
  destruct (opt_Z_eqb _ _); [apply users_same; reflexivity|].
  destruct (fetch_by_id (users db) user_id) as [[user|]|] eqn:Ef;
    try (apply users_same; reflexivity).
  destruct (u_role user =? "Manager")%string; [apply users_same; reflexivity|].
  destruct (execute _) as [conn'|] eqn:E; [|apply users_same; reflexivity].
  apply execute_ok in E. subst conn'.
  apply users_deleted with (user_id := user_id). reflexivity.
Qed.

Lemma set_availability_users (status : string) (vehicle_id driver_id : Z) (conn conn' : DB) :
  set_availability status vehicle_id driver_id conn = Ok conn' -> users conn' = users conn.
Proof.
  unfold set_availability, bind.
  destruct (execute _) as [conn1|] eqn:E1; [|discriminate].
  apply execute_ok in E1. subst conn1. intros E2. apply execute_ok in E2. subst conn'.
  reflexivity.
Qed.

Lemma handle_users (env : Env) (req : request) (session : Session) (db : DB) :
  users_change db (out_db (handle env req session db)).
Proof.
  destruct req; cbn [handle];
    try (apply roles_required_out; [apply users_same; reflexivity|]);
    try apply register_users; try apply approve_user_users;
    try apply reject_user_users; try apply delete_user_users;
    apply users_same.
  - unfold index. run_handler.
  - unfold login. run_handler.
  - unfold logout, login_required. run_handler.
  - reflexivity.
  - unfold vehicles_view, bind. run_handler.
  - unfold edit_vehicle, with_connection, bind. run_handler.
  - unfold delete_vehicle, with_connection, bind. run_handler.
  - unfold drivers_view. run_handler.
  - unfold edit_driver, with_connection, bind. run_handler.
  - unfold delete_driver, with_connection, bind. run_handler.
  - unfold trips_view, with_connection, set_availability, bind. run_handler.
  - unfold update_trip_status, with_connection, set_availability, bind. run_handler.
  - reflexivity.
  - unfold maintenance, with_connection, bind. run_handler.
  - reflexivity.
  - reflexivity.
  - unfold safety_update_driver, with_connection, bind. run_handler.
  - unfold financial_dashboard, with_connection, bind. run_handler.
Qed.

Lemma users_change_primary_key (db db' : DB) :
  users_change db db' -> users_primary_key db -> users_primary_key db'.
Proof.
  unfold users_primary_key.
  intros [Hs|row role Hi Hid _ _|user_id status user Hu _ _|user_id Hd] Hk.
  - rewrite Hs. exact Hk.
  - rewrite Hi. unfold insert. cbn [rows]. rewrite map_app. cbn [map]. rewrite Hid.
    apply NoDup_app; [exact Hk|repeat constructor; intros []|].
    intros i Hin [<-|[]]. apply in_map_iff in Hin. destruct Hin as (u & Hu & Hin).
    pose proof (rowid_lt_next (users db) u Hin) as Hlt.
    change (u_id u < next_rowid (users db)) in Hlt. lia.
  - rewrite Hu. unfold update_by_id. cbn [rows]. rewrite map_map.
    erewrite map_ext; [exact Hk|]. intros u. destruct (rowid u =? user_id); reflexivity.
  - rewrite Hd. unfold delete_by_id. cbn [rows]. apply NoDup_map_filter. exact Hk.
Qed.

Lemma holds_role_status (role status : string) (u : User) :
  holds_role role (set_u_status status u)
  = ((u_role u =? role)%string && str_in status ["pending"; "approved"]).
Proof. reflexivity. Qed.

Lemma users_change_one_holder (db db' : DB) :
  users_change db db' -> users_primary_key db ->
  one_holder_per_role db -> one_holder_per_role db'.
Proof.
  unfold one_holder_per_role.
  intros [Hs|row role0 Hi _ Hrole Hfree|user_id status user Hu Hf Hp|user_id Hd] Hk H role Hr.
  - rewrite Hs. exact (H role Hr).
  - rewrite Hi. unfold insert. cbn [rows]. rewrite filter_app, length_app.
    cbn [filter]. unfold holds_role at 2. rewrite Hrole.
    destruct (role0 =? role)%string eqn:E.
    + apply String.eqb_eq in E. subst role0.
      assert (Hnil : filter (holds_role role) (rows (users db)) = []).
      { unfold role_held in Hfree.
        destruct (filter (holds_role role) (rows (users db))) as [|u l] eqn:Ef; [reflexivity|].
        assert (Hin : In u (filter (holds_role role) (rows (users db))))
          by (rewrite Ef; left; reflexivity).
        apply filter_In in Hin. destruct Hin as [Hin Hh].
        assert (Hex : existsb (holds_role role) (rows (users db)) = true)
          by (apply existsb_exists; exists u; split; assumption).
        congruence. }
      rewrite Hnil. destruct (_ && _); cbn [List.length]; lia.
    + cbn [andb List.length]. specialize (H role Hr). lia.
  - rewrite Hu. unfold update_by_id. cbn [rows].
    eapply Nat.le_trans; [apply filter_map_le|exact (H role Hr)].
    intros u Hin. destruct (rowid u =? user_id) eqn:E; [|intros Hh; exact Hh].
    apply Z.eqb_eq in E.
    assert (u = user) by (exact (find_unique _ _ _ _ Hk Hf Hin E)). subst u.
    rewrite holds_role_status. unfold holds_role. rewrite Hp.
    intros Hh. apply andb_true_iff in Hh. destruct Hh as [Hh _]. rewrite Hh. reflexivity.
  - rewrite Hd. unfold delete_by_id. cbn [rows].
    eapply Nat.le_trans; [apply filter_filter_le|exact (H role Hr)].
Qed.

(** C1.  At most one user holds each of the roles Dispatcher, Safety Officer
    and Financial Analyst.  From a database where [id] is a key of [users]
    and each of the three roles has at most one pending or approved user,
    every database that requests can lead to has at most one such user per
    role; the seeded database is such a start.  [register] refuses a role
    that a pending or approved user holds, and [approve_user] refuses when
    another pending or approved user has the role of the user to approve:
    both report an error and leave the database unchanged. *)
Theorem one_user_per_assignable_role :
  (forall db0 db : DB,
     users_primary_key db0 -> one_holder_per_role db0 -> reachable db0 db ->
     one_holder_per_role db)
  /\ (forall salt : string,
        users_primary_key (seed_default_users salt empty_db)
        /\ one_holder_per_role (seed_default_users salt empty_db))
  /\ (forall (salt : string) (form : RegisterForm) (session : Session) (db : DB),
        role_held db (py_strip (get_default (rf_role form) "")) = true ->
        out_db (register salt POST form session db) = db
        /\ reports_error (register salt POST form session db) = true)
  /\ (forall (user_id : Z) (session : Session) (db : DB) (user other : User),
        fetch_by_id (users db) user_id = Ok (Some user) ->
        In other (rows (users db)) -> u_id other <> user_id ->
        holds_role (u_role user) other = true ->
        out_db (approve_user user_id session db) = db
        /\ reports_error (approve_user user_id session db) = true).
Proof.
  split; [|split; [|split]].
  - intros db0 db Hk0 H0 Hr.
    assert (Hboth : users_primary_key db /\ one_holder_per_role db).
    { induction Hr as [|env req session db Hr [IHk IH]].
      - split; assumption.
      - pose proof (handle_users env req session db) as Hc. split.
        + exact (users_change_primary_key _ _ Hc IHk).
        + exact (users_change_one_holder _ _ Hc IHk IH). }
    apply Hboth.
  - intros salt. unfold seed_default_users.
    destruct (integrity _); split.
    + unfold users_primary_key. cbn. repeat constructor. intros [].
    + intros role Hr. cbn. repeat destruct Hr as [<-|Hr]; cbn; try lia. destruct Hr.
    + unfold users_primary_key. cbn. constructor.
    + intros role Hr. cbn. lia.
  - intros salt form session db Hheld. unfold register.
    destruct (_ =? 0); [split; reflexivity|].
    destruct (negb (_ && _)); [split; reflexivity|].
    destruct (negb (str_in _ _)) eqn:Eavail; [split; reflexivity|].
    apply negb_false_iff in Eavail. apply available_role_not_held in Eavail. congruence.
  - intros user_id session db user other Hf Hin Hid Hh.
    unfold approve_user, with_connection, bind. rewrite Hf.
    destruct (u_role user =? "Manager")%string; [split; reflexivity|].
    destruct (negb _); [split; reflexivity|].
    destruct (find (role_conflict _ _) _) eqn:Ec; [split; reflexivity|].
    exfalso. apply (find_none _ _ Ec) in Hin. unfold role_conflict in Hin.
    unfold holds_role in Hh. rewrite Hh in Hin. apply Z.eqb_neq in Hid. rewrite Hid in Hin.
    discriminate.
Qed.

End Verification.

(** * Further properties *)

Section FleetVerification.

Context {P : Platform}.

(** Runs a handler through all its branches, as in the section above. *)
Ltac run_handler :=
  repeat (break_match; try reflexivity);
  repeat match goal with
         | H : @execute _ _ = Ok _ |- _ => apply execute_ok in H; subst
         end;
  try reflexivity.

(** *** Requests that write nothing *)

(** X1.  A GET request writes nothing: on every route, whatever the session and
    whatever the guard decides, the database after a request whose method
    is GET is the database before it. *)
Theorem get_requests_write_nothing (env : Env) (req : request) (session : Session) (db : DB) :
  request_method req = GET -> out_db (handle env req session db) = db.
Proof.
  intros Hget.
  destruct req; cbn [request_method] in Hget; try discriminate; try subst method;
    cbn [handle];
    try (apply roles_required_out with (Q := fun d => d = db); [reflexivity|]).
  - unfold index. run_handler.
  - reflexivity.
  - reflexivity.
  - unfold logout, login_required. run_handler.
  - reflexivity.
  - reflexivity.
  - unfold edit_vehicle, with_connection, bind. run_handler.
  - reflexivity.
  - unfold edit_driver, with_connection, bind. run_handler.
  - reflexivity.
  - reflexivity.
  - reflexivity.
  - reflexivity.
  - reflexivity.
Qed.

(** X2.  Only [login] and [logout] change who is logged in: on every other
    route, and on every branch of it, the keys [user_id], [username] and
    [role] of the session are after the request what they were before it.
    (Of the Flask session the model holds these three keys; the messages
    that [flash] stores are kept apart, in [out_flashes].) *)
Theorem login_keys_change_at_login_and_logout (env : Env) (req : request)
  (session : Session) (db : DB) :
  sets_login_keys req = false ->
  s_user_id (out_session (handle env req session db)) = s_user_id session
  /\ s_username (out_session (handle env req session db)) = s_username session
  /\ s_role (out_session (handle env req session db)) = s_role session.
Proof.
  intros Hkeys.
  assert (Hsame : out_session (handle env req session db) = session);
    [|rewrite Hsame; repeat split].
  destruct req; try discriminate Hkeys; cbn [handle];
    try (unfold roles_required; destruct (s_user_id session); [|reflexivity];
         destruct (negb _); [reflexivity|]).
  - unfold index. run_handler.
  - unfold register. run_handler.
  - reflexivity.
  - unfold approve_user, with_connection, bind. run_handler.
  - unfold reject_user, with_connection, bind. run_handler.
  - unfold delete_user, with_connection, bind. run_handler.
  - unfold vehicles_view, bind. run_handler.
  - unfold edit_vehicle, with_connection, bind. run_handler.
  - unfold delete_vehicle, with_connection, bind. run_handler.
  - unfold drivers_view. run_handler.
  - unfold edit_driver, with_connection, bind. run_handler.
  - unfold delete_driver, with_connection, bind. run_handler.
  - unfold trips_view, with_connection, set_availability, bind. run_handler.
  - unfold update_trip_status, with_connection, set_availability, bind. run_handler.
  - reflexivity.
  - unfold maintenance, with_connection, bind. run_handler.
  - reflexivity.
  - reflexivity.
  - unfold safety_update_driver, with_connection, bind. run_handler.
  - unfold financial_dashboard, with_connection, bind. run_handler.
Qed.

(** *** The tables a route writes to *)

Ltac through_guard :=
  match goal with
  | |- ?f (out_db (roles_required _ _ _ ?db)) = _ =>
    apply roles_required_out with (Q := fun d => f d = f db); [reflexivity|]
  end.

Ltac unfold_views :=
  unfold index, login, register, logout, login_required, dashboard, approve_user,
    reject_user, delete_user, vehicles_view, edit_vehicle, delete_vehicle, drivers_view,
    edit_driver, delete_driver, trips_view, update_trip_status, delete_trip, maintenance,
    safety_dashboard, safety_drivers, safety_update_driver, financial_dashboard,
    with_connection, set_availability, bind.

Lemma handle_writes (env : Env) (req : request) (session : Session) (db : DB) :
  (writes_users req = false -> users (out_db (handle env req session db)) = users db)
  /\ (writes_vehicles req = false ->
      vehicles (out_db (handle env req session db)) = vehicles db)
  /\ (writes_drivers req = false ->
      drivers (out_db (handle env req session db)) = drivers db)
  /\ (writes_trips req = false -> trips (out_db (handle env req session db)) = trips db)
  /\ (writes_maintenance_logs req = false ->
      maintenance_logs (out_db (handle env req session db)) = maintenance_logs db)
  /\ (writes_fuel_logs req = false ->
      fuel_logs (out_db (handle env req session db)) = fuel_logs db).
Proof.
  repeat split; intros Hw; destruct req; try discriminate Hw; cbn [handle];
    try through_guard; unfold_views; run_handler.
Qed.

(** X3.  Each route writes only to the tables it has statements for: the users
    change at [register], [approve_user], [reject_user] and [delete_user]
    only; the vehicles at the vehicle routes, the two trip routes and
    [maintenance]; the drivers at the driver routes, the two trip routes and
    [safety_update_driver]; the trips at [trips] and [update_trip_status];
    the maintenance logs at [maintenance]; the fuel logs at
    [financial_dashboard]. *)
Theorem routes_write_their_tables (env : Env) (req : request) (session : Session) (db : DB) :
  (writes_users req = false -> users (out_db (handle env req session db)) = users db)
  /\ (writes_vehicles req = false ->
      vehicles (out_db (handle env req session db)) = vehicles db)
  /\ (writes_drivers req = false ->
      drivers (out_db (handle env req session db)) = drivers db)
  /\ (writes_trips req = false -> trips (out_db (handle env req session db)) = trips db)
  /\ (writes_maintenance_logs req = false ->
      maintenance_logs (out_db (handle env req session db)) = maintenance_logs db)
  /\ (writes_fuel_logs req = false ->
      fuel_logs (out_db (handle env req session db)) = fuel_logs db).
Proof. exact (handle_writes env req session db). Qed.

(** *** The logs only grow *)

Ltac grows :=
  first [ exists []; rewrite app_nil_r; reflexivity | eexists; reflexivity ].

Lemma maintenance_logs_grow (env : Env) (req : request) (session : Session) (db : DB) :
  exists added,
    rows (maintenance_logs (out_db (handle env req session db)))
    = (rows (maintenance_logs db) ++ added)%list.
Proof.
  destruct (writes_maintenance_logs req) eqn:Hw.
  - destruct req; try discriminate Hw. cbn [handle].
    apply roles_required_out
      with (Q := fun d => exists added,
                   rows (maintenance_logs d) = (rows (maintenance_logs db) ++ added)%list);
      [grows|].
    unfold maintenance, with_connection, bind.
    repeat (break_match; try grows);
      repeat match goal with
             | H : @execute _ _ = Ok _ |- _ => apply execute_ok in H; subst
             end;
      grows.
  - exists []. rewrite app_nil_r.
    rewrite (proj1 (proj2 (proj2 (proj2 (proj2
               (handle_writes env req session db))))) Hw).
    reflexivity.
Qed.

Lemma fuel_logs_grow (env : Env) (req : request) (session : Session) (db : DB) :
  exists added,
    rows (fuel_logs (out_db (handle env req session db)))
    = (rows (fuel_logs db) ++ added)%list.
Proof.
  destruct (writes_fuel_logs req) eqn:Hw.
  - destruct req; try discriminate Hw. cbn [handle].
    apply roles_required_out
      with (Q := fun d => exists added,
                   rows (fuel_logs d) = (rows (fuel_logs db) ++ added)%list);
      [grows|].
    unfold financial_dashboard, with_connection, bind.
    repeat (break_match; try grows);
      repeat match goal with
             | H : @execute _ _ = Ok _ |- _ => apply execute_ok in H; subst
             end;
      grows.
  - exists []. rewrite app_nil_r.
    rewrite (proj2 (proj2 (proj2 (proj2 (proj2
               (handle_writes env req session db))))) Hw).
    reflexivity.
Qed.

(** X4.  The maintenance and fuel logs only grow: after any sequence of
    requests, the rows of both tables are the rows there were at the start,
    in the same order, followed by the rows added since.  No route edits or
    deletes a log. *)
Theorem logs_are_append_only (db0 db : DB) :
  reachable db0 db ->
  (exists added,
     rows (maintenance_logs db) = (rows (maintenance_logs db0) ++ added)%list)
  /\ (exists added, rows (fuel_logs db) = (rows (fuel_logs db0) ++ added)%list).
Proof.
  intros Hr. induction Hr as [|env req session db Hr [[m IHm] [f IHf]]].
  - split; exists []; rewrite app_nil_r; reflexivity.
  - split.
    + destruct (maintenance_logs_grow env req session db) as [m' H].
      exists (m ++ m')%list. rewrite H, IHm, app_assoc. reflexivity.
    + destruct (fuel_logs_grow env req session db) as [f' H].
      exists (f ++ f')%list. rewrite H, IHf, app_assoc. reflexivity.
Qed.

(** *** Where the guards send a request *)

Lemma home_page_renders (env : Env) (session : Session) (db : DB) (user_id : Z) :
  s_user_id session = Some user_id ->
  exists req template,
    home_request (get_role_home_endpoint (s_role session)) = Some req
    /\ handle env req session db = mkOutcome db session [] (Render template).
Proof.
  intros Hid. unfold get_role_home_endpoint.
  destruct (s_role session) as [role|] eqn:Hrole.
  - destruct (role =? "Manager")%string eqn:E1;
      [apply String.eqb_eq in E1; subst role|
       destruct (role =? "Dispatcher")%string eqn:E2;
       [apply String.eqb_eq in E2; subst role|
        destruct (role =? "Safety Officer")%string eqn:E3;
        [apply String.eqb_eq in E3; subst role|
         destruct (role =? "Financial Analyst")%string eqn:E4;
         [apply String.eqb_eq in E4; subst role|]]]];
      eexists; eexists; (split; [reflexivity|]);
      cbn [handle]; unfold roles_required; try rewrite Hid, Hrole; reflexivity.
  - eexists; eexists. split; reflexivity.
Qed.

(** X5.  A logged-in user whose role a route does not list is redirected, with
    the permission message, to the endpoint [get_role_home_endpoint] gives
    for the role; and the GET request to that endpoint is answered with a
    page, not with another refusal, so the redirect cannot loop. *)
Theorem refused_request_lands_on_a_page (env : Env) (req : request)
  (allowed_roles : list string) (session : Session) (db : DB) (user_id : Z) :
  route_roles req = Some allowed_roles ->
  s_user_id session = Some user_id ->
  role_allowed (s_role session) allowed_roles = false ->
  handle env req session db
  = flash_redirect db session "You do not have permission to access this action." "error"
      (get_role_home_endpoint (s_role session)) None
  /\ exists home template,
       home_request (get_role_home_endpoint (s_role session)) = Some home
       /\ handle env home session db = mkOutcome db session [] (Render template).
Proof.
  intros Hroute Hid Hrole. split.
  - destruct req; cbn [route_roles] in Hroute; try discriminate;
      injection Hroute as <-; cbn [handle]; unfold roles_required;
      rewrite Hid, Hrole; reflexivity.
  - exact (home_page_renders env session db user_id Hid).
Qed.

(** X6.  [logout] of a logged-in user clears the session and redirects to the
    login page; with the session it leaves, every route under
    [roles_required] redirects to the login page and leaves the database as
    it was. *)
Theorem logout_closes_the_session (session : Session) (db : DB) (user_id : Z) :
  s_user_id session = Some user_id ->
  logout session db = flash_redirect db session_clear "Logged out." "success" "login" None
  /\ forall (env : Env) (req : request) (allowed_roles : list string) (db' : DB),
       route_roles req = Some allowed_roles ->
       handle env req (out_session (logout session db)) db'
       = mkOutcome db' session_clear [] (Redirect "login" None).
Proof.
  intros Hid. unfold logout, login_required. rewrite Hid. split; [reflexivity|].
  intros env req allowed_roles db' Hroute.
  destruct req; cbn [route_roles] in Hroute; try discriminate; reflexivity.
Qed.

(** *** What an accepted trip went through *)

Lemma validate_accepts_available (today : date) (conn : DB) (vehicle_id driver_id : Z)
  (cargo_weight : option float) (status : string) (old_status : option string)
  (v : option Vehicle) (d : option Driver) :
  validate_trip_assignment today conn vehicle_id driver_id cargo_weight status old_status
  = Ok (None, v, d) ->
  exists vehicle driver,
    find (fun r => v_id r =? vehicle_id) (rows (vehicles conn)) = Some vehicle
    /\ find (fun r => d_id r =? driver_id) (rows (drivers conn)) = Some driver
    /\ v_status vehicle <> "In Shop"
    /\ (opt_str_eqb old_status "Dispatched" = false -> d_status driver = "Available")
    /\ (opt_str_eqb old_status "Dispatched" = false -> status = "Dispatched" ->
        v_status vehicle = "Available").
Proof.
  unfold validate_trip_assignment, bind.
  destruct (fetch_by_id (vehicles conn) vehicle_id) as [[vehicle|]|] eqn:Ev;
    destruct (fetch_by_id (drivers conn) driver_id) as [[driver|]|] eqn:Ed;
    try discriminate.
  apply fetch_by_id_find in Ev, Ed. unfold rowid, Vehicle_id, Driver_id in Ev, Ed.
  destruct cargo_weight as [w|]; [|discriminate].
  destruct (PrimFloat.leb w 0); [discriminate|].
  destruct (v_max_capacity_kg vehicle) as [m|]; [|discriminate].
  destruct (PrimFloat.ltb m w); [discriminate|].
  destruct (v_status vehicle =? "In Shop")%string eqn:Eshop; [discriminate|].
  destruct (is_license_expired today (d_license_expiry_date driver)) as [[|]|];
    try discriminate.
  destruct (d_status driver =? "Available")%string eqn:Eda;
    destruct (opt_str_eqb old_status "Dispatched") eqn:Eold; cbn [negb andb];
    try discriminate;
    destruct (status =? "Dispatched")%string eqn:Est;
    try (destruct (v_status vehicle =? "Available")%string eqn:Eva; cbn [negb andb]);
    try discriminate;
    intros _; exists vehicle, driver;
    (split; [exact Ev|]); (split; [exact Ed|]);
    (split; [apply String.eqb_neq; exact Eshop|]);
    (split; [intros; try discriminate; apply String.eqb_eq; assumption|]);
    intros Ho Hs; try discriminate;
    try (apply String.eqb_eq; assumption);
    try (apply String.eqb_neq in Est; contradiction).
Qed.

Lemma validate_accepts_weight (today : date) (conn : DB) (vehicle_id driver_id : Z)
  (cargo_weight : option float) (status : string) (old_status : option string)
  (v : option Vehicle) (d : option Driver) :
  validate_trip_assignment today conn vehicle_id driver_id cargo_weight status old_status
  = Ok (None, v, d) ->
  exists vehicle w max_capacity_kg,
    find (fun r => v_id r =? vehicle_id) (rows (vehicles conn)) = Some vehicle
    /\ cargo_weight = Some w
    /\ v_max_capacity_kg vehicle = Some max_capacity_kg
    /\ PrimFloat.leb w 0%float = false
    /\ PrimFloat.ltb max_capacity_kg w = false.
Proof.
  unfold validate_trip_assignment, bind.
  destruct (fetch_by_id (vehicles conn) vehicle_id) as [[vehicle|]|] eqn:Ev;
    destruct (fetch_by_id (drivers conn) driver_id) as [[driver|]|] eqn:Ed;
    try discriminate.
  apply fetch_by_id_find in Ev. unfold rowid, Vehicle_id in Ev.
  destruct cargo_weight as [w|]; [|discriminate].
  destruct (PrimFloat.leb w 0) eqn:Hle; [discriminate|].
  destruct (v_max_capacity_kg vehicle) as [m|] eqn:Hmax; [|discriminate].
  destruct (PrimFloat.ltb m w) eqn:Hlt; [discriminate|].
  intros _. exists vehicle, w, m. repeat split; assumption.
Qed.

(** Two floats that are not NaN are ordered: [SFcompare] answers for them,
    and answers the opposite when they are swapped. *)
Lemma SFcompare_antisym (x y : SpecFloat.spec_float) (c : comparison) :
  SpecFloat.SFcompare x y = Some c -> SpecFloat.SFcompare y x = Some (CompOpp c).
Proof.
  destruct x as [sx|sx| |sx mx ex], y as [sy|sy| |sy my ey]; cbn [SpecFloat.SFcompare];
    try discriminate;
    try (destruct sx; try destruct sy; intros E; injection E as <-; reflexivity);
    try (destruct sy; intros E; injection E as <-; reflexivity);
    try (intros E; injection E as <-; reflexivity).
  intros E. injection E as <-. f_equal.
  rewrite (Z.compare_antisym ey ex).
  replace (Pos.compare_cont Eq mx my) with (CompOpp (Pos.compare_cont Eq my mx))
    by apply (Pos.compare_cont_antisym my mx Eq).
  destruct sx, sy, (ey ?= ex), (Pos.compare_cont Eq my mx); reflexivity.
Qed.

Lemma is_nan_compare (x y : float) :
  PrimFloat.is_nan x = false -> PrimFloat.is_nan y = false ->
  exists c, SpecFloat.SFcompare (FloatOps.Prim2SF x) (FloatOps.Prim2SF y) = Some c.
Proof.
  unfold PrimFloat.is_nan. intros Hx Hy.
  apply negb_false_iff in Hx, Hy.
  rewrite FloatAxioms.eqb_spec in Hx, Hy. unfold SpecFloat.SFeqb in Hx, Hy.
  destruct (FloatOps.Prim2SF x) as [sx|sx| |sx mx ex]; try discriminate Hx;
    destruct (FloatOps.Prim2SF y) as [sy|sy| |sy my ey]; try discriminate Hy;
    cbn [SpecFloat.SFcompare]; eexists; reflexivity.
Qed.

Lemma float_not_lt_le (x y : float) :
  PrimFloat.is_nan x = false -> PrimFloat.is_nan y = false ->
  PrimFloat.ltb x y = false -> PrimFloat.leb y x = true.
Proof.
  intros Hx Hy. rewrite FloatAxioms.ltb_spec, FloatAxioms.leb_spec.
  unfold SpecFloat.SFltb, SpecFloat.SFleb.
  destruct (is_nan_compare x y Hx Hy) as [c Hc].
  rewrite Hc, (SFcompare_antisym _ _ _ Hc). destruct c; cbn [CompOpp]; congruence.
Qed.

Lemma float_not_le_lt (x y : float) :
  PrimFloat.is_nan x = false -> PrimFloat.is_nan y = false ->
  PrimFloat.leb x y = false -> PrimFloat.ltb y x = true.
Proof.
  intros Hx Hy. rewrite FloatAxioms.ltb_spec, FloatAxioms.leb_spec.
  unfold SpecFloat.SFltb, SpecFloat.SFleb.
  destruct (is_nan_compare x y Hx Hy) as [c Hc].
  rewrite Hc, (SFcompare_antisym _ _ _ Hc). destruct c; cbn [CompOpp]; congruence.
Qed.

Lemma trips_view_created_validated (today : date) (form : TripForm) (session : Session)
  (db : DB) :
  out_flashes (trips_view today POST form session db) = [("Trip created.", "success")] ->
  exists vehicle_id driver_id v d,
    tf_vehicle_id form = Some vehicle_id /\ tf_driver_id form = Some driver_id
    /\ validate_trip_assignment today db vehicle_id driver_id (tf_cargo_weight form)
         (py_strip (get_default (tf_status form) "Draft")) None = Ok (None, v, d).
Proof.
  intros Hok.
  destruct (trips_view_cases today form session db)
    as [[Hdb Herr]|H]; [|exact H].
  exfalso. unfold reports_error in Herr. rewrite Hok in Herr. cbn [existsb snd] in Herr.
  revert Hok Herr. unfold trips_view.
  destruct (negb (str_in _ _)); [discriminate|].
  destruct (negb (_ && _)); [discriminate|].
  unfold with_connection, bind.
  destruct (validate_trip_assignment _ _ _ _ _ _ _) as [[[[error|] v] d]|];
    [discriminate| |discriminate].
  destruct (execute _) as [conn1|]; [|discriminate].
  destruct (if (_ =? "Dispatched")%string then _ else _) as [conn2|]; discriminate.
Qed.

Lemma update_trip_status_updated_validated (today : date) (trip_id : Z)
  (form_status : option string) (session : Session) (conn : DB) :
  out_flashes (update_trip_status today trip_id form_status session conn)
  = [("Trip status updated.", "success")] ->
  exists trip v d,
    fetch_by_id (trips conn) trip_id = Ok (Some trip)
    /\ t_status trip <> py_strip (get_default form_status "")
    /\ validate_trip_assignment today conn (t_vehicle_id trip) (t_driver_id trip)
         (t_cargo_weight trip) (py_strip (get_default form_status ""))
         (Some (t_status trip)) = Ok (None, v, d).
Proof.
  intros Hok.
  destruct (update_trip_status_cases today trip_id form_status session conn)
    as [[Hdb Herr]|[(trip & Ht & Hs & Ho)|H]]; [| |exact H].
  - exfalso. unfold reports_error in Herr. rewrite Hok in Herr. cbn [existsb snd] in Herr.
    revert Hok Herr. unfold update_trip_status.
    destruct (negb (str_in _ _)); [discriminate|].
    unfold with_connection, bind.
    destruct (fetch_by_id (trips conn) trip_id) as [[trip|]|]; try discriminate.
    destruct (t_status trip =? _)%string; [discriminate|].
    destruct (validate_trip_assignment _ _ _ _ _ _ _) as [[[[error|] v] d]|];
      [discriminate| |discriminate].
    destruct (execute _) as [conn1|]; [|discriminate].
    destruct (if (_ =? "Dispatched")%string then _ else _) as [conn2|]; discriminate.
  - rewrite Ho in Hok. discriminate.
Qed.

(** X7.  Whenever [trips] answers "Trip created.", the form named a vehicle and
    a driver that exist, the driver read 'Available', the vehicle was not
    'In Shop', the form gave a weight and the vehicle has a capacity, and
    both comparisons of [validate_trip_assignment] were false:
    [cargo_weight <= 0] and [cargo_weight > max_capacity_kg].  So a weight
    that is not NaN was above zero and, the capacity not being NaN either,
    at most the capacity.  (A NaN weight passes both comparisons: the
    answer alone does not make the weight positive.)  This holds for every
    status the trip is created in. *)
Theorem created_trip_had_available_driver (today : date) (form : TripForm)
  (session : Session) (db : DB) :
  out_flashes (trips_view today POST form session db) = [("Trip created.", "success")] ->
  exists vehicle_id driver_id vehicle w max_capacity_kg,
    tf_vehicle_id form = Some vehicle_id /\ tf_driver_id form = Some driver_id
    /\ driver_status db driver_id = Some "Available"
    /\ find (fun v => v_id v =? vehicle_id) (rows (vehicles db)) = Some vehicle
    /\ v_status vehicle <> "In Shop"
    /\ tf_cargo_weight form = Some w
    /\ v_max_capacity_kg vehicle = Some max_capacity_kg
    /\ PrimFloat.leb w 0%float = false
    /\ PrimFloat.ltb max_capacity_kg w = false
    /\ (PrimFloat.is_nan w = false ->
        PrimFloat.ltb 0%float w = true
        /\ (PrimFloat.is_nan max_capacity_kg = false ->
            PrimFloat.leb w max_capacity_kg = true)).
Proof.
  intros Hok.
  destruct (trips_view_created_validated _ _ _ _ Hok)
    as (vehicle_id & driver_id & v & d & Hv & Hd & Hval).
  destruct (validate_accepts_available _ _ _ _ _ _ _ _ _ Hval)
    as (vehicle & driver & Hfv & Hfd & Hshop & Hda & _).
  destruct (validate_accepts_weight _ _ _ _ _ _ _ _ _ Hval)
    as (vehicle' & w & max_capacity_kg & Hfv' & Hw & Hmax & Hle & Hlt).
  rewrite Hfv in Hfv'. injection Hfv' as <-.
  exists vehicle_id, driver_id, vehicle, w, max_capacity_kg.
  split; [exact Hv|]. split; [exact Hd|].
  split; [unfold driver_status; rewrite Hfd; cbn [option_map]; rewrite (Hda eq_refl);
          reflexivity|].
  split; [exact Hfv|]. split; [exact Hshop|]. split; [exact Hw|]. split; [exact Hmax|].
  split; [exact Hle|]. split; [exact Hlt|].
  intros Hnan. split.
  - exact (float_not_le_lt w 0%float Hnan eq_refl Hle).
  - intros Hnan'. exact (float_not_lt_le max_capacity_kg w Hnan' Hnan Hlt).
Qed.

(** X8.  A trip is dispatched with an available vehicle and an available driver
    only: when [trips] creates a trip as 'Dispatched', or
    [update_trip_status] moves an existing trip to 'Dispatched', the
    assigned vehicle and the assigned driver both read 'Available' before
    the request. *)
Theorem dispatch_requires_availability (today : date) (session : Session) (db : DB) :
  (forall (form : TripForm) (vehicle_id driver_id : Z),
     tf_vehicle_id form = Some vehicle_id -> tf_driver_id form = Some driver_id ->
     py_strip (get_default (tf_status form) "Draft") = "Dispatched" ->
     out_flashes (trips_view today POST form session db) = [("Trip created.", "success")] ->
     vehicle_status db vehicle_id = Some "Available"
     /\ driver_status db driver_id = Some "Available")
  /\ (forall (trip_id : Z) (form_status : option string) (trip : Trip),
        fetch_by_id (trips db) trip_id = Ok (Some trip) ->
        py_strip (get_default form_status "") = "Dispatched" ->
        out_flashes (update_trip_status today trip_id form_status session db)
        = [("Trip status updated.", "success")] ->
        vehicle_status db (t_vehicle_id trip) = Some "Available"
        /\ driver_status db (t_driver_id trip) = Some "Available").
Proof.
  split.
  - intros form vehicle_id driver_id Hvid Hdid Hs Hok.
    destruct (trips_view_created_validated _ _ _ _ Hok)
      as (vehicle_id' & driver_id' & v & d & Hv & Hd & Hval).
    rewrite Hvid in Hv. rewrite Hdid in Hd. injection Hv as <-. injection Hd as <-.
    destruct (validate_accepts_available _ _ _ _ _ _ _ _ _ Hval)
      as (vehicle & driver & Hfv & Hfd & _ & Hda & Hva).
    unfold driver_status, vehicle_status. rewrite Hfv, Hfd. cbn [option_map].
    rewrite (Hda eq_refl), (Hva eq_refl Hs). split; reflexivity.
  - intros trip_id form_status trip Ht Hs Hok.
    destruct (update_trip_status_updated_validated _ _ _ _ _ Hok)
      as (trip' & v & d & Ht' & Hne & Hval).
    rewrite Ht in Ht'. injection Ht' as <-.
    destruct (validate_accepts_available _ _ _ _ _ _ _ _ _ Hval)
      as (vehicle & driver & Hfv & Hfd & _ & Hda & Hva).
    assert (Hold : opt_str_eqb (Some (t_status trip)) "Dispatched" = false).
    { cbn [opt_str_eqb]. apply String.eqb_neq. rewrite <- Hs. exact Hne. }
    unfold driver_status, vehicle_status. rewrite Hfv, Hfd. cbn [option_map].
    rewrite (Hda Hold), (Hva Hold Hs). split; reflexivity.
Qed.

Lemma find_vehicle_update_status (i : Z) (status : string) (t : Table Vehicle) :
  option_map v_status
    (find (fun v => v_id v =? i) (rows (update_by_id i (set_v_status status) t)))
  = option_map (fun _ => status) (find (fun v => v_id v =? i) (rows t)).
Proof.
  rewrite find_vehicle_update. destruct (find _ _); reflexivity.
Qed.

(** X9.  A maintenance log that is accepted leaves its vehicle 'In Shop'; and
    for a vehicle that reads 'In Shop', [trips] refuses every trip (error,
    database unchanged) and [update_trip_status] leaves the database
    unchanged for every trip of the vehicle. *)
Theorem vehicle_in_shop_is_not_assigned (today : date) (session : Session) (db : DB) :
  (forall (form : MaintenanceForm) (vehicle_id : Z),
     mf_vehicle_id form = Some vehicle_id ->
     out_flashes (maintenance POST form session db)
     = [("Maintenance log created. Vehicle moved to In Shop.", "success")] ->
     vehicle_status (out_db (maintenance POST form session db)) vehicle_id = Some "In Shop")
  /\ (forall (form : TripForm) (vehicle_id : Z),
        tf_vehicle_id form = Some vehicle_id ->
        vehicle_status db vehicle_id = Some "In Shop" ->
        out_db (trips_view today POST form session db) = db
        /\ reports_error (trips_view today POST form session db) = true)
  /\ (forall (trip_id : Z) (form_status : option string) (trip : Trip),
        fetch_by_id (trips db) trip_id = Ok (Some trip) ->
        vehicle_status db (t_vehicle_id trip) = Some "In Shop" ->
        out_db (update_trip_status today trip_id form_status session db) = db).
Proof.
  assert (Hno : forall conn vehicle_id driver_id cargo_weight status old_status v d,
    vehicle_status conn vehicle_id = Some "In Shop" ->
    validate_trip_assignment today conn vehicle_id driver_id cargo_weight status old_status
    <> Ok (None, v, d)).
  { intros conn vehicle_id driver_id cargo_weight status old_status v d Hshop Hval.
    destruct (validate_accepts_available _ _ _ _ _ _ _ _ _ Hval)
      as (vehicle & driver & Hfv & _ & Hns & _).
    unfold vehicle_status in Hshop. rewrite Hfv in Hshop. cbn [option_map] in Hshop.
    injection Hshop as Hshop. contradiction. }
  split; [|split].
  - intros form vehicle_id Hvid. unfold maintenance. rewrite Hvid.
    destruct (negb (_ && _)); [discriminate|].
    destruct (none_or_ltb0 _); [discriminate|].
    destruct (strptime_ymd _); [|discriminate].
    unfold with_connection, bind.
    destruct (fetch_by_id (vehicles db) vehicle_id) as [[vehicle|]|] eqn:Ef;
      try discriminate.
    destruct (execute _) as [conn1|] eqn:E1; [|discriminate].
    destruct (execute (set_vehicles conn1 _)) as [conn2|] eqn:E2; [|discriminate].
    apply execute_ok in E1, E2. subst conn2 conn1. intros _.
    apply fetch_by_id_find in Ef. unfold rowid, Vehicle_id in Ef.
    unfold vehicle_status.
    cbn [out_db flash_redirect vehicles set_vehicles set_maintenance_logs].
    rewrite find_vehicle_update_status, Ef. reflexivity.
  - intros form vehicle_id Hvid Hshop. apply trips_view_refused.
    intros vehicle_id' driver_id v d Hvid' _. rewrite Hvid in Hvid'. injection Hvid' as <-.
    apply Hno. exact Hshop.
  - intros trip_id form_status trip Ht Hshop.
    apply (update_trip_status_refused today trip_id form_status session db trip Ht).
    intros v d. apply Hno. exact Hshop.
Qed.

(** *** Trips that were written can be read *)



Lemma fetch_updated {R} `{HasId R} (i : Z) (f : R -> R) (t : Table R) (r : R) :
  (forall r', rowid (f r') = rowid r') ->
  fetch_by_id t i = Ok (Some r) ->
  fetch_by_id (update_by_id i f t) i = Ok (Some (f r)).
Proof.
  intros Hf. unfold fetch_by_id, sqlite_int, bind.
  destruct ((- 2 ^ 63 <=? i) && (i <? 2 ^ 63)); [|discriminate].
  intros E. injection E as E. rewrite find_update_by_id by exact Hf.
  rewrite E. reflexivity.
Qed.


(** X11.  When [update_trip_status] answers "Trip status updated.", reading the
    trip back by its id gives the same trip with the new status; and the
    same request sent again answers "Trip status unchanged." and leaves the
    database as it is. *)
Theorem updated_trip_is_stored (today : date) (trip_id : Z) (form_status : option string)
  (session : Session) (db : DB) (trip : Trip) :
  fetch_by_id (trips db) trip_id = Ok (Some trip) ->
  out_flashes (update_trip_status today trip_id form_status session db)
  = [("Trip status updated.", "success")] ->
  let db' := out_db (update_trip_status today trip_id form_status session db) in
  fetch_by_id (trips db') trip_id
  = Ok (Some (set_t_status (py_strip (get_default form_status "")) trip))
  /\ forall (today' : date) (session' : Session),
       update_trip_status today' trip_id form_status session' db'
       = flash_redirect db' session' "Trip status unchanged." "success" "trips" None.
Proof.
  intros Hf Hok db'.
  assert (Hfetch : fetch_by_id (trips db') trip_id
                   = Ok (Some (set_t_status (py_strip (get_default form_status "")) trip))).
  { subst db'. revert Hok. unfold update_trip_status.
    destruct (negb (str_in _ _)); [discriminate|].
    unfold with_connection, bind. rewrite Hf.
    destruct (t_status trip =? _)%string; [discriminate|].
    destruct (validate_trip_assignment _ _ _ _ _ _ _) as [[[[error|] v] d]|];
      [discriminate| |discriminate].
    destruct (execute _) as [conn1|] eqn:E1; [|discriminate].
    apply execute_ok in E1.
    destruct (if (_ =? "Dispatched")%string then _ else _) as [conn2|] eqn:E2;
      [|discriminate].
    intros _.
    assert (Ht : trips conn2 = trips conn1).
    { destruct (_ =? "Dispatched")%string.
      - exact (set_availability_trips _ _ _ _ _ E2).
      - destruct (str_in _ ["Completed"; "Cancelled"; "Draft"]).
        + exact (set_availability_trips _ _ _ _ _ E2).
        + congruence. }
    cbn [out_db flash_redirect]. rewrite Ht. subst conn1. cbn [trips set_trips].
    exact (fetch_updated trip_id (set_t_status _) (trips db) trip (fun _ => eq_refl) Hf). }
  split; [exact Hfetch|].
  intros today' session'.
  apply (update_trip_status_same today' trip_id form_status session' db'
           (set_t_status (py_strip (get_default form_status "")) trip) Hfetch).
  - reflexivity.
  - cbn [t_status set_t_status].
    revert Hok. unfold update_trip_status.
    destruct (negb (str_in _ _)) eqn:Ev; [discriminate|].
    intros _. apply negb_false_iff in Ev. exact Ev.
Qed.

(** *** Role requests *)

Lemma free_role_is_available (db : DB) (role : string) :
  In role ASSIGNABLE_ROLES -> role_held db role = false ->
  str_in role (get_available_roles_for_registration db) = true.
Proof.
  intros Hassign Hfree. unfold get_available_roles_for_registration.
  apply str_in_In. apply filter_In. split; [exact Hassign|].
  apply negb_true_iff. apply not_true_is_false. intros Htaken.
  apply str_in_In in Htaken. apply in_map_iff in Htaken.
  destruct Htaken as (u & Hrole & Hu). apply filter_In in Hu. destruct Hu as [Hin Hocc].
  unfold occupies_role in Hocc. apply andb_true_iff in Hocc. destruct Hocc as [_ Hst].
  assert (Hheld : role_held db role = true).
  { unfold role_held. apply existsb_exists. exists u. split; [exact Hin|].
    unfold holds_role. rewrite Hrole, String.eqb_refl, Hst. reflexivity. }
  congruence.
Qed.

Lemma at_most_one_satisfies {A} (p : A -> bool) (l : list A) (a b : A) :
  (List.length (filter p l) <= 1)%nat ->
  In a l -> In b l -> p a = true -> p b = true -> a = b.
Proof.
  intros Hlen Ha Hb Hpa Hpb.
  assert (Ha' : In a (filter p l)) by (apply filter_In; split; assumption).
  assert (Hb' : In b (filter p l)) by (apply filter_In; split; assumption).
  destruct (filter p l) as [|x [|y l']]; cbn [List.length] in Hlen.
  - destruct Ha'.
  - destruct Ha' as [<-|[]]. destruct Hb' as [<-|[]]. reflexivity.
  - lia.
Qed.

Lemma assignable_is_not_manager (role : string) :
  In role ASSIGNABLE_ROLES -> role <> "Manager".
Proof.
  intros [<-|[<-|[<-|[]]]]; discriminate.
Qed.

(** X12.  When [register] answers "Request submitted", the role asked for is one
    of the three assignable roles and nobody held it; the users table is the
    old one followed by one pending row with the lower-cased email as
    username; and afterwards the role is held and
    [get_available_roles_for_registration] no longer offers it. *)
Theorem registration_takes_the_role (salt : string) (form : RegisterForm)
  (session : Session) (db : DB) :
  out_flashes (register salt POST form session db) = [("Request submitted", "success")] ->
  let role := py_strip (get_default (rf_role form) "") in
  let email := py_lower (py_strip (get_default (rf_email form) "")) in
  let db' := out_db (register salt POST form session db) in
  In role ASSIGNABLE_ROLES
  /\ role_held db role = false
  /\ rows (users db')
     = (rows (users db)
        ++ [mkUser (next_rowid (users db)) email
              (Some (py_strip (get_default (rf_name form) ""))) (Some email)
              (generate_password_hash salt (get_default (rf_password form) ""))
              role "pending"])%list
  /\ role_held db' role = true
  /\ str_in role (get_available_roles_for_registration db') = false.
Proof.
  unfold register.
  destruct (_ =? 0); [discriminate|].
  destruct (negb (_ && _)); [discriminate|].
  destruct (negb (str_in _ _)) eqn:Eavail; [discriminate|].
  apply negb_false_iff in Eavail.
  destruct (execute _) as [conn'|] eqn:E; [|discriminate].
  apply execute_ok in E. subst conn'. intros _. cbv zeta.
  cbn [out_db flash_redirect users set_users].
  assert (Hassign : In (py_strip (get_default (rf_role form) "")) ASSIGNABLE_ROLES).
  { apply str_in_In in Eavail. unfold get_available_roles_for_registration in Eavail.
    apply filter_In in Eavail. apply Eavail. }
  split; [exact Hassign|].
  split; [exact (available_role_not_held _ _ Eavail)|].
  split; [reflexivity|].
  match goal with |- ?A /\ _ => assert (Hheld : A) end.
  { unfold role_held, insert. cbn [users set_users rows].
    rewrite existsb_app. cbn [existsb]. unfold holds_role at 2.
    cbn [u_role u_status]. rewrite String.eqb_refl. cbn. apply orb_true_r. }
  split; [exact Hheld|].
  apply not_true_is_false. intros Havail.
  apply available_role_not_held in Havail. congruence.
Qed.

Lemma no_holder_after (db : DB) (user_id : Z) (user : User) (rows' : list User) (role : string) :
  users_primary_key db -> one_holder_per_role db ->
  In role ASSIGNABLE_ROLES ->
  find (fun u => u_id u =? user_id) (rows (users db)) = Some user ->
  holds_role role user = true ->
  (forall u', In u' rows' -> holds_role role u' = true ->
     exists u, In u (rows (users db)) /\ holds_role role u = true /\ u_id u <> user_id) ->
  existsb (holds_role role) rows' = false.
Proof.
  intros Hkey Hone Hassign Hfind Hholds Hrows.
  apply not_true_is_false. intros Hex. apply existsb_exists in Hex.
  destruct Hex as (u' & Hin' & Hh').
  destruct (Hrows u' Hin' Hh') as (u & Hin & Hh & Hid).
  apply find_some in Hfind. destruct Hfind as [Huser Huid]. apply Z.eqb_eq in Huid.
  assert (u = user)
    by exact (at_most_one_satisfies _ _ u user (Hone role Hassign) Hin Huser Hh Hholds).
  subst u. contradiction.
Qed.

(** X13.  When [reject_user] answers "User rejected" for a user with an
    assignable role, in a database where [id] is a key of users and each
    assignable role has at most one holder, the user reads back as
    'rejected' and [get_available_roles_for_registration] offers the role
    again. *)
Theorem rejection_frees_the_role (user_id : Z) (session : Session) (db : DB) (user : User) :
  users_primary_key db -> one_holder_per_role db ->
  fetch_by_id (users db) user_id = Ok (Some user) ->
  In (u_role user) ASSIGNABLE_ROLES ->
  out_flashes (reject_user user_id session db) = [("User rejected", "success")] ->
  fetch_by_id (users (out_db (reject_user user_id session db))) user_id
  = Ok (Some (set_u_status "rejected" user))
  /\ str_in (u_role user)
       (get_available_roles_for_registration (out_db (reject_user user_id session db)))
     = true.
Proof.
  intros Hkey Hone Hf Hassign. unfold reject_user, with_connection, bind. rewrite Hf.
  destruct (u_role user =? "Manager")%string; [discriminate|].
  destruct (negb _) eqn:Ep; [discriminate|].
  destruct (execute _) as [conn'|] eqn:E; [|discriminate].
  apply execute_ok in E. subst conn'. intros _.
  cbn [out_db flash_redirect users set_users].
  split; [exact (fetch_updated user_id (set_u_status STATUS_REJECTED) (users db) user
                   (fun _ => eq_refl) Hf)|].
  apply negb_false_iff, String.eqb_eq in Ep.
  apply free_role_is_available; [exact Hassign|].
  unfold role_held. cbn [users set_users]. unfold update_by_id. cbn [rows].
  apply (no_holder_after db user_id user _ (u_role user) Hkey Hone Hassign
           (fetch_by_id_find _ _ _ Hf)).
  - unfold holds_role. rewrite String.eqb_refl, Ep. reflexivity.
  - intros u' Hin' Hh'. apply in_map_iff in Hin'. destruct Hin' as (u & <- & Hin).
    destruct (rowid u =? user_id) eqn:Eid.
    + rewrite holds_role_status in Hh'. cbn in Hh'. rewrite andb_false_r in Hh'.
      discriminate.
    + exists u. split; [exact Hin|]. split; [exact Hh'|].
      apply Z.eqb_neq in Eid. exact Eid.
Qed.

(** X14.  When [delete_user] answers "User removed" for a pending or approved
    user with an assignable role, in a database where [id] is a key of users
    and each assignable role has at most one holder, the user is no longer
    found and [get_available_roles_for_registration] offers the role
    again. *)
Theorem deletion_frees_the_role (user_id : Z) (session : Session) (db : DB) (user : User) :
  users_primary_key db -> one_holder_per_role db ->
  fetch_by_id (users db) user_id = Ok (Some user) ->
  In (u_role user) ASSIGNABLE_ROLES ->
  str_in (u_status user) ["pending"; "approved"] = true ->
  out_flashes (delete_user user_id session db) = [("User removed", "success")] ->
  fetch_by_id (users (out_db (delete_user user_id session db))) user_id = Ok None
  /\ str_in (u_role user)
       (get_available_roles_for_registration (out_db (delete_user user_id session db)))
     = true.
Proof.
  intros Hkey Hone Hf Hassign Hst. unfold delete_user, with_connection, bind.
  destruct (opt_Z_eqb _ _); [discriminate|]. rewrite Hf.
  destruct (u_role user =? "Manager")%string; [discriminate|].
  destruct (execute _) as [conn'|] eqn:E; [|discriminate].
  apply execute_ok in E. subst conn'. intros _.
  cbn [out_db flash_redirect users set_users].
  split.
  - revert Hf. unfold fetch_by_id, sqlite_int, bind.
    destruct ((- 2 ^ 63 <=? user_id) && (user_id <? 2 ^ 63)); [|discriminate].
    intros _. f_equal. unfold delete_by_id. cbn [rows].
    destruct (find _ (filter _ _)) as [u|] eqn:Efind; [|reflexivity].
    apply find_some in Efind. destruct Efind as [Hin Hid].
    apply filter_In in Hin. destruct Hin as [_ Hne]. rewrite Hid in Hne. discriminate.
  - apply free_role_is_available; [exact Hassign|].
    unfold role_held. cbn [users set_users]. unfold delete_by_id. cbn [rows].
    apply (no_holder_after db user_id user _ (u_role user) Hkey Hone Hassign
             (fetch_by_id_find _ _ _ Hf)).
    + unfold holds_role. rewrite String.eqb_refl, Hst. reflexivity.
    + intros u' Hin' Hh'. apply filter_In in Hin'. destruct Hin' as [Hin Hne].
      exists u'. split; [exact Hin|]. split; [exact Hh'|].
      apply negb_true_iff, Z.eqb_neq in Hne. exact Hne.
Qed.

(** *** The managers *)

Lemma filter_map_same {A} (p : A -> bool) (g : A -> A) (l : list A) :
  (forall a, In a l -> p a = true -> g a = a) ->
  (forall a, In a l -> p a = false -> p (g a) = false) ->
  filter p (map g l) = filter p l.
Proof.
  induction l as [|a l IH]; [reflexivity|].
  intros Hkeep Hnot. cbn [map filter].
  rewrite IH;
    [|intros b Hb; apply Hkeep; right; exact Hb|intros b Hb; apply Hnot; right; exact Hb].
  destruct (p a) eqn:E.
  - rewrite (Hkeep a (or_introl eq_refl) E), E. reflexivity.
  - rewrite (Hnot a (or_introl eq_refl) E). reflexivity.
Qed.

Lemma filter_filter_same {A} (p q : A -> bool) (l : list A) :
  (forall a, In a l -> p a = true -> q a = true) ->
  filter p (filter q l) = filter p l.
Proof.
  induction l as [|a l IH]; [reflexivity|].
  intros H. cbn [filter].
  assert (IH' := IH (fun b Hb => H b (or_intror Hb))).
  destruct (q a) eqn:Eq; cbn [filter].
  - rewrite IH'. reflexivity.
  - destruct (p a) eqn:Ep; [|exact IH'].
    rewrite (H a (or_introl eq_refl) Ep) in Eq. discriminate.
Qed.

Lemma decided_managers (db : DB) (user_id : Z) (status : string) (user : User) :
  users_primary_key db ->
  fetch_by_id (users db) user_id = Ok (Some user) ->
  is_manager user = false ->
  filter is_manager (rows (update_by_id user_id (set_u_status status) (users db)))
  = filter is_manager (rows (users db)).
Proof.
  intros Hkey Hf Hnm. unfold update_by_id. cbn [rows].
  apply fetch_by_id_find in Hf.
  apply filter_map_same.
  - intros u Hin Hm. destruct (rowid u =? user_id) eqn:E; [|reflexivity].
    apply Z.eqb_eq in E.
    assert (u = user) by exact (find_unique _ _ _ _ Hkey Hf Hin E).
    subst u. congruence.
  - intros u Hin Hm. destruct (rowid u =? user_id); [|exact Hm]. exact Hm.
Qed.

Lemma handle_managers (env : Env) (req : request) (session : Session) (db : DB) :
  users_primary_key db ->
  managers (out_db (handle env req session db)) = managers db.
Proof.
  intros Hkey. unfold managers.
  destruct (writes_users req) eqn:Hw.
  - destruct req; try discriminate Hw; cbn [handle];
      try (apply roles_required_out
             with (Q := fun d => filter is_manager (rows (users d))
                                 = filter is_manager (rows (users db)));
           [reflexivity|]).
    + unfold register. destruct method; [reflexivity|].
      destruct (_ =? 0); [reflexivity|].
      destruct (negb (_ && _)); [reflexivity|].
      destruct (negb (str_in _ _)) eqn:Eavail; [reflexivity|].
      apply negb_false_iff in Eavail.
      destruct (execute _) as [conn'|] eqn:E; [|reflexivity].
      apply execute_ok in E. subst conn'.
      cbn [out_db flash_redirect users set_users]. unfold insert. cbn [rows].
      rewrite filter_app. cbn [filter]. unfold is_manager at 2. cbn [u_role].
      apply str_in_In in Eavail. unfold get_available_roles_for_registration in Eavail.
      apply filter_In in Eavail. destruct Eavail as [Hassign _].
      apply assignable_is_not_manager, String.eqb_neq in Hassign.
      rewrite Hassign, app_nil_r. reflexivity.
    + unfold approve_user, with_connection, bind.
      destruct (fetch_by_id (users db) user_id) as [[user|]|] eqn:Ef; try reflexivity.
      destruct (u_role user =? "Manager")%string eqn:Em; [reflexivity|].
      destruct (negb _); [reflexivity|].
      destruct (find (role_conflict _ _) _); [reflexivity|].
      destruct (execute _) as [conn'|] eqn:E; [|reflexivity].
      apply execute_ok in E. subst conn'.
      exact (decided_managers db user_id _ user Hkey Ef Em).
    + unfold reject_user, with_connection, bind.
      destruct (fetch_by_id (users db) user_id) as [[user|]|] eqn:Ef; try reflexivity.
      destruct (u_role user =? "Manager")%string eqn:Em; [reflexivity|].
      destruct (negb _); [reflexivity|].
      destruct (execute _) as [conn'|] eqn:E; [|reflexivity].
      apply execute_ok in E. subst conn'.
      exact (decided_managers db user_id _ user Hkey Ef Em).
    + unfold delete_user, with_connection, bind.
      destruct (opt_Z_eqb _ _); [reflexivity|].
      destruct (fetch_by_id (users db) user_id) as [[user|]|] eqn:Ef; try reflexivity.
      destruct (u_role user =? "Manager")%string eqn:Em; [reflexivity|].
      destruct (execute _) as [conn'|] eqn:E; [|reflexivity].
      apply execute_ok in E. subst conn'.
      cbn [out_db flash_redirect users set_users]. unfold delete_by_id. cbn [rows].
      apply filter_filter_same. intros u Hin Hm.
      apply negb_true_iff, Z.eqb_neq. intros Hid.
      assert (u = user)
        by exact (find_unique _ _ _ _ Hkey (fetch_by_id_find _ _ _ Ef) Hin Hid).
      subst u. unfold is_manager in Hm. congruence.
  - rewrite (proj1 (handle_writes env req session db) Hw). reflexivity.
Qed.

(** X15.  No request adds, removes or alters a manager: after any sequence of
    requests from a database where [id] is a key of users, the rows of users
    with the role 'Manager' are the rows there were at the start. *)
Theorem managers_are_never_changed (db0 db : DB) :
  users_primary_key db0 -> reachable db0 db -> managers db = managers db0.
Proof.
  intros Hkey Hr.
  assert (Hboth : users_primary_key db /\ managers db = managers db0).
  { induction Hr as [|env req session db Hr [IHk IH]].
    - split; [exact Hkey|reflexivity].
    - split.
      + exact (users_change_primary_key _ _ (handle_users env req session db) IHk).
      + rewrite (handle_managers env req session db IHk). exact IH. }
  apply Hboth.
Qed.

(** *** Vehicles and drivers stay valid *)

Lemma set_availability_tables (status : string) (vehicle_id driver_id : Z) (conn conn' : DB) :
  set_availability status vehicle_id driver_id conn = Ok conn' ->
  vehicles conn' = update_by_id vehicle_id (set_v_status status) (vehicles conn)
  /\ drivers conn' = update_by_id driver_id (set_d_status status) (drivers conn).
Proof.
  unfold set_availability, bind.
  destruct (execute _) as [conn1|] eqn:E1; [|discriminate].
  apply execute_ok in E1. subst conn1. intros E2. apply execute_ok in E2. subst conn'.
  split; reflexivity.
Qed.

Lemma set_v_status_valid (status : string) (v : Vehicle) :
  str_in status ["Available"; "On Trip"; "In Shop"] = true ->
  vehicle_row_valid v = true -> vehicle_row_valid (set_v_status status v) = true.
Proof.
  intros Hs. unfold vehicle_row_valid. cbn [set_v_status v_model_name v_license_plate
    v_odometer v_status]. rewrite Hs, !andb_true_iff. intros [[[H1 H2] H3] _].
  repeat split; assumption.
Qed.

Lemma set_d_status_valid (status : string) (d : Driver) :
  str_in status ["Available"; "On Trip"; "Suspended"] = true ->
  driver_row_valid d = true -> driver_row_valid (set_d_status status d) = true.
Proof.
  intros Hs. unfold driver_row_valid. cbn [set_d_status d_name d_license_number
    d_license_expiry_date d_status d_safety_score]. rewrite Hs, !andb_true_iff.
  intros [[[[[H1 H2] H3] _] H5] H6]. repeat split; assumption.
Qed.

(** The vehicles and drivers after one of the two trip handlers. *)
Lemma trip_handler_resources (conn1 conn2 db : DB) (status : string)
  (vehicle_id driver_id : Z) (others : list string) :
  vehicles conn1 = vehicles db -> drivers conn1 = drivers db ->
  (if (status =? "Dispatched")%string then
     set_availability "On Trip" vehicle_id driver_id conn1
   else if str_in status others then
     set_availability "Available" vehicle_id driver_id conn1
   else Ok conn1) = Ok conn2 ->
  (vehicles conn2 = vehicles db /\ drivers conn2 = drivers db)
  \/ exists s, (s = "On Trip" \/ s = "Available")
       /\ vehicles conn2 = update_by_id vehicle_id (set_v_status s) (vehicles db)
       /\ drivers conn2 = update_by_id driver_id (set_d_status s) (drivers db).
Proof.
  intros Hv Hd.
  destruct (status =? "Dispatched")%string.
  - intros E. apply set_availability_tables in E. destruct E as [Ev Ed].
    right. exists "On Trip". rewrite <- Hv, <- Hd. auto.
  - destruct (str_in status others).
    + intros E. apply set_availability_tables in E. destruct E as [Ev Ed].
      right. exists "Available". rewrite <- Hv, <- Hd. auto.
    + intros E. injection E as <-. left. auto.
Qed.

Lemma trips_view_resources (today : date) (method : http_method) (form : TripForm)
  (session : Session) (db : DB) :
  let db' := out_db (trips_view today method form session db) in
  (vehicles db' = vehicles db /\ drivers db' = drivers db)
  \/ exists s vehicle_id driver_id, (s = "On Trip" \/ s = "Available")
       /\ vehicles db' = update_by_id vehicle_id (set_v_status s) (vehicles db)
       /\ drivers db' = update_by_id driver_id (set_d_status s) (drivers db).
Proof.
  cbv zeta. destruct method; [left; split; reflexivity|].
  unfold trips_view.
  destruct (negb (str_in _ _)); [left; split; reflexivity|].
  destruct (negb (_ && _)); [left; split; reflexivity|].
  unfold with_connection, bind.
  destruct (validate_trip_assignment _ _ _ _ _ _ _) as [[[[error|] v] d]|];
    try (left; split; reflexivity).
  destruct (execute _) as [conn1|] eqn:E1; [|left; split; reflexivity].
  apply execute_ok in E1.
  destruct (if (_ =? "Dispatched")%string then _ else _) as [conn2|] eqn:E2;
    [|left; split; reflexivity].
  cbn [out_db flash_redirect].
  destruct (trip_handler_resources conn1 conn2 db _ _ _ _
              ltac:(subst conn1; reflexivity) ltac:(subst conn1; reflexivity) E2)
    as [H|(s & Hs & Hv & Hd)]; [left; exact H|].
  right. eexists s, _, _. split; [exact Hs|]. split; [exact Hv|exact Hd].
Qed.

Lemma update_trip_status_resources (today : date) (trip_id : Z)
  (form_status : option string) (session : Session) (db : DB) :
  let db' := out_db (update_trip_status today trip_id form_status session db) in
  (vehicles db' = vehicles db /\ drivers db' = drivers db)
  \/ exists s vehicle_id driver_id, (s = "On Trip" \/ s = "Available")
       /\ vehicles db' = update_by_id vehicle_id (set_v_status s) (vehicles db)
       /\ drivers db' = update_by_id driver_id (set_d_status s) (drivers db).
Proof.
  cbv zeta. unfold update_trip_status.
  destruct (negb (str_in _ _)); [left; split; reflexivity|].
  unfold with_connection, bind.
  destruct (fetch_by_id (trips db) trip_id) as [[trip|]|];
    try (left; split; reflexivity).
  destruct (t_status trip =? _)%string; [left; split; reflexivity|].
  destruct (validate_trip_assignment _ _ _ _ _ _ _) as [[[[error|] v] d]|];
    try (left; split; reflexivity).
  destruct (execute _) as [conn1|] eqn:E1; [|left; split; reflexivity].
  apply execute_ok in E1.
  destruct (if (_ =? "Dispatched")%string then _ else _) as [conn2|] eqn:E2;
    [|left; split; reflexivity].
  cbn [out_db flash_redirect].
  destruct (trip_handler_resources conn1 conn2 db _ _ _ _
              ltac:(subst conn1; reflexivity) ltac:(subst conn1; reflexivity) E2)
    as [H|(s & Hs & Hv & Hd)]; [left; exact H|].
  right. eexists s, _, _. split; [exact Hs|]. split; [exact Hv|exact Hd].
Qed.

Lemma sqlite_int_ok (i j : Z) : sqlite_int i = Ok j -> j = i.
Proof.
  unfold sqlite_int. destruct (_ && _); [|discriminate]. intros E. injection E as <-.
  reflexivity.
Qed.

Lemma checked_vehicle_valid (i : Z) (model_name license_plate status : string)
  (capacity : option float) (odometer : option Z) (odo : Z) :
  negb (truthy_str model_name) || negb (truthy_str license_plate) = false ->
  none_or_neg odometer = false ->
  negb (str_in status ["Available"; "On Trip"; "In Shop"]) = false ->
  sqlite_int (match odometer with Some k => k | None => 0 end) = Ok odo ->
  vehicle_row_valid (mkVehicle i model_name license_plate capacity odo status) = true.
Proof.
  intros Hreq Hodo Hst Eodo. apply sqlite_int_ok in Eodo. subst odo.
  apply orb_false_iff in Hreq. destruct Hreq as [Hm Hp].
  apply negb_false_iff in Hm, Hp, Hst.
  unfold vehicle_row_valid. cbn [v_model_name v_license_plate v_odometer v_status].
  rewrite Hm, Hp, Hst. destruct odometer as [k|]; [|discriminate Hodo].
  cbn [none_or_neg] in Hodo. apply Z.ltb_ge in Hodo.
  apply Z.leb_le in Hodo. rewrite Hodo. reflexivity.
Qed.

Lemma vehicles_view_change (method : http_method) (form : VehicleForm)
  (session : Session) (db : DB) :
  vehicles_change db (out_db (vehicles_view method form session db)).
Proof.
  destruct method; [apply vehicles_same; reflexivity|].
  unfold vehicles_view.
  destruct (negb (opt_str_eqb _ _)); [apply vehicles_same; reflexivity|].
  destruct (negb (truthy_str _) || _) eqn:Hreq; [apply vehicles_same; reflexivity|].
  destruct (none_or_leb0 _); [apply vehicles_same; reflexivity|].
  destruct (none_or_neg _) eqn:Hodo; [apply vehicles_same; reflexivity|].
  destruct (negb (str_in _ _)) eqn:Hst; [apply vehicles_same; reflexivity|].
  unfold bind.
  destruct (sqlite_int _) as [odo|e] eqn:Eodo;
    [|destruct e; apply vehicles_same; reflexivity].
  destruct (execute _) as [db'|e] eqn:E1;
    [|destruct e; apply vehicles_same; reflexivity].
  apply execute_ok in E1. subst db'.
  eapply vehicles_inserted; [reflexivity|intros i; reflexivity|].
  intros i. exact (checked_vehicle_valid i _ _ _ _ _ _ Hreq Hodo Hst Eodo).
Qed.

Lemma edit_vehicle_change (vehicle_id : Z) (method : http_method) (form : VehicleForm)
  (session : Session) (db : DB) :
  vehicles_change db (out_db (edit_vehicle vehicle_id method form session db)).
Proof.
  unfold edit_vehicle, with_connection, bind.
  destruct (fetch_by_id _ _) as [[vehicle|]|]; try (apply vehicles_same; reflexivity).
  destruct method; [apply vehicles_same; reflexivity|].
  destruct (negb (truthy_str _) || _) eqn:Hreq; [apply vehicles_same; reflexivity|].
  destruct (none_or_leb0 _); [apply vehicles_same; reflexivity|].
  destruct (none_or_neg _) eqn:Hodo; [apply vehicles_same; reflexivity|].
  destruct (negb (str_in _ _)) eqn:Hst; [apply vehicles_same; reflexivity|].
  destruct (sqlite_int _) as [odo|e] eqn:Eodo;
    [|destruct e; apply vehicles_same; reflexivity].
  destruct (execute _) as [db'|e] eqn:E1;
    [|destruct e; apply vehicles_same; reflexivity].
  apply execute_ok in E1. subst db'.
  eapply vehicles_updated; [reflexivity|intros v; reflexivity|].
  intros v _. exact (checked_vehicle_valid (v_id v) _ _ _ _ _ _ Hreq Hodo Hst Eodo).
Qed.

Lemma find_none_all {A : Type} (f : A -> bool) (l : list A) :
  find f l = None -> forall x, In x l -> f x = false.
Proof. intros H x Hx. exact (find_none f l H x Hx). Qed.

Lemma delete_vehicle_change (vehicle_id : Z) (session : Session) (db : DB) :
  vehicles_change db (out_db (delete_vehicle vehicle_id session db)).
Proof.
  unfold delete_vehicle, with_connection, bind.
  destruct (sqlite_int _) as [i|] eqn:Ei; [|apply vehicles_same; reflexivity].
  apply sqlite_int_ok in Ei. subst i.
  destruct (find _ _) eqn:Efind; [apply vehicles_same; reflexivity|].
  destruct (execute _) as [db'|] eqn:E1; [|apply vehicles_same; reflexivity].
  apply execute_ok in E1. subst db'.
  apply vehicles_deleted with (vehicle_id := vehicle_id); [reflexivity|].
  intros t Ht. apply (find_none_all _ _ Efind) in Ht. apply Z.eqb_neq in Ht. exact Ht.
Qed.

Lemma maintenance_change (method : http_method) (form : MaintenanceForm)
  (session : Session) (db : DB) :
  vehicles_change db (out_db (maintenance method form session db)).
Proof.
  destruct method; [apply vehicles_same; reflexivity|].
  unfold maintenance.
  destruct (negb _); [apply vehicles_same; reflexivity|].
  destruct (none_or_ltb0 _); [apply vehicles_same; reflexivity|].
  destruct (strptime_ymd _); [|apply vehicles_same; reflexivity].
  unfold with_connection, bind.
  destruct (fetch_by_id _ _) as [[vehicle|]|]; try (apply vehicles_same; reflexivity).
  destruct (execute _) as [conn1|] eqn:E1; [|apply vehicles_same; reflexivity].
  apply execute_ok in E1. subst conn1.
  destruct (execute _) as [conn2|] eqn:E2; [|apply vehicles_same; reflexivity].
  apply execute_ok in E2. subst conn2.
  eapply vehicles_updated; [reflexivity|intros v; reflexivity|].
  intros v. apply set_v_status_valid. reflexivity.
Qed.

Lemma resources_vehicles_change (db db' : DB) :
  ((vehicles db' = vehicles db /\ drivers db' = drivers db)
   \/ exists s vehicle_id driver_id, (s = "On Trip" \/ s = "Available")
        /\ vehicles db' = update_by_id vehicle_id (set_v_status s) (vehicles db)
        /\ drivers db' = update_by_id driver_id (set_d_status s) (drivers db)) ->
  vehicles_change db db'.
Proof.
  intros [[Hv _]|(s & vehicle_id & driver_id & Hs & Hv & _)].
  - apply vehicles_same. exact Hv.
  - eapply vehicles_updated; [exact Hv|intros v; reflexivity|].
    intros v. apply set_v_status_valid. destruct Hs; subst s; reflexivity.
Qed.

Lemma handle_vehicles (env : Env) (req : request) (session : Session) (db : DB) :
  vehicles_change db (out_db (handle env req session db)).
Proof.
  destruct (writes_vehicles req) eqn:Hw.
  - destruct req; try discriminate Hw; cbn [handle];
      (apply roles_required_out; [apply vehicles_same; reflexivity|]).
    + apply vehicles_view_change.
    + apply edit_vehicle_change.
    + apply delete_vehicle_change.
    + apply resources_vehicles_change. apply trips_view_resources.
    + apply resources_vehicles_change. apply update_trip_status_resources.
    + apply maintenance_change.
  - apply vehicles_same.
    destruct req; try discriminate Hw; cbn [handle];
      try through_guard; unfold_views; run_handler.
Qed.

Lemma checked_driver_valid (i score : Z) (name license_number expiry status : string) (d0 : date) :
  negb (truthy_str name && truthy_str license_number && truthy_str expiry) = false ->
  negb (str_in status ["Available"; "On Trip"; "Suspended"]) = false ->
  strptime_ymd expiry = Some d0 ->
  0 <= score <= 100 ->
  driver_row_valid (mkDriver i name license_number (Some expiry) status score) = true.
Proof.
  intros Hreq Hst Hdate Hscore. apply negb_false_iff in Hreq, Hst.
  apply andb_true_iff in Hreq. destruct Hreq as [Hreq He].
  apply andb_true_iff in Hreq. destruct Hreq as [Hn Hl].
  unfold driver_row_valid, expiry_date_parses.
  cbn [d_name d_license_number d_license_expiry_date d_status d_safety_score].
  rewrite Hn, Hl, He, Hdate, Hst.
  destruct Hscore as [H0 H100]. apply Z.leb_le in H0, H100. rewrite H0, H100.
  reflexivity.
Qed.

Lemma drivers_view_change (method : http_method) (form : DriverForm)
  (session : Session) (db : DB) :
  drivers_change db (out_db (drivers_view method form session db)).
Proof.
  destruct method; [apply drivers_same; reflexivity|].
  unfold drivers_view.
  destruct (negb (opt_str_eqb _ _)); [apply drivers_same; reflexivity|].
  destruct (negb (_ && _)) eqn:Hreq; [apply drivers_same; reflexivity|].
  destruct (negb (str_in _ _)) eqn:Hst; [apply drivers_same; reflexivity|].
  destruct (strptime_ymd _) as [d0|] eqn:Hdate; [|apply drivers_same; reflexivity].
  destruct (execute _) as [db'|] eqn:E1; [|apply drivers_same; reflexivity].
  apply execute_ok in E1. subst db'.
  eapply drivers_inserted; [reflexivity|intros i; reflexivity|].
  intros i. apply (checked_driver_valid i 75 _ _ _ _ d0 Hreq Hst Hdate). lia.
Qed.

Lemma edit_driver_change (driver_id : Z) (method : http_method) (form : DriverForm)
  (session : Session) (db : DB) :
  drivers_change db (out_db (edit_driver driver_id method form session db)).
Proof.
  unfold edit_driver, with_connection, bind.
  destruct (fetch_by_id _ _) as [[driver|]|]; try (apply drivers_same; reflexivity).
  destruct method; [apply drivers_same; reflexivity|].
  destruct (negb (_ && _)) eqn:Hreq; [apply drivers_same; reflexivity|].
  destruct (negb (str_in _ _)) eqn:Hst; [apply drivers_same; reflexivity|].
  destruct (strptime_ymd _) as [d0|] eqn:Hdate; [|apply drivers_same; reflexivity].
  destruct (execute _) as [db'|] eqn:E1; [|apply drivers_same; reflexivity].
  apply execute_ok in E1. subst db'.
  eapply drivers_updated; [reflexivity|intros d; reflexivity|].
  intros d Hd. apply (checked_driver_valid (d_id d) _ _ _ _ _ d0 Hreq Hst Hdate).
  unfold driver_row_valid in Hd. rewrite !andb_true_iff in Hd.
  destruct Hd as [[_ H0] H100]. apply Z.leb_le in H0, H100. lia.
Qed.

Lemma delete_driver_change (driver_id : Z) (session : Session) (db : DB) :
  drivers_change db (out_db (delete_driver driver_id session db)).
Proof.
  unfold delete_driver, with_connection, bind.
  destruct (sqlite_int _) as [i|] eqn:Ei; [|apply drivers_same; reflexivity].
  apply sqlite_int_ok in Ei. subst i.
  destruct (find _ _) eqn:Efind; [apply drivers_same; reflexivity|].
  destruct (execute _) as [db'|] eqn:E1; [|apply drivers_same; reflexivity].
  apply execute_ok in E1. subst db'.
  apply drivers_deleted with (driver_id := driver_id); [reflexivity|].
  intros t Ht. apply (find_none_all _ _ Efind) in Ht. apply Z.eqb_neq in Ht. exact Ht.
Qed.

Lemma safety_update_driver_change (driver_id : Z) (form_safety_score : option Z)
  (form_status : option string) (session : Session) (db : DB) :
  drivers_change db
    (out_db (safety_update_driver driver_id form_safety_score form_status session db)).
Proof.
  unfold safety_update_driver.
  destruct form_safety_score as [safety_score|]; [|apply drivers_same; reflexivity].
  destruct (_ || _) eqn:Hscore; [apply drivers_same; reflexivity|].
  destruct (negb (str_in _ _)) eqn:Hst; [apply drivers_same; reflexivity|].
  unfold with_connection, bind.
  destruct (fetch_by_id _ _) as [[driver|]|]; try (apply drivers_same; reflexivity).
  destruct (_ && _); [apply drivers_same; reflexivity|].
  destruct (execute _) as [db'|] eqn:E1; [|apply drivers_same; reflexivity].
  apply execute_ok in E1. subst db'.
  eapply drivers_updated; [reflexivity|intros d; reflexivity|].
  intros d. unfold driver_row_valid.
  cbn [d_name d_license_number d_license_expiry_date d_status d_safety_score].
  rewrite !andb_true_iff. intros [[[[[Hn Hl] He] _] _] _].
  apply orb_false_iff in Hscore. destruct Hscore as [H0 H100].
  apply Z.ltb_ge in H0, H100. apply Z.leb_le in H0, H100.
  apply negb_false_iff in Hst. apply str_in_In in Hst.
  repeat split; try assumption.
  apply str_in_In. cbn [In] in Hst |- *. tauto.
Qed.

Lemma resources_drivers_change (db db' : DB) :
  ((vehicles db' = vehicles db /\ drivers db' = drivers db)
   \/ exists s vehicle_id driver_id, (s = "On Trip" \/ s = "Available")
        /\ vehicles db' = update_by_id vehicle_id (set_v_status s) (vehicles db)
        /\ drivers db' = update_by_id driver_id (set_d_status s) (drivers db)) ->
  drivers_change db db'.
Proof.
  intros [[_ Hd]|(s & vehicle_id & driver_id & Hs & _ & Hd)].
  - apply drivers_same. exact Hd.
  - eapply drivers_updated; [exact Hd|intros d; reflexivity|].
    intros d. apply set_d_status_valid. destruct Hs; subst s; reflexivity.
Qed.

Lemma handle_drivers (env : Env) (req : request) (session : Session) (db : DB) :
  drivers_change db (out_db (handle env req session db)).
Proof.
  destruct (writes_drivers req) eqn:Hw.
  - destruct req; try discriminate Hw; cbn [handle];
      (apply roles_required_out; [apply drivers_same; reflexivity|]).
    + apply drivers_view_change.
    + apply edit_driver_change.
    + apply delete_driver_change.
    + apply resources_drivers_change. apply trips_view_resources.
    + apply resources_drivers_change. apply update_trip_status_resources.
    + apply safety_update_driver_change.
  - apply drivers_same.
    destruct req; try discriminate Hw; cbn [handle];
      try through_guard; unfold_views; run_handler.
Qed.

(** *** Every stored vehicle and driver passed the form checks *)

Lemma vehicles_change_valid (db db' : DB) :
  vehicles_change db db' -> vehicles_valid db -> vehicles_valid db'.
Proof.
  intros Hch Hvalid v Hv. destruct Hch as [E|mk E _ Hok|i f E _ Hok|i E _];
    rewrite E in Hv.
  - apply Hvalid. exact Hv.
  - cbn [insert rows] in Hv. apply in_app_or in Hv. destruct Hv as [Hv|[<-|[]]].
    + apply Hvalid. exact Hv.
    + apply Hok.
  - cbn [update_by_id rows] in Hv. apply in_map_iff in Hv.
    destruct Hv as (v0 & <- & Hv0). specialize (Hvalid v0 Hv0).
    destruct (rowid v0 =? i); [apply Hok|]; exact Hvalid.
  - cbn [delete_by_id rows] in Hv. apply filter_In in Hv. apply Hvalid. apply Hv.
Qed.

Lemma drivers_change_valid (db db' : DB) :
  drivers_change db db' -> drivers_valid db -> drivers_valid db'.
Proof.
  intros Hch Hvalid d Hd. destruct Hch as [E|mk E _ Hok|i f E _ Hok|i E _];
    rewrite E in Hd.
  - apply Hvalid. exact Hd.
  - cbn [insert rows] in Hd. apply in_app_or in Hd. destruct Hd as [Hd|[<-|[]]].
    + apply Hvalid. exact Hd.
    + apply Hok.
  - cbn [update_by_id rows] in Hd. apply in_map_iff in Hd.
    destruct Hd as (d0 & <- & Hd0). specialize (Hvalid d0 Hd0).
    destruct (rowid d0 =? i); [apply Hok|]; exact Hvalid.
  - cbn [delete_by_id rows] in Hd. apply filter_In in Hd. apply Hvalid. apply Hd.
Qed.

(** X16.  Every stored vehicle passed the checks of the vehicle forms: starting
    from a database whose vehicles have a model name, a plate, an odometer
    that is not negative and one of the statuses 'Available', 'On Trip',
    'In Shop', every sequence of requests leads to such a database. *)
Theorem stored_vehicles_are_valid (db0 db : DB) :
  vehicles_valid db0 -> reachable db0 db -> vehicles_valid db.
Proof.
  intros H0 Hreach. induction Hreach as [|env req session db Hreach IH]; [exact H0|].
  exact (vehicles_change_valid _ _ (handle_vehicles env req session db) IH).
Qed.

Lemma valid_license_is_read (today : date) (d : Driver) :
  driver_row_valid d = true ->
  exists expired, is_license_expired today (d_license_expiry_date d) = Ok expired.
Proof.
  unfold driver_row_valid, expiry_date_parses, is_license_expired.
  rewrite !andb_true_iff. intros [[[[_ He] _] _] _].
  destruct (d_license_expiry_date d) as [text|]; [|discriminate He].
  apply andb_true_iff in He. destruct He as [Ht Hp]. rewrite Ht. cbn [negb].
  destruct (strptime_ymd text) as [day|]; [|discriminate Hp].
  eexists. reflexivity.
Qed.

(** X17.  Every stored driver passed the checks of the driver forms: starting
    from a database whose drivers have a name, a license number, an expiry
    date that [strptime] reads, one of the statuses 'Available', 'On Trip',
    'Suspended' and a safety score from 0 to 100, every sequence of requests
    leads to such a database; so [is_license_expired] returns, and raises no
    [ValueError], on the expiry date of every stored driver. *)
Theorem stored_drivers_are_valid (db0 db : DB) :
  drivers_valid db0 -> reachable db0 db ->
  drivers_valid db
  /\ forall today d, In d (rows (drivers db)) ->
       exists expired, is_license_expired today (d_license_expiry_date d) = Ok expired.
Proof.
  intros H0 Hreach.
  assert (Hvalid : drivers_valid db).
  { induction Hreach as [|env req session db Hreach IH]; [exact H0|].
    exact (drivers_change_valid _ _ (handle_drivers env req session db) IH). }
  split; [exact Hvalid|].
  intros today d Hd. apply valid_license_is_read. apply Hvalid. exact Hd.
Qed.

(** *** Trips name vehicles and drivers that exist *)

Lemma find_In_id {R} `{HasId R} (i : Z) (l : list R) (r : R) :
  find (fun r' => rowid r' =? i) l = Some r -> In r l /\ rowid r = i.
Proof.
  intros E. apply find_some in E. destruct E as [Hin E]. apply Z.eqb_eq in E. auto.
Qed.

Lemma validate_accepts_refers (today : date) (conn : DB) (vehicle_id driver_id : Z)
  (cargo_weight : option float) (status : string) (old_status : option string)
  (v : option Vehicle) (d : option Driver) (t : Trip) :
  validate_trip_assignment today conn vehicle_id driver_id cargo_weight status old_status
  = Ok (None, v, d) ->
  t_vehicle_id t = vehicle_id -> t_driver_id t = driver_id ->
  trip_refers conn t.
Proof.
  intros Hv Evid Edid. apply validate_accepts in Hv.
  destruct Hv as (vehicle & driver & Hfv & Hfd).
  apply find_some in Hfv, Hfd. destruct Hfv as [Hv1 Hv2], Hfd as [Hd1 Hd2].
  apply Z.eqb_eq in Hv2, Hd2. split.
  - exists vehicle. split; [exact Hv1|]. rewrite Evid. exact Hv2.
  - exists driver. split; [exact Hd1|]. rewrite Edid. exact Hd2.
Qed.

Lemma trips_view_refer (today : date) (method : http_method) (form : TripForm)
  (session : Session) (db : DB) :
  trips_change_refer db (out_db (trips_view today method form session db)).
Proof.
  destruct method; [apply trips_refer_same; reflexivity|].
  unfold trips_view.
  destruct (negb (str_in _ _)); [apply trips_refer_same; reflexivity|].
  destruct (negb (_ && _)); [apply trips_refer_same; reflexivity|].
  unfold with_connection, bind.
  destruct (validate_trip_assignment _ _ _ _ _ _ _) as [[[[error|] v] d]|] eqn:Ev;
    try (apply trips_refer_same; reflexivity).
  destruct (execute _) as [conn1|] eqn:E1; [|apply trips_refer_same; reflexivity].
  apply execute_ok in E1.
  destruct (if (_ =? "Dispatched")%string then _ else _) as [conn2|] eqn:E2;
    [|apply trips_refer_same; reflexivity].
  cbn [out_db flash_redirect].
  assert (Ht : trips conn2 = trips conn1).
  { revert E2. destruct (_ =? "Dispatched")%string;
      [apply set_availability_trips|].
    destruct (str_in _ _); [apply set_availability_trips|].
    intros E. injection E as <-. reflexivity. }
  eapply trips_refer_inserted.
  - rewrite Ht, E1. reflexivity.
  - intros i. eapply validate_accepts_refers; [exact Ev|reflexivity|reflexivity].
Qed.

Lemma update_trip_status_refer (today : date) (trip_id : Z) (form_status : option string)
  (session : Session) (db : DB) :
  trips_change_refer db (out_db (update_trip_status today trip_id form_status session db)).
Proof.
  destruct (update_trip_status_trips today trip_id form_status session db)
    as [E|row E _|i s E _].
  - apply trips_refer_same. exact E.
  - exfalso. revert E. unfold update_trip_status.
    assert (Hneq : forall t : Table Trip, t = insert row t -> False).
    { intros t E. apply (f_equal (fun x => List.length (rows x))) in E.
      cbn [insert rows] in E. rewrite length_app in E. cbn [List.length] in E. lia. }
    assert (Hupd : forall i s, update_by_id i (set_t_status s) (trips db)
                               = insert row (trips db) -> False).
    { intros i s E. apply (f_equal (fun x => List.length (rows x))) in E.
      cbn [insert update_by_id rows] in E. rewrite length_map, length_app in E.
      cbn [List.length] in E. lia. }
    destruct (negb (str_in _ _)); [intros E; apply (Hneq _ E)|].
    unfold with_connection, bind.
    destruct (fetch_by_id (trips db) trip_id) as [[trip|]|];
      try (intros E; apply (Hneq _ E)).
    destruct (t_status trip =? _)%string; [intros E; apply (Hneq _ E)|].
    destruct (validate_trip_assignment _ _ _ _ _ _ _) as [[[[error|] v] d]|];
      try (intros E; apply (Hneq _ E)).
    destruct (execute _) as [conn1|] eqn:E1; [|intros E; apply (Hneq _ E)].
    apply execute_ok in E1.
    destruct (if (_ =? "Dispatched")%string then _ else _) as [conn2|] eqn:E2;
      [|intros E; apply (Hneq _ E)].
    cbn [out_db flash_redirect].
    assert (Ht : trips conn2 = trips conn1).
    { revert E2. destruct (_ =? "Dispatched")%string;
        [apply set_availability_trips|].
      destruct (str_in _ _); [apply set_availability_trips|].
      intros E. injection E as <-. reflexivity. }
    rewrite Ht, E1. cbn [trips set_trips]. intros E. exact (Hupd _ _ E).
  - eapply trips_refer_updated. exact E.
Qed.

Lemma update_keeps_id {R} `{HasId R} (i : Z) (f : R -> R) (t : Table R) (r : R) :
  (forall r, rowid (f r) = rowid r) -> In r (rows t) ->
  exists r', In r' (rows (update_by_id i f t)) /\ rowid r' = rowid r.
Proof.
  intros Hf Hin. exists (if rowid r =? i then f r else r). split.
  - cbn [update_by_id rows]. apply in_map_iff. exists r. split; [reflexivity|exact Hin].
  - destruct (rowid r =? i); [apply Hf|reflexivity].
Qed.

Lemma vehicles_change_keeps (db db' : DB) (t : Trip) :
  vehicles_change db db' -> In t (rows (trips db)) ->
  (exists v, In v (rows (vehicles db)) /\ v_id v = t_vehicle_id t) ->
  exists v, In v (rows (vehicles db')) /\ v_id v = t_vehicle_id t.
Proof.
  intros Hch Ht (v & Hv & Eid). destruct Hch as [E|mk E _ _|i f E Hf _|i E Hfree];
    rewrite E.
  - exists v. auto.
  - exists v. split; [|exact Eid]. cbn [insert rows]. apply in_or_app. left. exact Hv.
  - destruct (update_keeps_id i f (vehicles db) v Hf Hv) as (v' & Hv' & Eid').
    exists v'. split; [exact Hv'|]. rewrite <- Eid. exact Eid'.
  - exists v. split; [|exact Eid]. cbn [delete_by_id rows]. apply filter_In.
    split; [exact Hv|]. apply negb_true_iff. apply Z.eqb_neq.
    change (v_id v <> i). rewrite Eid. apply Hfree. exact Ht.
Qed.

Lemma drivers_change_keeps (db db' : DB) (t : Trip) :
  drivers_change db db' -> In t (rows (trips db)) ->
  (exists d, In d (rows (drivers db)) /\ d_id d = t_driver_id t) ->
  exists d, In d (rows (drivers db')) /\ d_id d = t_driver_id t.
Proof.
  intros Hch Ht (d & Hd & Eid). destruct Hch as [E|mk E _ _|i f E Hf _|i E Hfree];
    rewrite E.
  - exists d. auto.
  - exists d. split; [|exact Eid]. cbn [insert rows]. apply in_or_app. left. exact Hd.
  - destruct (update_keeps_id i f (drivers db) d Hf Hd) as (d' & Hd' & Eid').
    exists d'. split; [exact Hd'|]. rewrite <- Eid. exact Eid'.
  - exists d. split; [|exact Eid]. cbn [delete_by_id rows]. apply filter_In.
    split; [exact Hd|]. apply negb_true_iff. apply Z.eqb_neq.
    change (d_id d <> i). rewrite Eid. apply Hfree. exact Ht.
Qed.

Lemma resources_keep_refers (db db' : DB) (t : Trip) :
  ((vehicles db' = vehicles db /\ drivers db' = drivers db)
   \/ exists s vehicle_id driver_id, (s = "On Trip" \/ s = "Available")
        /\ vehicles db' = update_by_id vehicle_id (set_v_status s) (vehicles db)
        /\ drivers db' = update_by_id driver_id (set_d_status s) (drivers db)) ->
  trip_refers db t -> trip_refers db' t.
Proof.
  unfold trip_refers.
  intros [[Ev Ed]|(s & vehicle_id & driver_id & _ & Ev & Ed)]; rewrite Ev, Ed;
    [tauto|].
  intros [(v & Hv & Eidv) (d & Hd & Eidd)]. split.
  - destruct (update_keeps_id (H := Vehicle_id) vehicle_id (set_v_status s) (vehicles db) v
                ltac:(intros r; reflexivity) Hv) as (v' & Hv' & Eid').
    exists v'. split; [exact Hv'|]. rewrite <- Eidv. exact Eid'.
  - destruct (update_keeps_id (H := Driver_id) driver_id (set_d_status s) (drivers db) d
                ltac:(intros r; reflexivity) Hd) as (d' & Hd' & Eid').
    exists d'. split; [exact Hd'|]. rewrite <- Eidd. exact Eid'.
Qed.

Lemma trip_handler_keeps_refer (db db' : DB) :
  trips_change_refer db db' ->
  ((vehicles db' = vehicles db /\ drivers db' = drivers db)
   \/ exists s vehicle_id driver_id, (s = "On Trip" \/ s = "Available")
        /\ vehicles db' = update_by_id vehicle_id (set_v_status s) (vehicles db)
        /\ drivers db' = update_by_id driver_id (set_d_status s) (drivers db)) ->
  trips_refer db -> trips_refer db'.
Proof.
  intros Hch Hres Hrefer t Ht. apply (resources_keep_refers db db' t Hres).
  destruct Hch as [E|mk E Hok|i s E]; rewrite E in Ht.
  - apply Hrefer. exact Ht.
  - cbn [insert rows] in Ht. apply in_app_or in Ht. destruct Ht as [Ht|[<-|[]]].
    + apply Hrefer. exact Ht.
    + apply Hok.
  - cbn [update_by_id rows] in Ht. apply in_map_iff in Ht.
    destruct Ht as (t0 & <- & Ht0). specialize (Hrefer t0 Ht0).
    destruct (rowid t0 =? i); exact Hrefer.
Qed.

Lemma handle_trips_refer (env : Env) (req : request) (session : Session) (db : DB) :
  trips_refer db -> trips_refer (out_db (handle env req session db)).
Proof.
  intros Hrefer. destruct (writes_trips req) eqn:Hw.
  - destruct req; try discriminate Hw; cbn [handle];
      (apply roles_required_out; [exact Hrefer|]).
    + exact (trip_handler_keeps_refer _ _ (trips_view_refer _ _ _ _ _)
               (trips_view_resources _ _ _ _ _) Hrefer).
    + exact (trip_handler_keeps_refer _ _ (update_trip_status_refer _ _ _ _ _)
               (update_trip_status_resources _ _ _ _ _) Hrefer).
  - intros t Ht.
    rewrite (proj1 (proj2 (proj2 (proj2 (handle_writes env req session db)))) Hw) in Ht.
    destruct (Hrefer t Ht) as [Hv Hd]. split.
    + exact (vehicles_change_keeps _ _ t (handle_vehicles env req session db) Ht Hv).
    + exact (drivers_change_keeps _ _ t (handle_drivers env req session db) Ht Hd).
Qed.

(** X18.  Every trip names a vehicle and a driver that exist: this holds after
    any sequence of requests when it holds at the start, since [trips] only
    stores a trip whose vehicle and driver were found, and [delete_vehicle]
    and [delete_driver] refuse a row that a trip names. *)
Theorem trips_name_existing_rows (db0 db : DB) :
  trips_refer db0 -> reachable db0 db -> trips_refer db.
Proof.
  intros H0 Hreach. induction Hreach as [|env req session db Hreach IH]; [exact H0|].
  exact (handle_trips_refer env req session db IH).
Qed.

(** *** Login after the manager's decision *)

Lemma find_map_same {A : Type} (p : A -> bool) (g : A -> A) (l : list A) :
  (forall x, p (g x) = p x) -> find p (map g l) = option_map g (find p l).
Proof.
  intros Hp. induction l as [|x l IH]; [reflexivity|].
  cbn [map find]. rewrite Hp. destruct (p x); [reflexivity|exact IH].
Qed.

Lemma login_finds_decided (status username : string) (user_id : Z) (db : DB) :
  find (login_matches username)
    (rows (update_by_id user_id (set_u_status status) (users db)))
  = option_map (fun u => if u_id u =? user_id then set_u_status status u else u)
      (find (login_matches username) (rows (users db))).
Proof.
  cbn [update_by_id rows].
  apply (find_map_same (login_matches username)
           (fun u => if u_id u =? user_id then set_u_status status u else u)).
  intros u. destruct (u_id u =? user_id); reflexivity.
Qed.

(** X19.  Whenever [login] answers with a redirect, the GET request to the
    endpoint it redirects to, sent with the session [login] has set, is
    answered with a page: the role guard of the home page lets the user it
    was chosen for through. *)
Theorem login_opens_the_home_page (env : Env) (form : LoginForm) (session : Session)
  (db : DB) (endpoint : string) (arg : option Z) :
  out_response (login POST form session db) = Redirect endpoint arg ->
  exists home template,
    home_request endpoint = Some home
    /\ handle env home (out_session (login POST form session db)) db
       = mkOutcome db (out_session (login POST form session db)) [] (Render template).
Proof.
  unfold login.
  destruct (find _ _) as [user|]; [|discriminate].
  destruct (negb _); [discriminate|].
  destruct (_ =? STATUS_PENDING)%string; [discriminate|].
  destruct (_ =? STATUS_REJECTED)%string; [discriminate|].
  cbn [out_response out_session]. intros E. injection E as <- _.
  exact (home_page_renders env
           (mkSession (Some (u_id user)) (Some (u_username user)) (Some (u_role user)))
           db (u_id user) eq_refl).
Qed.

(** X20.  The manager's decision shows at the next login: for the user the login
    query finds and whose password checks, a login that follows
    "User approved" sets the session to that user and redirects to the
    role's home, and a login that follows "User rejected" answers
    "Access denied by manager". *)
Theorem decision_shows_at_login (form : LoginForm) (manager visitor : Session) (db : DB)
  (user : User) :
  find (login_matches (py_strip (get_default (lf_username form) ""))) (rows (users db))
  = Some user ->
  check_password_hash (u_password_hash user) (get_default (lf_password form) "") = true ->
  (out_flashes (approve_user (u_id user) manager db) = [("User approved", "success")] ->
   login POST form visitor (out_db (approve_user (u_id user) manager db))
   = mkOutcome (out_db (approve_user (u_id user) manager db))
       (mkSession (Some (u_id user)) (Some (u_username user)) (Some (u_role user)))
       [("Logged in successfully.", "success")]
       (Redirect (get_role_home_endpoint (Some (u_role user))) None))
  /\ (out_flashes (reject_user (u_id user) manager db) = [("User rejected", "success")] ->
      login POST form visitor (out_db (reject_user (u_id user) manager db))
      = flash_render (out_db (reject_user (u_id user) manager db)) visitor
          "Access denied by manager" "error" "login.html").
Proof.
  intros Hfind Hpw. split.
  - unfold approve_user, with_connection, bind.
    destruct (fetch_by_id _ _) as [[u|]|]; try discriminate.
    destruct (u_role u =? "Manager")%string; [discriminate|].
    destruct (negb _); [discriminate|].
    destruct (find (role_conflict _ _) _); [discriminate|].
    destruct (execute _) as [conn'|] eqn:E1; [|discriminate].
    apply execute_ok in E1. subst conn'. intros _.
    cbn [out_db flash_redirect]. unfold login. cbn [users set_users].
    rewrite login_finds_decided, Hfind. cbn [option_map].
    rewrite Z.eqb_refl. cbn [set_u_status u_password_hash u_status u_id u_username u_role].
    rewrite Hpw. reflexivity.
  - unfold reject_user, with_connection, bind.
    destruct (fetch_by_id _ _) as [[u|]|]; try discriminate.
    destruct (u_role u =? "Manager")%string; [discriminate|].
    destruct (negb _); [discriminate|].
    destruct (execute _) as [conn'|] eqn:E1; [|discriminate].
    apply execute_ok in E1. subst conn'. intros _.
    cbn [out_db flash_redirect]. unfold login. cbn [users set_users].
    rewrite login_finds_decided, Hfind. cbn [option_map].
    rewrite Z.eqb_refl. cbn [set_u_status u_password_hash u_status u_id u_username u_role].
    rewrite Hpw. reflexivity.
Qed.

(** *** The safety officer's update *)

Lemma find_update_other {R} `{HasId R} (i j : Z) (f : R -> R) (t : Table R) :
  (forall r, rowid (f r) = rowid r) ->
  find (fun r => rowid r =? j) (rows (update_by_id i f t))
  = option_map (fun r => if rowid r =? i then f r else r)
      (find (fun r => rowid r =? j) (rows t)).
Proof.
  intros Hf. cbn [update_by_id rows].
  apply (find_map_same (fun r => rowid r =? j) (fun r => if rowid r =? i then f r else r)).
  intros r. destruct (rowid r =? i); [rewrite Hf|]; reflexivity.
Qed.

(** X21.  [safety_update_driver] never leaves a driver who is on a trip
    suspended: whatever driver, score and status the request names, a driver
    who read 'On Trip' under an id before the request is still found under
    that id afterwards, with a status other than 'Suspended'. *)
Theorem driver_on_trip_is_not_suspended (driver_id : Z) (form_safety_score : option Z)
  (form_status : option string) (session : Session) (db : DB) (other_id : Z)
  (driver : Driver) :
  find (fun d => d_id d =? other_id) (rows (drivers db)) = Some driver ->
  d_status driver = "On Trip" ->
  exists driver',
    find (fun d => d_id d =? other_id)
      (rows (drivers (out_db (safety_update_driver driver_id form_safety_score form_status
                                session db))))
    = Some driver'
    /\ d_id driver' = d_id driver
    /\ d_status driver' <> "Suspended".
Proof.
  intros Hfind Hstatus.
  assert (Hsame : exists driver', find (fun d => d_id d =? other_id) (rows (drivers db))
                                  = Some driver'
                                  /\ d_id driver' = d_id driver
                                  /\ d_status driver' <> "Suspended").
  { exists driver. split; [exact Hfind|]. split; [reflexivity|].
    rewrite Hstatus. discriminate. }
  unfold safety_update_driver.
  destruct form_safety_score as [safety_score|]; [|exact Hsame].
  destruct (_ || _); [exact Hsame|].
  destruct (negb (str_in _ _)) eqn:Hst; [exact Hsame|].
  unfold with_connection, bind.
  destruct (fetch_by_id _ _) as [[fetched|]|] eqn:Hfetch; try exact Hsame.
  destruct (_ && _) eqn:Hrefuse; [exact Hsame|].
  destruct (execute _) as [db'|] eqn:E1; [|exact Hsame].
  apply execute_ok in E1. subst db'. cbn [out_db flash_redirect drivers set_drivers].
  apply fetch_by_id_found in Hfetch. destruct Hfetch as [Hfetched Hid].
  change (find (fun d => d_id d =? driver_id) (rows (drivers db)) = Some fetched)
    in Hfetched.
  match goal with
  | |- context [update_by_id driver_id ?f (drivers db)] =>
    assert (Hupd : find (fun d => d_id d =? other_id)
                     (rows (update_by_id driver_id f (drivers db)))
                   = option_map (fun d => if d_id d =? driver_id then f d else d)
                       (find (fun d => d_id d =? other_id) (rows (drivers db))))
      by exact (find_update_other (H := Driver_id) driver_id other_id f (drivers db)
                  ltac:(intros r; reflexivity))
  end.
  rewrite Hupd.
  rewrite Hfind. cbn [option_map].
  pose proof (find_some _ _ Hfind) as [_ Hother]. apply Z.eqb_eq in Hother.
  destruct (d_id driver =? driver_id) eqn:Eid.
  - apply Z.eqb_eq in Eid.
    assert (fetched = driver).
    { assert (E : other_id = driver_id) by congruence. rewrite E in Hfind.
      rewrite Hfetched in Hfind. injection Hfind as <-. reflexivity. }
    subst fetched. rewrite Hstatus, String.eqb_refl in Hrefuse. cbn [andb] in Hrefuse.
    eexists. split; [reflexivity|]. split; [reflexivity|].
    cbn [d_status]. apply String.eqb_neq. exact Hrefuse.
  - eexists. split; [reflexivity|]. split; [reflexivity|].
    rewrite Hstatus. discriminate.
Qed.

End FleetVerification.

(** * The theorems on the reference platform *)

#[local] Existing Instance reference_platform.

Lemma reachable_run (env : Env) (script : list (Session * request)) (db0 db : DB) :
  reachable db0 db -> reachable db0 (run_requests env script db).
Proof.
  revert db. induction script as [|[session req] script IH]; intros db Hr.
  - exact Hr.
  - cbn [run_requests fold_left]. apply IH. cbn [fst snd].
    apply reachable_request. exact Hr.
Qed.

Lemma fleet_db_reachable : reachable seeded_db fleet_db.
Proof.
  apply reachable_run. apply reachable_start.
Qed.

(** C1 on the fleet: after the dispatcher registered and was approved, each
    assignable role has at most one holder. *)
Lemma one_user_per_assignable_role_witness : one_holder_per_role fleet_db.
Proof.
  destruct (one_user_per_assignable_role (P := reference_platform)) as (Hinv & Hseed & _).
  destruct (Hseed "salt") as [Hkey Hone].
  exact (Hinv seeded_db fleet_db Hkey Hone fleet_db_reachable).
Defined.

(** C2 on the fleet, on runs of both handlers.  A trip created as
    Dispatched puts the van and the driver on trip; the drafted trip, once
    dispatched by [update_trip_status], does the same; the dispatched trip,
    once completed or cancelled, sets both back to 'Available'; and a trip
    created as Completed sets the van, which was on trip, and its driver to
    'Available'. *)
Lemma trip_status_drives_availability_witness :
  let dispatched := mkTripForm (Some 1) (Some 1) (Some 300%float) (Some "Pune")
                      (Some "Nashik") (Some "Dispatched") in
  let completed := mkTripForm (Some 1) (Some 3) (Some 300%float) (Some "Pune")
                     (Some "Nashik") (Some "Completed") in
  let created := trips_view today0 POST dispatched dispatcher_session fleet_db in
  let closed := trips_view today0 POST completed dispatcher_session relief_db in
  let sent := update_trip_status today0 1 (Some "Dispatched") dispatcher_session fleet_db in
  let arrived :=
    update_trip_status today0 1 (Some "Completed") dispatcher_session dispatched_db in
  let called_off :=
    update_trip_status today0 1 (Some "Cancelled") dispatcher_session dispatched_db in
  (vehicle_status fleet_db 1 = Some "Available"
   /\ driver_status fleet_db 1 = Some "Available"
   /\ out_flashes created = [("Trip created.", "success")]
   /\ vehicle_status (out_db created) 1 = Some "On Trip"
   /\ driver_status (out_db created) 1 = Some "On Trip")
  /\ (vehicle_status relief_db 1 = Some "On Trip"
      /\ out_flashes closed = [("Trip created.", "success")]
      /\ vehicle_status (out_db closed) 1 = Some "Available"
      /\ driver_status (out_db closed) 3 = Some "Available")
  /\ (out_flashes sent = [("Trip status updated.", "success")]
      /\ vehicle_status (out_db sent) 1 = Some "On Trip"
      /\ driver_status (out_db sent) 1 = Some "On Trip")
  /\ (vehicle_status dispatched_db 1 = Some "On Trip"
      /\ driver_status dispatched_db 1 = Some "On Trip"
      /\ out_flashes arrived = [("Trip status updated.", "success")]
      /\ vehicle_status (out_db arrived) 1 = Some "Available"
      /\ driver_status (out_db arrived) 1 = Some "Available")
  /\ (out_flashes called_off = [("Trip status updated.", "success")]
      /\ vehicle_status (out_db called_off) 1 = Some "Available"
      /\ driver_status (out_db called_off) 1 = Some "Available").
Proof.
  intros dispatched completed created closed sent arrived called_off.
  assert (Hcreated : out_flashes created = [("Trip created.", "success")])
    by (vm_compute; reflexivity).
  assert (Hclosed : out_flashes closed = [("Trip created.", "success")])
    by (vm_compute; reflexivity).
  assert (Hsent : out_flashes sent = [("Trip status updated.", "success")])
    by (vm_compute; reflexivity).
  assert (Harrived : out_flashes arrived = [("Trip status updated.", "success")])
    by (vm_compute; reflexivity).
  assert (Hcalled : out_flashes called_off = [("Trip status updated.", "success")])
    by (vm_compute; reflexivity).
  destruct (trip_status_drives_availability (P := reference_platform)
              today0 dispatcher_session fleet_db) as [Hcreate Hupdate].
  destruct (trip_status_drives_availability (P := reference_platform)
              today0 dispatcher_session relief_db) as [Hcreate' _].
  destruct (trip_status_drives_availability (P := reference_platform)
              today0 dispatcher_session dispatched_db) as [_ Hupdate'].
  pose (drafted := mkTrip 1 1 1 (Some 500%float) "Pune" "Goa" "Draft").
  pose (on_road := mkTrip 1 1 1 (Some 500%float) "Pune" "Goa" "Dispatched").
  split; [|split; [|split; [|split]]].
  - split; [vm_compute; reflexivity|]. split; [vm_compute; reflexivity|].
    split; [exact Hcreated|].
    apply (proj1 (Hcreate dispatched 1 1 eq_refl eq_refl Hcreated)).
    vm_compute. reflexivity.
  - split; [vm_compute; reflexivity|]. split; [exact Hclosed|].
    apply (proj2 (Hcreate' completed 1 3 eq_refl eq_refl Hclosed)).
    left. vm_compute. reflexivity.
  - split; [exact Hsent|].
    apply (proj1 (Hupdate 1 (Some "Dispatched") drafted eq_refl Hsent)).
    vm_compute. reflexivity.
  - split; [vm_compute; reflexivity|]. split; [vm_compute; reflexivity|].
    split; [exact Harrived|].
    apply (proj2 (Hupdate' 1 (Some "Completed") on_road eq_refl Harrived)).
    left. vm_compute. reflexivity.
  - split; [exact Hcalled|].
    apply (proj2 (Hupdate' 1 (Some "Cancelled") on_road eq_refl Hcalled)).
    right. vm_compute. reflexivity.
Defined.

(** C3, what fails: the van now carries 100 kg at most and the stored trip
    weighs 500 kg, yet asking for the status the trip already has is
    answered with a success message. *)
Lemma cargo_refusal_counterexample :
  rows (trips overloaded_db) = [mkTrip 1 1 1 (Some 500%float) "Pune" "Goa" "Draft"]
  /\ rows (vehicles overloaded_db)
     = [mkVehicle 1 "Van" "AB-101" (Some 100%float) 12000 "Available"]
  /\ cargo_refused overloaded_db (Some 1) (Some 500%float) = true
  /\ update_trip_status today0 1 (Some "Draft") dispatcher_session overloaded_db
     = flash_redirect overloaded_db dispatcher_session "Trip status unchanged." "success"
         "trips" None
  /\ reports_error
       (update_trip_status today0 1 (Some "Draft") dispatcher_session overloaded_db)
     = false.
Proof.
  repeat split; vm_compute; reflexivity.
Qed.

(** C3 as amended, on the fleet: a trip without a cargo weight is refused,
    and so is dispatching the overweight trip. *)
Lemma cargo_refusal_leaves_state_witness :
  (let form := mkTripForm (Some 1) (Some 1) None (Some "Pune") (Some "Nashik") None in
   out_db (trips_view today0 POST form dispatcher_session fleet_db) = fleet_db
   /\ reports_error (trips_view today0 POST form dispatcher_session fleet_db) = true)
  /\ out_db (update_trip_status today0 1 (Some "Dispatched") dispatcher_session overloaded_db)
     = overloaded_db.
Proof.
  split.
  - intros form.
    exact (proj1 (cargo_refusal_leaves_state (P := reference_platform)
                    today0 dispatcher_session fleet_db) form eq_refl).
  - destruct (cargo_refusal_leaves_state (P := reference_platform)
                today0 dispatcher_session overloaded_db) as [_ Hupdate].
    refine (proj1 (Hupdate 1 (Some "Dispatched") _ _ _)).
    + vm_compute. reflexivity.
    + vm_compute. reflexivity.
Defined.

(** C4, what fails: the license of the second driver ran out, but the
    request carries no cargo weight, and that is what the answer reports. *)
Lemma lapsed_license_counterexample :
  let form := mkTripForm (Some 1) (Some 2) None (Some "Pune") (Some "Nashik") None in
  fetch_by_id (drivers fleet_db) 2
  = Ok (Some (mkDriver 2 "Bo" "L-2" (Some "2020-02-28") "Available" 75))
  /\ strptime_ymd "2020-02-28" = Some (mkdate 2020 2 28)
  /\ date_ltb (mkdate 2020 2 28) today0 = true
  /\ trips_view today0 POST form dispatcher_session fleet_db
     = flash_redirect fleet_db dispatcher_session "Cargo weight must be a positive number."
         "error" "trips" None
  /\ out_flashes (trips_view today0 POST form dispatcher_session fleet_db)
     <> [("Driver license is expired and cannot be assigned.", "error")].
Proof.
  intros form.
  split; [vm_compute; reflexivity|].
  split; [vm_compute; reflexivity|].
  split; [vm_compute; reflexivity|].
  split; [vm_compute; reflexivity|].
  vm_compute. discriminate.
Qed.

Lemma second_license_lapsed : license_lapsed today0 (Some "2020-02-28").
Proof.
  right. right. exists "2020-02-28", (mkdate 2020 2 28).
  repeat split; vm_compute; reflexivity.
Qed.

(** C4 as amended, on the fleet: with a cargo weight within capacity, a
    trip for the driver whose license ran out is refused with the license
    message, and nothing is written. *)
Lemma lapsed_license_leaves_state_witness :
  let form := mkTripForm (Some 1) (Some 2) (Some 300%float) (Some "Pune")
                (Some "Nashik") None in
  trips_view today0 POST form dispatcher_session fleet_db
  = flash_redirect fleet_db dispatcher_session
      "Driver license is expired and cannot be assigned." "error" "trips" None.
Proof.
  intros form.
  destruct (lapsed_license_leaves_state (P := reference_platform)
              today0 dispatcher_session fleet_db) as [Hcreate _].
  refine (proj2 (proj2 (Hcreate form 2 _ eq_refl _ _)) 1 _ eq_refl _ _ _ _ _).
  - vm_compute. reflexivity.
  - exact second_license_lapsed.
  - vm_compute. reflexivity.
  - discriminate.
  - discriminate.
  - vm_compute. discriminate.
  - vm_compute. discriminate.
  - unfold earlier_checks_pass. do 3 eexists.
    split; [vm_compute; reflexivity|]. repeat split; vm_compute; reflexivity.
Defined.

(** C5 on the fleet: the trips of the fleet all carry one of the four
    statuses. *)
Lemma trip_status_is_four_valued_witness : trip_statuses_valid fleet_db.
Proof.
  apply (proj1 (trip_status_is_four_valued (P := reference_platform)) seeded_db fleet_db).
  - intros t Ht. vm_compute in Ht. destruct Ht.
  - exact fleet_db_reachable.
Defined.

(** C6 on the fleet: the manager asks for a dispatcher route. *)
Lemma roles_required_guard_witness :
  out_db (roles_required ["Dispatcher"] (delete_trip 1) manager_session fleet_db) = fleet_db.
Proof.
  exact (proj1 (proj1 (roles_required_guard (P := reference_platform))
                  ["Dispatcher"] (delete_trip 1) manager_session fleet_db
                  (or_intror eq_refl))).
Defined.

Lemma fleet_users_status_checked : users_status_checked fleet_db.
Proof.
  intros u Hu. vm_compute in Hu. destruct Hu as [<-|[<-|[]]]; reflexivity.
Qed.

(** C7, what fails: the safety officer is pending, and an attempt with a
    wrong password is answered like any other wrong password, not with
    "Awaiting manager approval". *)
Lemma login_gated_by_approval_counterexample :
  let form := mkLoginForm (Some "sam@fleet.example") (Some "guess") in
  find (login_matches "sam@fleet.example") (rows (users pending_db))
  = Some (mkUser 3 "sam@fleet.example" (Some "Sam") (Some "sam@fleet.example")
            (generate_password_hash "salt" "s3cret") "Safety Officer" "pending")
  /\ check_password_hash (generate_password_hash "salt" "s3cret") "guess" = false
  /\ login POST form session_clear pending_db
     = flash_render pending_db session_clear "Invalid username or password." "error"
         "login.html"
  /\ out_flashes (login POST form session_clear pending_db)
     <> [("Awaiting manager approval", "error")].
Proof.
  intros form.
  split; [vm_compute; reflexivity|].
  split; [vm_compute; reflexivity|].
  split; [vm_compute; reflexivity|].
  vm_compute. discriminate.
Qed.

(** C7 as amended, on the fleet: the approved dispatcher logs in. *)
Lemma login_gated_by_approval_witness :
  exists user,
    login POST (mkLoginForm (Some "dee@fleet.example") (Some "pw")) session_clear fleet_db
    = logged_in fleet_db user.
Proof.
  apply (proj1 (login_gated_by_approval (P := reference_platform)
                  (mkLoginForm (Some "dee@fleet.example") (Some "pw")) session_clear
                  fleet_db fleet_users_status_checked)).
  eexists. split; [vm_compute; reflexivity|]. split; vm_compute; reflexivity.
Defined.

(** C8 on the fleet: the trips of the seeded database are still there. *)
Lemma trip_deletion_is_disabled_witness :
  exists added,
    map without_status (rows (trips fleet_db))
    = (map without_status (rows (trips seeded_db)) ++ added)%list.
Proof.
  exact (proj2 (proj2 (proj2 (trip_deletion_is_disabled (P := reference_platform))))
           seeded_db fleet_db fleet_db_reachable).
Defined.

(** C9 on the fleet: no trip can be created for the driver without a stored
    expiry date. *)
Lemma missing_expiry_counts_as_expired_witness :
  let form := mkTripForm (Some 1) (Some 3) (Some 300%float) (Some "Pune")
                (Some "Nashik") None in
  out_db (trips_view today0 POST form dispatcher_session undated_db) = undated_db
  /\ reports_error (trips_view today0 POST form dispatcher_session undated_db) = true.
Proof.
  intros form.
  destruct (missing_expiry_counts_as_expired (P := reference_platform) today0)
    as (_ & _ & _ & Hcreate & _).
  refine (Hcreate form dispatcher_session undated_db 3 _ eq_refl _ _).
  - vm_compute. reflexivity.
  - left. reflexivity.
Defined.

(** C10 on the fleet: the dispatched trip goes back to Draft, and the van
    and the driver are available again. *)
Lemma draft_revert_frees_resources_witness :
  let o := update_trip_status today0 1 (Some "Draft") dispatcher_session dispatched_db in
  vehicle_status dispatched_db 1 = Some "On Trip"
  /\ vehicle_status (out_db o) 1 = Some "Available"
  /\ driver_status (out_db o) 1 = Some "Available".
Proof.
  intros o. split; [vm_compute; reflexivity|].
  destruct (draft_revert_frees_resources (P := reference_platform)
              today0 dispatcher_session dispatched_db) as [Hrevert _].
  refine (Hrevert 1 (Some "Draft") (mkTrip 1 1 1 (Some 500%float) "Pune" "Goa" "Dispatched")
            _ _ _ _).
  - vm_compute. reflexivity.
  - discriminate.
  - vm_compute. reflexivity.
  - vm_compute. reflexivity.
Defined.

(** ** The further properties on the reference platform *)

Lemma seeded_users_primary_key : users_primary_key seeded_db.
Proof.
  unfold users_primary_key. vm_compute. repeat constructor. intros [].
Qed.

Lemma pending_users_primary_key : users_primary_key pending_db.
Proof.
  unfold users_primary_key.
  change (NoDup (map u_id (rows (users pending_db)))) with (NoDup [1; 2; 3]).
  repeat constructor; cbn [In]; intuition discriminate.
Qed.

Lemma pending_one_holder : one_holder_per_role pending_db.
Proof.
  intros role Hin. cbv [ASSIGNABLE_ROLES In] in Hin.
  destruct Hin as [<-|[<-|[<-|[]]]]; vm_compute; lia.
Qed.

Lemma serviced_db_reachable : reachable fleet_db serviced_db.
Proof.
  apply reachable_run. apply reachable_start.
Qed.

(** X1 on the fleet: opening the edit form of the van writes nothing. *)
Lemma get_requests_write_nothing_witness :
  out_db (handle env0 (EditVehicle 1 GET (mkVehicleForm None None None None None))
            manager_session fleet_db)
  = fleet_db.
Proof.
  exact (get_requests_write_nothing (P := reference_platform) env0
           (EditVehicle 1 GET (mkVehicleForm None None None None None))
           manager_session fleet_db eq_refl).
Defined.

(** X2 on the fleet: the dispatcher who creates a trip is still the one
    logged in. *)
Lemma login_keys_change_at_login_and_logout_witness :
  let form := mkTripForm (Some 1) (Some 1) (Some 300%float) (Some "Pune")
                (Some "Nashik") (Some "Dispatched") in
  let o := handle env0 (Trips POST form) dispatcher_session fleet_db in
  s_user_id (out_session o) = Some 2
  /\ s_username (out_session o) = Some "dee@fleet.example"
  /\ s_role (out_session o) = Some "Dispatcher".
Proof.
  intros form o.
  exact (login_keys_change_at_login_and_logout (P := reference_platform) env0
           (Trips POST form) dispatcher_session fleet_db eq_refl).
Defined.

(** X3 on the fleet: a trip request of the dispatcher leaves the users as
    they are. *)
Lemma routes_write_their_tables_witness :
  let form := mkTripForm (Some 1) (Some 1) (Some 300%float) (Some "Pune")
                (Some "Nashik") (Some "Dispatched") in
  users (out_db (handle env0 (Trips POST form) dispatcher_session fleet_db))
  = users fleet_db.
Proof.
  intros form.
  exact (proj1 (routes_write_their_tables (P := reference_platform) env0
                  (Trips POST form) dispatcher_session fleet_db) eq_refl).
Defined.

(** X4 on the fleet: the maintenance log of the brake pads is added behind
    the logs there were. *)
Lemma logs_are_append_only_witness :
  (exists added,
     rows (maintenance_logs serviced_db) = (rows (maintenance_logs fleet_db) ++ added)%list)
  /\ (exists added, rows (fuel_logs serviced_db) = (rows (fuel_logs fleet_db) ++ added)%list).
Proof.
  exact (logs_are_append_only (P := reference_platform) fleet_db serviced_db
           serviced_db_reachable).
Defined.

(** X5 on the fleet: the dispatcher who asks for the manager's dashboard is
    sent to the trips page, which opens. *)
Lemma refused_request_lands_on_a_page_witness :
  handle env0 Dashboard dispatcher_session fleet_db
  = flash_redirect fleet_db dispatcher_session
      "You do not have permission to access this action." "error" "trips" None
  /\ exists home template,
       home_request "trips" = Some home
       /\ handle env0 home dispatcher_session fleet_db
          = mkOutcome fleet_db dispatcher_session [] (Render template).
Proof.
  exact (refused_request_lands_on_a_page (P := reference_platform) env0 Dashboard
           ["Manager"] dispatcher_session fleet_db 2 eq_refl eq_refl eq_refl).
Defined.

(** X6 on the fleet: after the manager logs out, the dashboard asks for a
    login. *)
Lemma logout_closes_the_session_witness :
  handle env0 Dashboard (out_session (logout manager_session fleet_db)) fleet_db
  = mkOutcome fleet_db session_clear [] (Redirect "login" None).
Proof.
  exact (proj2 (logout_closes_the_session manager_session fleet_db 1 eq_refl)
           env0 Dashboard ["Manager"] fleet_db eq_refl).
Defined.

(** X7 on the fleet: the trip the dispatcher creates had the van, which was
    not in the shop, a driver who was available, and 300 kg, which is above
    zero and at most the 1000 kg of the van. *)
Lemma created_trip_had_available_driver_witness :
  let form := mkTripForm (Some 1) (Some 1) (Some 300%float) (Some "Pune")
                (Some "Nashik") (Some "Dispatched") in
  out_flashes (trips_view today0 POST form dispatcher_session fleet_db)
  = [("Trip created.", "success")]
  /\ exists vehicle_id driver_id vehicle w max_capacity_kg,
       tf_vehicle_id form = Some vehicle_id /\ tf_driver_id form = Some driver_id
       /\ driver_status fleet_db driver_id = Some "Available"
       /\ find (fun v => v_id v =? vehicle_id) (rows (vehicles fleet_db)) = Some vehicle
       /\ v_status vehicle <> "In Shop"
       /\ tf_cargo_weight form = Some w
       /\ v_max_capacity_kg vehicle = Some max_capacity_kg
       /\ PrimFloat.leb w 0%float = false
       /\ PrimFloat.ltb max_capacity_kg w = false
       /\ (PrimFloat.is_nan w = false ->
           PrimFloat.ltb 0%float w = true
           /\ (PrimFloat.is_nan max_capacity_kg = false ->
               PrimFloat.leb w max_capacity_kg = true)).
Proof.
  intros form.
  assert (Hok : out_flashes (trips_view today0 POST form dispatcher_session fleet_db)
                = [("Trip created.", "success")]) by (vm_compute; reflexivity).
  split; [exact Hok|].
  exact (created_trip_had_available_driver (P := reference_platform) today0 form
           dispatcher_session fleet_db Hok).
Defined.

(** X8 on the fleet: the drafted trip is dispatched, and the van and the
    driver were available. *)
Lemma dispatch_requires_availability_witness :
  out_flashes (update_trip_status today0 1 (Some "Dispatched") dispatcher_session fleet_db)
  = [("Trip status updated.", "success")]
  /\ vehicle_status fleet_db 1 = Some "Available"
  /\ driver_status fleet_db 1 = Some "Available".
Proof.
  assert (Hok : out_flashes (update_trip_status today0 1 (Some "Dispatched")
                               dispatcher_session fleet_db)
                = [("Trip status updated.", "success")]) by (vm_compute; reflexivity).
  split; [exact Hok|].
  exact (proj2 (dispatch_requires_availability (P := reference_platform) today0
                  dispatcher_session fleet_db)
           1 (Some "Dispatched") (mkTrip 1 1 1 (Some 500%float) "Pune" "Goa" "Draft")
           eq_refl eq_refl Hok).
Defined.

(** X9 on the fleet: the van goes to the shop, and a trip with it is then
    refused. *)
Lemma vehicle_in_shop_is_not_assigned_witness :
  let service := mkMaintenanceForm (Some 1) (Some "Brake pads") (Some 150%float)
                   (Some "2026-11-03") in
  let form := mkTripForm (Some 1) (Some 1) (Some 300%float) (Some "Pune")
                (Some "Nashik") (Some "Draft") in
  vehicle_status (out_db (maintenance POST service manager_session fleet_db)) 1
  = Some "In Shop"
  /\ out_db (trips_view today0 POST form dispatcher_session serviced_db) = serviced_db
  /\ reports_error (trips_view today0 POST form dispatcher_session serviced_db) = true.
Proof.
  intros service form. split.
  - apply (proj1 (vehicle_in_shop_is_not_assigned (P := reference_platform) today0
                    manager_session fleet_db) service 1 eq_refl).
    vm_compute. reflexivity.
  - apply (proj1 (proj2 (vehicle_in_shop_is_not_assigned (P := reference_platform) today0
                           dispatcher_session serviced_db)) form 1 eq_refl).
    vm_compute. reflexivity.
Defined.


(** X11 on the fleet: the drafted trip is read back as Dispatched, and asking
    for Dispatched again changes nothing. *)
Lemma updated_trip_is_stored_witness :
  let db' := out_db (update_trip_status today0 1 (Some "Dispatched") dispatcher_session
                       fleet_db) in
  fetch_by_id (trips db') 1
  = Ok (Some (mkTrip 1 1 1 (Some 500%float) "Pune" "Goa" "Dispatched"))
  /\ forall (today' : date) (session' : Session),
       update_trip_status today' 1 (Some "Dispatched") session' db'
       = flash_redirect db' session' "Trip status unchanged." "success" "trips" None.
Proof.
  apply (updated_trip_is_stored (P := reference_platform) today0 1 (Some "Dispatched")
           dispatcher_session fleet_db
           (mkTrip 1 1 1 (Some 500%float) "Pune" "Goa" "Draft")).
  - vm_compute. reflexivity.
  - vm_compute. reflexivity.
Defined.

(** X12 on the fleet: the safety officer's request takes the role. *)
Lemma registration_takes_the_role_witness :
  role_held fleet_db "Safety Officer" = false
  /\ role_held pending_db "Safety Officer" = true
  /\ str_in "Safety Officer" (get_available_roles_for_registration pending_db) = false.
Proof.
  pose (form := mkRegisterForm (Some "Sam") (Some "sam@fleet.example") (Some "s3cret")
                  (Some "Safety Officer")).
  assert (Hok : out_flashes (register "salt" POST form session_clear fleet_db)
                = [("Request submitted", "success")]) by (vm_compute; reflexivity).
  destruct (registration_takes_the_role (P := reference_platform) "salt" form
              session_clear fleet_db Hok) as (_ & Hfree & _ & Hheld & Hgone).
  split; [exact Hfree|]. split; [exact Hheld|exact Hgone].
Defined.

(** X13 on the fleet: once the manager rejects the safety officer, the role
    is offered again. *)
Lemma rejection_frees_the_role_witness :
  let db' := out_db (reject_user 3 manager_session pending_db) in
  fetch_by_id (users db') 3
  = Ok (Some (mkUser 3 "sam@fleet.example" (Some "Sam") (Some "sam@fleet.example")
                "salt$s3cret" "Safety Officer" "rejected"))
  /\ str_in "Safety Officer" (get_available_roles_for_registration db') = true.
Proof.
  apply (rejection_frees_the_role (P := reference_platform) 3 manager_session pending_db
           (mkUser 3 "sam@fleet.example" (Some "Sam") (Some "sam@fleet.example")
              "salt$s3cret" "Safety Officer" "pending")
           pending_users_primary_key pending_one_holder).
  - vm_compute. reflexivity.
  - cbn. tauto.
  - vm_compute. reflexivity.
Defined.

(** X14 on the fleet: once the manager removes the safety officer, the role
    is offered again. *)
Lemma deletion_frees_the_role_witness :
  let db' := out_db (delete_user 3 manager_session pending_db) in
  fetch_by_id (users db') 3 = Ok None
  /\ str_in "Safety Officer" (get_available_roles_for_registration db') = true.
Proof.
  apply (deletion_frees_the_role (P := reference_platform) 3 manager_session pending_db
           (mkUser 3 "sam@fleet.example" (Some "Sam") (Some "sam@fleet.example")
              "salt$s3cret" "Safety Officer" "pending")
           pending_users_primary_key pending_one_holder).
  - vm_compute. reflexivity.
  - cbn. tauto.
  - vm_compute. reflexivity.
  - vm_compute. reflexivity.
Defined.

(** X15 on the fleet: the seeded manager is the only manager still. *)
Lemma managers_are_never_changed_witness : managers fleet_db = managers seeded_db.
Proof.
  exact (managers_are_never_changed (P := reference_platform) seeded_db fleet_db
           seeded_users_primary_key fleet_db_reachable).
Defined.

(** X16 on the fleet: the van passed the checks. *)
Lemma stored_vehicles_are_valid_witness : vehicles_valid fleet_db.
Proof.
  apply (stored_vehicles_are_valid (P := reference_platform) seeded_db fleet_db).
  - intros v [].
  - exact fleet_db_reachable.
Defined.

(** X17 on the fleet: the two drivers passed the checks, and their expiry
    dates are read. *)
Lemma stored_drivers_are_valid_witness :
  drivers_valid fleet_db
  /\ forall today d, In d (rows (drivers fleet_db)) ->
       exists expired, is_license_expired today (d_license_expiry_date d) = Ok expired.
Proof.
  apply (stored_drivers_are_valid (P := reference_platform) seeded_db fleet_db).
  - intros d [].
  - exact fleet_db_reachable.
Defined.

(** X18 on the fleet: the drafted trip names the van and the driver. *)
Lemma trips_name_existing_rows_witness : trips_refer fleet_db.
Proof.
  apply (trips_name_existing_rows (P := reference_platform) seeded_db fleet_db).
  - intros t [].
  - exact fleet_db_reachable.
Defined.

(** X19 on the fleet: the dispatcher logs in and the trips page opens. *)
Lemma login_opens_the_home_page_witness :
  let form := mkLoginForm (Some "dee@fleet.example") (Some "pw") in
  out_response (login POST form session_clear fleet_db) = Redirect "trips" None
  /\ exists home template,
       home_request "trips" = Some home
       /\ handle env0 home (out_session (login POST form session_clear fleet_db)) fleet_db
          = mkOutcome fleet_db (out_session (login POST form session_clear fleet_db)) []
              (Render template).
Proof.
  intros form.
  assert (Hok : out_response (login POST form session_clear fleet_db)
                = Redirect "trips" None) by (vm_compute; reflexivity).
  split; [exact Hok|].
  exact (login_opens_the_home_page (P := reference_platform) env0 form session_clear
           fleet_db "trips" None Hok).
Defined.

(** X20 on the fleet: the safety officer logs in once approved, and is
    denied once rejected. *)
Lemma decision_shows_at_login_witness :
  let form := mkLoginForm (Some "sam@fleet.example") (Some "s3cret") in
  out_session (login POST form session_clear
                 (out_db (approve_user 3 manager_session pending_db)))
  = mkSession (Some 3) (Some "sam@fleet.example") (Some "Safety Officer")
  /\ out_flashes (login POST form session_clear
                    (out_db (reject_user 3 manager_session pending_db)))
     = [("Access denied by manager", "error")].
Proof.
  intros form.
  pose (user := mkUser 3 "sam@fleet.example" (Some "Sam") (Some "sam@fleet.example")
                  "salt$s3cret" "Safety Officer" "pending").
  assert (Hfind : find (login_matches (py_strip (get_default (lf_username form) "")))
                    (rows (users pending_db)) = Some user) by (vm_compute; reflexivity).
  assert (Hpw : check_password_hash (u_password_hash user)
                  (get_default (lf_password form) "") = true) by (vm_compute; reflexivity).
  destruct (decision_shows_at_login (P := reference_platform) form manager_session
              session_clear pending_db user Hfind Hpw) as [Happrove Hreject].
  split.
  - change (u_id user) with 3 in Happrove. rewrite Happrove; [reflexivity|].
    vm_compute. reflexivity.
  - change (u_id user) with 3 in Hreject. rewrite Hreject; [reflexivity|].
    vm_compute. reflexivity.
Defined.

(** X21 on the fleet: the driver of the dispatched trip is not suspended by
    the safety officer's request. *)
Lemma driver_on_trip_is_not_suspended_witness :
  exists driver',
    find (fun d => d_id d =? 1)
      (rows (drivers (out_db (safety_update_driver 1 (Some 40) (Some "Suspended")
                                (mkSession (Some 3) (Some "sam@fleet.example")
                                   (Some "Safety Officer"))
                                dispatched_db))))
    = Some driver'
    /\ d_id driver' = 1
    /\ d_status driver' <> "Suspended".
Proof.
  apply (driver_on_trip_is_not_suspended (P := reference_platform) 1 (Some 40)
           (Some "Suspended")
           (mkSession (Some 3) (Some "sam@fleet.example") (Some "Safety Officer"))
           dispatched_db 1 (mkDriver 1 "Al" "L-1" (Some "2027-01-31") "On Trip" 75)).
  - vm_compute. reflexivity.
  - reflexivity.
Defined.
